(** * robo-python: the resilient-connection core, embedded in Rocq

    A shallow embedding of the connection layer of the trading client
    (src/connection/*.py) and of the reconciliation methods of
    src/core/bot.py, with the properties of spec.md stated over it.

    Conventions of the embedding:
    - Python [float] values are exact rationals ([Q]); rounding is outside
      the model. Python [int] values are [Z].
    - A [dict] decoded from JSON is a [gmap]; a [dict] whose insertion order
      is observable (it is iterated) is an association list.
    - Objects that are shared by reference (contracts, futures) live in a
      store and are named by a location.
    - A method that mutates [self] or may raise is a function from the
      state to the new state and a [result]; state written before a [raise]
      is kept, as in Python.
    - [exn] stands for instances of [Exception]; task cancellation and
      interpreter exits ([BaseException]) are outside the model. *)

From Stdlib Require Import QArith Qcanon Qround ZArith Lia Lqa List Sorted.
From stdpp Require Import gmap strings list fin_maps countable functions.
Import ListNotations.

#[local] Set Warnings "-register-all".
#[local] Open Scope Z_scope.

(** ** Python results: a value or a raised exception *)

Inductive exn : Type :=
| TypeError
| KeyError (key : string)
| AttributeError (attr : string)
| ValueError
| IndexError
| RuntimeError (msg : string).

Inductive result (A : Type) : Type :=
| Ret (a : A)
| Raise (e : exn).

Arguments Ret {A} a.
Arguments Raise {A} e.

(** A computation over a state [S]: the state after it, and its result. *)
Definition Py (S A : Type) : Type := S -> S * result A.

Definition ret {S A} (a : A) : Py S A := fun s => (s, Ret a).

Definition raise {S A} (e : exn) : Py S A := fun s => (s, Raise e).

Definition bind {S A B} (m : Py S A) (k : A -> Py S B) : Py S B :=
  fun s => match m s with
           | (s', Ret a) => k a s'
           | (s', Raise e) => (s', Raise e)
           end.

(** [try: m  except Exception as e: h e] *)
Definition try_except {S A} (m : Py S A) (h : exn -> Py S A) : Py S A :=
  fun s => match m s with
           | (s', Ret a) => (s', Ret a)
           | (s', Raise e) => h e s'
           end.

Definition modify {S} (f : S -> S) : Py S unit := fun s => (f s, Ret tt).

Definition gets {S A} (f : S -> A) : Py S A := fun s => (s, Ret (f s)).

Declare Scope py_scope.
Delimit Scope py_scope with py.
Notation "x <- m ;; k" := (bind m (fun x => k))
  (at level 90, m at next level, right associativity) : py_scope.
Notation "m ;;; k" := (bind m (fun _ => k))
  (at level 90, right associativity) : py_scope.

(** [l[i]]: a negative index counts from the end; out of range raises. *)
Definition py_index {A} (l : list A) (i : Z) : result A :=
  let n := Z.of_nat (length l) in
  let j := if i <? 0 then i + n else i in
  if (0 <=? j) && (j <? n)
  then match nth_error l (Z.to_nat j) with
       | Some x => Ret x
       | None => Raise IndexError
       end
  else Raise IndexError.

(** ** JSON values, as [json.loads] produces them *)

Inductive json : Type :=
| JNull
| JBool (b : bool)
| JNum (q : Q)
| JStr (s : string)
| JArr (l : list json)
| JObj (o : gmap string json).

(** A decoded frame: a JSON object. *)
Abbreviation frame := (gmap string json).

(** [key in data] *)
Definition has_key (key : string) (data : frame) : bool :=
  bool_decide (is_Some (data !! key)).

(** [data[key]] *)
Definition getitem {S} (data : frame) (key : string) : Py S json :=
  match data !! key with
  | Some v => ret v
  | None => raise (KeyError key)
  end.

(** [v.get(key, default)]: only a [dict] has the method. *)
Definition dict_get {S} (v : json) (key : string) (dflt : json) : Py S json :=
  match v with
  | JObj o => ret (default dflt (o !! key))
  | _ => raise (AttributeError "get")
  end.

(** Hashable values, up to Python's key equality: [True == 1 == 1.0] are
    one key, equal numbers are one key. *)
Inductive pykey : Type :=
| KNone
| KNum (q : Qc)
| KStr (s : string).

#[global] Instance pykey_eq_dec : EqDecision pykey.
Proof. solve_decision. Defined.

#[global] Instance pykey_countable : Countable pykey.
Proof.
  refine (inj_countable'
    (fun k => match k with
              | KNone => inl tt
              | KNum q => inr (inl q)
              | KStr s => inr (inr s)
              end)
    (fun x => match x with
              | inl _ => KNone
              | inr (inl q) => KNum q
              | inr (inr s) => KStr s
              end) _).
  intros []; reflexivity.
Defined.

(** [hash(v)]: lists and dicts are unhashable. *)
Definition hashable {S} (v : json) : Py S pykey :=
  match v with
  | JNull => ret KNone
  | JBool b => ret (KNum (Q2Qc (if b then 1 else 0)))
  | JNum q => ret (KNum (Q2Qc q))
  | JStr s => ret (KStr s)
  | JArr _ | JObj _ => raise TypeError
  end.

(** [v == "s"] for a string literal. *)
Definition is_str (v : json) (s : string) : bool :=
  match v with
  | JStr s' => bool_decide (s' = s)
  | _ => false
  end.

(** ** src/connection/message_processor.py *)

Module MessageProcessor.

Section Processor.

(** The world the collaborators' handlers act on. *)
Context {World : Type}.

(** An [async] handler: it receives the payload, may change the world and
    may raise. [None] is a normal return. *)
Definition handler : Type := json -> World -> World * option exn.

Inductive log_entry : Type :=
| DebugMessageReceived (message_type : json)
| DebugNoCallback (message_type : json)
| ErrorApi (error_msg : json)
| ErrorCallback (message_type : json) (e : exn)
| ErrorProcessing (e : exn)
| DebugContent (data : frame).

Record t : Type := mk {
  message_count : Z;
  error_count : Z;
  tick_callback : option handler;
  contract_callback : option handler;
  balance_callback : option handler;
  error_callback : option handler;
  ignored_message_types : gset pykey;
  message_stats : gmap pykey Z;
  log : list log_entry
}.

(** [__init__] *)
Definition init : t := {|
  message_count := 0;
  error_count := 0;
  tick_callback := None;
  contract_callback := None;
  balance_callback := None;
  error_callback := None;
  ignored_message_types :=
    {[ KStr "website_status"; KStr "msg_type"; KStr "pong"; KStr "ping" ]};
  message_stats := ∅;
  log := []
|}.

Definition set_callbacks (tick contract balance error : option handler) (mp : t) : t :=
  {| message_count := message_count mp;
     error_count := error_count mp;
     tick_callback := tick;
     contract_callback := contract;
     balance_callback := balance;
     error_callback := error;
     ignored_message_types := ignored_message_types mp;
     message_stats := message_stats mp;
     log := log mp |}.

(** The processor and the world its handlers act on. *)
Definition state : Type := t * World.

Definition logger (e : log_entry) : Py state unit :=
  modify (fun '(mp, w) =>
    ({| message_count := message_count mp;
        error_count := error_count mp;
        tick_callback := tick_callback mp;
        contract_callback := contract_callback mp;
        balance_callback := balance_callback mp;
        error_callback := error_callback mp;
        ignored_message_types := ignored_message_types mp;
        message_stats := message_stats mp;
        log := log mp ++ [e] |}, w)).

Definition set_counts (mc ec : Z) (stats : gmap pykey Z) (mp : t) : t :=
  {| message_count := mc;
     error_count := ec;
     tick_callback := tick_callback mp;
     contract_callback := contract_callback mp;
     balance_callback := balance_callback mp;
     error_callback := error_callback mp;
     ignored_message_types := ignored_message_types mp;
     message_stats := stats;
     log := log mp |}.

(** [await callback(payload)] *)
Definition call (h : handler) (payload : json) : Py state unit :=
  fun '(mp, w) =>
    match h payload w with
    | (w', None) => ((mp, w'), Ret tt)
    | (w', Some e) => ((mp, w'), Raise e)
    end.

(** [_identify_message_type]: the chain of [if key in data: return ...]. *)
Definition _identify_message_type (data : frame) : json :=
  if has_key "tick" data then JStr "tick"
  else if has_key "proposal_open_contract" data then JStr "contract_update"
  else if has_key "balance" data then JStr "balance"
  else if has_key "authorize" data then JStr "authorize"
  else if has_key "error" data then JStr "error"
  else if has_key "ping" data || has_key "pong" data then JStr "ping_pong"
  else if has_key "website_status" data then JStr "website_status"
  else if has_key "time" data then JStr "server_time"
  else if has_key "buy" data || has_key "sell" data || has_key "proposal" data
       then JStr "trading"
  else match data !! "msg_type" with
       | Some v => v
       | None => JStr "unknown"
       end.

(** [message_type in self.ignored_message_types] *)
Definition is_ignored (message_type : json) : Py state bool :=
  (k <- hashable message_type ;;
   gets (fun '(mp, _) => bool_decide (k ∈ ignored_message_types mp)))%py.

(** The guard of one [elif]: [message_type == name and callback]. *)
Definition guard (message_type : json) (name : string) (callback : option handler)
  : option handler :=
  if is_str message_type name then callback else None.

(** The body of the [try] of [_dispatch_message]: the [if/elif] chain. *)
Definition dispatch_body (message_type : json) (data : frame) : Py state unit :=
  fun s =>
    let mp := fst s in
    match guard message_type "tick" (tick_callback mp) with
    | Some h => (payload <- getitem data "tick" ;; call h payload)%py s
    | None =>
    match guard message_type "contract_update" (contract_callback mp) with
    | Some h =>
        (payload <- getitem data "proposal_open_contract" ;; call h payload)%py s
    | None =>
    match guard message_type "balance" (balance_callback mp) with
    | Some h => (payload <- getitem data "balance" ;; call h payload)%py s
    | None =>
    match guard message_type "error" (error_callback mp) with
    | Some h =>
        (error_info <- getitem data "error" ;;
         error_msg <- dict_get error_info "message" (JStr "Erro desconhecido") ;;
         logger (ErrorApi error_msg) ;;;
         call h error_info)%py s
    | None =>
        (ignored <- is_ignored message_type ;;
         if ignored : bool then ret tt
         else logger (DebugNoCallback message_type))%py s
    end end end end.

(** [_dispatch_message]: whatever the chain raises is logged, not re-raised. *)
Definition _dispatch_message (message_type : json) (data : frame) : Py state unit :=
  try_except (dispatch_body message_type data)
             (fun e => logger (ErrorCallback message_type e)).

(** [self.message_stats[message_type] = self.message_stats.get(message_type, 0) + 1] *)
Definition count_type (message_type : json) : Py state unit :=
  (k <- hashable message_type ;;
   modify (fun '(mp, w) =>
     (set_counts (message_count mp) (error_count mp)
        (<[k := default 0 (message_stats mp !! k) + 1]> (message_stats mp)) mp, w)))%py.

(** [_process_single_message] *)
Definition _process_single_message (data : frame) : Py state unit :=
  (modify (fun '(mp, w) =>
     (set_counts (message_count mp + 1) (error_count mp) (message_stats mp) mp, w)) ;;;
   try_except
     (let message_type := _identify_message_type data in
      count_type message_type ;;;
      ignored <- is_ignored message_type ;;
      if ignored : bool then ret tt
      else
        (if is_str message_type "tick" || is_str message_type "balance"
         then ret tt
         else logger (DebugMessageReceived message_type)) ;;;
        _dispatch_message message_type data)
     (fun e =>
        modify (fun '(mp, w) =>
          (set_counts (message_count mp) (error_count mp + 1) (message_stats mp) mp, w)) ;;;
        logger (ErrorProcessing e) ;;;
        logger (DebugContent data)))%py.

(** [process_message]: the entry point the read pump calls. *)
Definition process_message (data : frame) : Py state unit :=
  _process_single_message data.

(** The handler the [if/elif] chain of [_dispatch_message] selects for a
    type, with the key of the payload it is given. *)
Definition selected (mp : t) (message_type : json) : option (string * handler) :=
  match guard message_type "tick" (tick_callback mp) with
  | Some h => Some ("tick", h)
  | None =>
  match guard message_type "contract_update" (contract_callback mp) with
  | Some h => Some ("proposal_open_contract", h)
  | None =>
  match guard message_type "balance" (balance_callback mp) with
  | Some h => Some ("balance", h)
  | None =>
  match guard message_type "error" (error_callback mp) with
  | Some h => Some ("error", h)
  | None => None
  end end end end.

(** *** The priority order of spec.md, section 6, as a table *)

(** Each row: the keys that select the type, and the type. Rows are in the
    order of the spec: tick, position-status payload, balance, authorization
    result, error, ping/pong, service-status, server-time, trade-echo. *)
Definition priority_table : list (list string * string) :=
  [ (["tick"], "tick");
    (["proposal_open_contract"], "contract_update");
    (["balance"], "balance");
    (["authorize"], "authorize");
    (["error"], "error");
    (["ping"; "pong"], "ping_pong");
    (["website_status"], "website_status");
    (["time"], "server_time");
    (["buy"; "sell"; "proposal"], "trading") ]%string.

Definition row_matches (data : frame) (row : list string * string) : bool :=
  existsb (fun key => has_key key data) (fst row).

(** First match wins; then the generic [msg_type] tag; else [unknown]. *)
Definition first_match (data : frame) : json :=
  match List.find (row_matches data) priority_table with
  | Some row => JStr (snd row)
  | None =>
      match data !! "msg_type" with
      | Some tag => tag
      | None => JStr "unknown"
      end
  end.

End Processor.

Arguments handler World : clear implicits.
Arguments t World : clear implicits.
Arguments state World : clear implicits.

Section Properties.

Context {World : Type}.

Implicit Types (mp : t World) (w : World) (data : frame) (s : state World).

(** A computation that leaves both counters of the processor alone. *)
Definition keeps_counts {A} (m : Py (state World) A) : Prop :=
  forall s s' r, m s = (s', r) ->
    error_count (fst s') = error_count (fst s) /\
    message_count (fst s') = message_count (fst s).

Lemma keeps_ret {A} (a : A) : keeps_counts (ret a).
Proof. intros s s' r [= <- _]. auto. Qed.

Lemma keeps_raise {A} e : keeps_counts (@raise _ A e).
Proof. intros s s' r [= <- _]. auto. Qed.

Lemma keeps_bind {A B} (m : Py (state World) A) (k : A -> Py (state World) B) :
  keeps_counts m -> (forall a, keeps_counts (k a)) -> keeps_counts (bind m k).
Proof.
  intros Hm Hk s s' r. unfold bind.
  destruct (m s) as [s1 [a|e]] eqn:E; intros H.
  - destruct (Hm _ _ _ E) as [H1 H2], (Hk a _ _ _ H) as [H3 H4]. split; congruence.
  - injection H as <- _. exact (Hm _ _ _ E).
Qed.

Lemma keeps_try {A} (m : Py (state World) A) h :
  keeps_counts m -> (forall e, keeps_counts (h e)) -> keeps_counts (try_except m h).
Proof.
  intros Hm Hh s s' r. unfold try_except.
  destruct (m s) as [s1 [a|e]] eqn:E; intros H.
  - injection H as <- _. exact (Hm _ _ _ E).
  - destruct (Hm _ _ _ E) as [H1 H2], (Hh e _ _ _ H) as [H3 H4]. split; congruence.
Qed.

Lemma keeps_logger l : keeps_counts (logger (World:=World) l).
Proof. intros [mp w] s' r [= <- _]. auto. Qed.

Lemma keeps_call (h : handler World) payload : keeps_counts (call h payload).
Proof.
  intros [mp w] s' r. unfold call.
  destruct (h payload w) as [w' [e|]]; intros [= <- _]; auto.
Qed.

Lemma keeps_getitem data key : keeps_counts (getitem (S:=state World) data key).
Proof. unfold getitem. destruct (data !! key); [apply keeps_ret | apply keeps_raise]. Qed.

Lemma keeps_dict_get v key d : keeps_counts (dict_get (S:=state World) v key d).
Proof. destruct v; simpl; first [apply keeps_ret | apply keeps_raise]. Qed.

Lemma keeps_hashable v : keeps_counts (hashable (S:=state World) v).
Proof. destruct v; simpl; first [apply keeps_ret | apply keeps_raise]. Qed.

Lemma keeps_is_ignored v : keeps_counts (is_ignored (World:=World) v).
Proof.
  apply keeps_bind; [apply keeps_hashable|].
  intros k [mp w] s' r [= <- _]. auto.
Qed.

Create HintDb keeps.
#[local] Hint Resolve keeps_ret keeps_raise keeps_logger keeps_call keeps_getitem
  keeps_dict_get keeps_hashable keeps_is_ignored : keeps.
#[local] Hint Extern 2 (keeps_counts (bind _ _)) => apply keeps_bind; [|intros ?] : keeps.
#[local] Hint Extern 2 (keeps_counts (if ?b then _ else _)) => destruct b : keeps.

Lemma keeps_dispatch_body mt data : keeps_counts (dispatch_body (World:=World) mt data).
Proof.
  intros s s' r. unfold dispatch_body.
  repeat match goal with
         | |- context [match guard ?a ?b ?c with _ => _ end] => destruct (guard a b c)
         end;
  match goal with |- ?m s = _ -> _ => assert (keeps_counts m) as K by auto 8 with keeps end;
  apply K.
Qed.

Lemma keeps_dispatch mt data : keeps_counts (_dispatch_message (World:=World) mt data).
Proof. apply keeps_try; [apply keeps_dispatch_body | auto with keeps]. Qed.

(** [_dispatch_message] returns normally, whatever its chain does. *)
Lemma dispatch_returns mt data s : snd (_dispatch_message mt data s) = Ret tt.
Proof.
  unfold _dispatch_message, try_except.
  destruct (dispatch_body mt data s) as [s1 [[]|e]]; [reflexivity|].
  destruct s1; reflexivity.
Qed.

Lemma process_returns data s : snd (process_message data s) = Ret tt.
Proof.
  unfold process_message, _process_single_message, bind at 1, modify at 1.
  destruct s as [mp w]. unfold try_except.
  match goal with |- context [match ?m ?s0 with _ => _ end] =>
    destruct (m s0) as [s1 [[]|e]] eqn:E end; [reflexivity|].
  destruct s1; reflexivity.
Qed.

(** C7. For every inbound frame the classifier returns the first matching
    type of the priority table of the spec (tick, position-status payload,
    balance, authorization result, error, ping/pong, service-status,
    server-time, trade-echo), then the generic [msg_type] tag, else
    [unknown]: a frame that has an earlier key is never given a later type. *)
Theorem identify_message_type_first_match data :
  _identify_message_type data = first_match data.
Proof.
  unfold _identify_message_type, first_match, priority_table, row_matches.
  cbn [List.find existsb fst snd].
  repeat match goal with
         | |- context [has_key ?k data] =>
             destruct (has_key k data); cbn [orb]; try reflexivity
         end.
Qed.

Lemma selected_guard mp name key (h : handler World) :
  selected mp (JStr name) = Some (key, h) ->
  (name = "tick" /\ key = "tick" /\ tick_callback mp = Some h) \/
  (name = "contract_update" /\ key = "proposal_open_contract" /\
     contract_callback mp = Some h) \/
  (name = "balance" /\ key = "balance" /\ balance_callback mp = Some h) \/
  (name = "error" /\ key = "error" /\ error_callback mp = Some h).
Proof.
  unfold selected, guard, is_str.
  repeat case_bool_decide; subst; try discriminate;
    repeat match goal with
           | |- context [match ?c mp with _ => _ end] => destruct (c mp) eqn:?
           end;
    intros [= <- <-]; tauto.
Qed.

Lemma not_ignored mp w name :
  KStr name ∉ ignored_message_types mp ->
  is_ignored (JStr name) (mp, w) = ((mp, w), Ret false).
Proof.
  intros H. unfold is_ignored, bind, hashable, ret, gets.
  by rewrite bool_decide_eq_false_2.
Qed.

Lemma dispatch_body_raises mp w data name key (h : handler World) payload w' e :
  selected mp (JStr name) = Some (key, h) ->
  data !! key = Some payload ->
  (key = "error"%string -> exists o, payload = JObj o) ->
  h payload w = (w', Some e) ->
  exists mp1,
    dispatch_body (JStr name) data (mp, w) = ((mp1, w'), Raise e) /\
    (forall l, List.In l (log mp) -> List.In l (log mp1)).
Proof.
  intros Hsel Hpay Hobj Hh.
  destruct (selected_guard _ _ _ _ Hsel)
    as [(-> & -> & Hc)|[(-> & -> & Hc)|[(-> & -> & Hc)|(-> & -> & Hc)]]];
    unfold dispatch_body, guard; cbn [fst is_str];
    repeat (rewrite bool_decide_eq_false_2 by discriminate);
    rewrite ?bool_decide_eq_true_2 by reflexivity;
    rewrite Hc; unfold bind at 1, getitem; rewrite Hpay; unfold ret at 1.
  1-3: exists mp; unfold call; rewrite Hh; auto.
  destruct Hobj as [o ->]; [reflexivity|].
  unfold bind, dict_get, ret, logger, modify, call. rewrite Hh.
  eexists; split; [reflexivity|]. cbn. intros l Hl. apply in_or_app; auto.
Qed.

(** C8, as the code has it. For every frame whose type has a registered
    handler and is not in the ignore set, an exception raised by the handler
    is caught inside the dispatch step and logged, and the entry point
    returns normally to the read pump; the error counter of the dispatcher is
    left as it was (it counts only what fails outside the dispatch step). *)
Theorem handler_exception_contained
    mp w data name key (h : handler World) payload w' e :
  _identify_message_type data = JStr name ->
  selected mp (JStr name) = Some (key, h) ->
  KStr name ∉ ignored_message_types mp ->
  data !! key = Some payload ->
  (key = "error"%string -> exists o, payload = JObj o) ->
  h payload w = (w', Some e) ->
  exists mp',
    process_message data (mp, w) = ((mp', w'), Ret tt) /\
    List.In (ErrorCallback (JStr name) e) (log mp') /\
    error_count mp' = error_count mp /\
    message_count mp' = message_count mp + 1.
Proof.
  intros Hty Hsel Hign Hpay Hobj Hh.
  unfold process_message, _process_single_message.
  rewrite Hty.
  unfold bind at 1, modify at 1.
  unfold try_except at 1, bind at 1, count_type, bind at 1, hashable, ret at 1,
    modify at 1.
  unfold bind at 1. rewrite not_ignored by exact Hign.
  set (mp2 := set_counts _ _ _ _).
  match goal with |- context [bind (if ?c then ?a else ?b)] => set (pre := if c then a else b) end.
  assert (exists mp3, pre (mp2, w) = ((mp3, w), Ret tt) /\
            selected mp3 (JStr name) = Some (key, h) /\
            error_count mp3 = error_count mp /\
            message_count mp3 = message_count mp + 1) as (mp3 & Epre & Hsel3 & Hec & Hmc).
  { subst pre. destruct (_ || _); eexists; (split; [reflexivity|]); auto. }
  unfold bind at 1. rewrite Epre.
  destruct (dispatch_body_raises mp3 w data name key h payload w' e Hsel3 Hpay Hobj Hh)
    as (mp4 & Ebody & Hlog).
  destruct (keeps_dispatch_body _ _ _ _ _ Ebody) as [Hec4 Hmc4]. cbn [fst] in *.
  unfold _dispatch_message, try_except. rewrite Ebody.
  unfold logger, modify. eexists; split; [reflexivity|]. cbn.
  split; [apply in_or_app; right; left; reflexivity|]. lia.
Qed.

End Properties.

(** *** A concrete run: a tick handler that raises *)

(** The world records the payloads the handler was given. *)
Definition failing_tick_handler : handler (list json) :=
  fun payload seen => (seen ++ [payload], Some (RuntimeError "handler failed")).

Definition processor_with_failing_tick : t (list json) :=
  set_callbacks (Some failing_tick_handler) None None None init.

Definition tick_frame : frame := {[ "tick" := JNum 1 ]}.

Lemma handler_exception_contained_witness :
  exists mp',
    process_message tick_frame (processor_with_failing_tick, []) =
      ((mp', [JNum 1]), Ret tt) /\
    List.In (ErrorCallback (JStr "tick") (RuntimeError "handler failed")) (log mp') /\
    error_count mp' = error_count processor_with_failing_tick /\
    message_count mp' = message_count processor_with_failing_tick + 1.
Proof.
  apply (handler_exception_contained processor_with_failing_tick [] tick_frame
           "tick" "tick" failing_tick_handler (JNum 1) [JNum 1]
           (RuntimeError "handler failed")).
  - reflexivity.
  - reflexivity.
  - vm_compute. set_solver.
  - reflexivity.
  - discriminate.
  - reflexivity.
Defined.

(** C8, as the spec states it, fails: the handler of the run above raises,
    and the error counter of the dispatcher is still 0 afterwards, so the
    exception was not counted. *)
Lemma handler_exception_not_counted :
  let run := process_message tick_frame (processor_with_failing_tick, []) in
  snd (failing_tick_handler (JNum 1) []) = Some (RuntimeError "handler failed") /\
  snd run = Ret tt /\
  error_count processor_with_failing_tick = 0 /\
  error_count (fst (fst run)) = 0 /\
  error_count (fst (fst run)) <> error_count processor_with_failing_tick + 1.
Proof. vm_compute. repeat split; congruence. Qed.

(** *** Counters, statistics and the route of a frame *)

Section Statistics.

Context {World : Type}.

Implicit Types (mp : t World) (w : World) (data : frame) (s : state World).

(** The key a type tag has in [message_stats]; a list or a dict has none
    (it is unhashable). *)
Definition stats_key (message_type : json) : option pykey :=
  match message_type with
  | JNull => Some KNone
  | JBool b => Some (KNum (Q2Qc (if b then 1 else 0)))
  | JNum q => Some (KNum (Q2Qc q))
  | JStr s => Some (KStr s)
  | JArr _ | JObj _ => None
  end.

(** The entry [error_rate_percentage] of [get_stats]:
    [(self.error_count / max(1, self.message_count)) * 100]. *)
Definition error_rate_percentage (mp : t World) : Q :=
  (inject_Z (error_count mp) / inject_Z (Z.max 1 (message_count mp)) * 100)%Q.

(** The calls the read pump makes, one per decoded frame. *)
Fixpoint process_all (frames : list frame) : Py (state World) unit :=
  match frames with
  | [] => ret tt
  | data :: rest => (process_message data ;;; process_all rest)%py
  end.

(** The sum of the entries of the statistics. *)
Definition stats_total (stats : gmap pykey Z) : Z :=
  map_fold (fun _ n acc => n + acc) 0 stats.

(** The processor with another log. *)
Definition with_log (l : list log_entry) (mp : t World) : t World :=
  {| message_count := message_count mp;
     error_count := error_count mp;
     tick_callback := tick_callback mp;
     contract_callback := contract_callback mp;
     balance_callback := balance_callback mp;
     error_callback := error_callback mp;
     ignored_message_types := ignored_message_types mp;
     message_stats := message_stats mp;
     log := l |}.

(** A computation that writes nothing of the processor but its log. *)
Definition quiet {A} (m : Py (state World) A) : Prop :=
  forall s s' r, m s = (s', r) -> exists l, fst s' = with_log l (fst s).

Lemma with_log_id mp : with_log (log mp) mp = mp.
Proof. by destruct mp. Qed.

Lemma quiet_ret {A} (a : A) : quiet (ret a).
Proof. intros s s' r [= <- _]. exists (log (fst s)). by rewrite with_log_id. Qed.

Lemma quiet_raise {A} e : quiet (@raise _ A e).
Proof. intros s s' r [= <- _]. exists (log (fst s)). by rewrite with_log_id. Qed.

Lemma quiet_bind {A B} (m : Py (state World) A) (k : A -> Py (state World) B) :
  quiet m -> (forall a, quiet (k a)) -> quiet (bind m k).
Proof.
  intros Hm Hk s s' r. unfold bind.
  destruct (m s) as [s1 [a|e]] eqn:E; intros H.
  - destruct (Hm _ _ _ E) as [l1 H1], (Hk a _ _ _ H) as [l2 H2].
    exists l2. rewrite H2, H1. reflexivity.
  - injection H as <- _. exact (Hm _ _ _ E).
Qed.

Lemma quiet_try {A} (m : Py (state World) A) h :
  quiet m -> (forall e, quiet (h e)) -> quiet (try_except m h).
Proof.
  intros Hm Hh s s' r. unfold try_except.
  destruct (m s) as [s1 [a|e]] eqn:E; intros H.
  - injection H as <- _. exact (Hm _ _ _ E).
  - destruct (Hm _ _ _ E) as [l1 H1], (Hh e _ _ _ H) as [l2 H2].
    exists l2. rewrite H2, H1. reflexivity.
Qed.

Lemma quiet_logger l : quiet (logger (World:=World) l).
Proof. intros [mp w] s' r [= <- _]. by eexists. Qed.

Lemma quiet_call (h : handler World) payload : quiet (call h payload).
Proof.
  intros [mp w] s' r. unfold call.
  destruct (h payload w) as [w' [e|]]; intros [= <- _];
    exists (log mp); by rewrite with_log_id.
Qed.

Lemma quiet_getitem data key : quiet (getitem (S:=state World) data key).
Proof. unfold getitem. destruct (data !! key); [apply quiet_ret | apply quiet_raise]. Qed.

Lemma quiet_dict_get v key d : quiet (dict_get (S:=state World) v key d).
Proof. destruct v; simpl; first [apply quiet_ret | apply quiet_raise]. Qed.

Lemma quiet_hashable v : quiet (hashable (S:=state World) v).
Proof. destruct v; simpl; first [apply quiet_ret | apply quiet_raise]. Qed.

Lemma quiet_is_ignored v : quiet (is_ignored (World:=World) v).
Proof.
  apply quiet_bind; [apply quiet_hashable|].
  intros k [mp w] s' r [= <- _]. exists (log mp). by rewrite with_log_id.
Qed.

Create HintDb quiet.
#[local] Hint Resolve quiet_ret quiet_raise quiet_logger quiet_call quiet_getitem
  quiet_dict_get quiet_hashable quiet_is_ignored : quiet.
#[local] Hint Extern 2 (quiet (bind _ _)) => apply quiet_bind; [|intros ?] : quiet.
#[local] Hint Extern 2 (quiet (if ?b then _ else _)) => destruct b : quiet.

Lemma quiet_dispatch_body mt data : quiet (dispatch_body (World:=World) mt data).
Proof.
  intros s s' r. unfold dispatch_body.
  repeat match goal with
         | |- context [match guard ?a ?b ?c with _ => _ end] => destruct (guard a b c)
         end;
  match goal with |- ?m s = _ -> _ => assert (quiet m) as K by auto 8 with quiet end;
  apply K.
Qed.

Lemma quiet_dispatch mt data : quiet (_dispatch_message (World:=World) mt data).
Proof. apply quiet_try; [apply quiet_dispatch_body | auto with quiet]. Qed.

(** What follows the counting of the type in the [try] of
    [_process_single_message]. *)
Definition route (message_type : json) (data : frame) : Py (state World) unit :=
  (ignored <- is_ignored message_type ;;
   if ignored : bool then ret tt
   else
     (if is_str message_type "tick" || is_str message_type "balance"
      then ret tt
      else logger (DebugMessageReceived message_type)) ;;;
     _dispatch_message message_type data)%py.

Lemma quiet_route mt data : quiet (route mt data).
Proof.
  unfold route. apply quiet_bind; [apply quiet_is_ignored|].
  intros [|]; [apply quiet_ret|].
  apply quiet_bind; [destruct (_ || _); auto with quiet | intros _; apply quiet_dispatch].
Qed.

(** Once the type is hashable, the route returns normally. *)
Lemma route_returns mt data k s :
  stats_key mt = Some k -> snd (route mt data s) = Ret tt.
Proof.
  intros Hk. destruct s as [mp w]. unfold route, bind at 1.
  assert (is_ignored mt (mp, w) =
            ((mp, w), Ret (bool_decide (k ∈ ignored_message_types mp)))) as ->
    by (destruct mt; try discriminate; injection Hk as <-; reflexivity).
  case_bool_decide; [reflexivity|].
  unfold bind.
  destruct (_ || _); cbn; apply dispatch_returns.
Qed.

Lemma stats_total_add (stats : gmap pykey Z) k :
  stats_total (<[k := default 0 (stats !! k) + 1]> stats) = stats_total stats + 1.
Proof.
  unfold stats_total.
  assert (forall (m : gmap pykey Z) (j1 j2 : pykey) (z1 z2 y : Z),
            j1 <> j2 -> m !! j1 = Some z1 -> m !! j2 = Some z2 ->
            z1 + (z2 + y) = z2 + (z1 + y)) as Hcomm by (intros; lia).
  destruct (stats !! k) as [n|] eqn:E; cbn [default].
  - rewrite <- insert_delete_eq.
    rewrite map_fold_insert_L; [|apply Hcomm | apply lookup_delete_eq].
    rewrite (map_fold_delete_L _ _ k n stats); [unfold id; cbv beta; lia | apply Hcomm | exact E].
  - rewrite map_fold_insert_L; [unfold id; cbv beta; lia | apply Hcomm | exact E].
Qed.

(** [_process_single_message], with the route named. *)
Lemma process_single_message_route data :
  _process_single_message (World:=World) data =
    (modify (fun '(mp, w) =>
       (set_counts (message_count mp + 1) (error_count mp) (message_stats mp) mp, w)) ;;;
     try_except
       (count_type (_identify_message_type data) ;;;
        route (_identify_message_type data) data)
       (fun e =>
          modify (fun '(mp, w) =>
            (set_counts (message_count mp) (error_count mp + 1) (message_stats mp) mp,
             w)) ;;;
          logger (ErrorProcessing e) ;;; logger (DebugContent data)))%py.
Proof. reflexivity. Qed.

(** One call of the entry point, in the counters and the statistics. *)
Lemma process_message_counts mp w data :
  exists mp' w',
    process_message data (mp, w) = ((mp', w'), Ret tt) /\
    message_count mp' = message_count mp + 1 /\
    match stats_key (_identify_message_type data) with
    | Some k =>
        error_count mp' = error_count mp /\
        message_stats mp' =
          <[k := default 0 (message_stats mp !! k) + 1]> (message_stats mp)
    | None =>
        error_count mp' = error_count mp + 1 /\
        message_stats mp' = message_stats mp
    end.
Proof.
  unfold process_message. rewrite process_single_message_route.
  set (mt := _identify_message_type data).
  unfold bind at 1, modify at 1, try_except, bind at 1, count_type, bind at 1.
  destruct (stats_key mt) as [k|] eqn:Hk.
  - assert (forall s, hashable (S:=state World) mt s = (s, Ret k)) as ->
      by (intros s; destruct mt; try discriminate; injection Hk as <-; reflexivity).
    unfold modify at 1.
    match goal with |- context [route mt data ?s0] => set (s1 := s0) end.
    pose proof (route_returns mt data k s1 Hk) as Hret.
    destruct (route mt data s1) as [[mp2 w2] r] eqn:E. cbn [snd] in Hret. subst r.
    destruct (quiet_route _ _ _ _ _ E) as [l Hl]. cbn [fst] in Hl. subst mp2.
    eexists _, _. split; [reflexivity|]. cbn. auto.
  - assert (forall s, hashable (S:=state World) mt s = (s, Raise TypeError)) as ->
      by (intros s; destruct mt; try discriminate; reflexivity).
    unfold bind, modify, logger, modify.
    eexists _, _. split; [reflexivity|]. cbn. auto.
Qed.

(** Every frame is counted once: the entry point returns normally with the
    message counter one higher, and the frame adds one either to the
    statistics entry of its type or, when its type tag is unhashable (a
    [msg_type] that is a list or a dict), to the error counter; nothing
    else of the counters and statistics changes. *)
Theorem frame_counted_once mp w data :
  exists mp' w',
    process_message data (mp, w) = ((mp', w'), Ret tt) /\
    message_count mp' = message_count mp + 1 /\
    match stats_key (_identify_message_type data) with
    | Some k =>
        error_count mp' = error_count mp /\
        message_stats mp' =
          <[k := default 0 (message_stats mp !! k) + 1]> (message_stats mp)
    | None =>
        error_count mp' = error_count mp + 1 /\
        message_stats mp' = message_stats mp
    end.
Proof. apply process_message_counts. Qed.

(** The counters while the pump runs: after any frames processed by a
    processor that starts with its counters at zero, the message counter is
    the number of frames, the statistics and the error counter add up to
    it, and the error rate [get_stats] reports lies between 0 and 100. *)
Theorem counters_add_up frames mp w :
  message_count mp = 0 -> error_count mp = 0 -> message_stats mp = ∅ ->
  exists mp' w',
    process_all frames (mp, w) = ((mp', w'), Ret tt) /\
    message_count mp' = Z.of_nat (length frames) /\
    stats_total (message_stats mp') + error_count mp' = message_count mp' /\
    0 <= error_count mp' <= message_count mp' /\
    (0 <= error_rate_percentage mp' <= 100)%Q.
Proof.
  intros Hm He Hs.
  assert (forall frames mp w,
            0 <= stats_total (message_stats mp) -> 0 <= error_count mp ->
            exists mp' w',
              process_all frames (mp, w) = ((mp', w'), Ret tt) /\
              message_count mp' = message_count mp + Z.of_nat (length frames) /\
              stats_total (message_stats mp') + error_count mp' =
                stats_total (message_stats mp) + error_count mp +
                Z.of_nat (length frames) /\
              0 <= stats_total (message_stats mp') /\
              0 <= error_count mp') as Hrun.
  { clear. induction frames as [|data rest IH]; intros mp w Hst Hec.
    - eexists _, _. split; [reflexivity|]. cbn [length]. repeat split; lia.
    - cbn [process_all]. unfold bind.
      destruct (process_message_counts mp w data) as (mp1 & w1 & -> & Hmc & Hcase).
      assert (stats_total (message_stats mp1) + error_count mp1 =
                stats_total (message_stats mp) + error_count mp + 1 /\
              0 <= stats_total (message_stats mp1) /\ 0 <= error_count mp1)
        as (Hsum & Hst1 & Hec1).
      { destruct (stats_key _) as [k|]; destruct Hcase as [-> ->];
          rewrite ?stats_total_add; repeat split; lia. }
      destruct (IH mp1 w1 Hst1 Hec1) as (mp2 & w2 & -> & Hmc2 & Hsum2 & Hst2 & Hec2).
      eexists _, _. split; [reflexivity|]. cbn [length].
      repeat split; lia. }
  destruct (Hrun frames mp w) as (mp' & w' & Hp & Hmc & Hsum & Hst & Hec).
  { rewrite Hs. unfold stats_total. rewrite map_fold_empty. lia. }
  { lia. }
  rewrite Hs, He, Hm in *. unfold stats_total in Hsum at 2.
  rewrite map_fold_empty in Hsum.
  exists mp', w'. split; [exact Hp|]. split; [lia|]. split; [lia|]. split; [lia|].
  unfold error_rate_percentage.
  assert (0 < Z.max 1 (message_count mp')) as Hpos by lia.
  assert (error_count mp' <= Z.max 1 (message_count mp')) as Hle by lia.
  set (n := Z.max 1 (message_count mp')) in *.
  set (e := error_count mp') in *.
  assert (0 < inject_Z n)%Q as Hn by (unfold Qlt; cbn; lia).
  assert (0 <= inject_Z e)%Q as He0 by (unfold Qle; cbn; lia).
  assert (inject_Z e <= inject_Z n)%Q as Hen by (rewrite <- Zle_Qle; exact Hle).
  split.
  - apply Qmult_le_0_compat; [|discriminate].
    apply Qle_shift_div_l; [exact Hn|]. lra.
  - assert (inject_Z e / inject_Z n <= 1)%Q as H1
      by (apply Qle_shift_div_r; [exact Hn|]; lra).
    lra.
Qed.

(** A frame of a type with a registered handler, not ignored, whose payload
    key is present: the handler is run once on the payload (the world after
    the entry point is the world the handler leaves), whether it returns or
    raises, and the entry point returns normally. *)
Theorem handler_runs_once_on_payload
    mp w data name key (h : handler World) payload :
  _identify_message_type data = JStr name ->
  selected mp (JStr name) = Some (key, h) ->
  KStr name ∉ ignored_message_types mp ->
  data !! key = Some payload ->
  (key = "error"%string -> exists o, payload = JObj o) ->
  exists mp',
    process_message data (mp, w) = ((mp', fst (h payload w)), Ret tt).
Proof.
  intros Hty Hsel Hign Hpay Hobj.
  unfold process_message, _process_single_message.
  rewrite Hty.
  unfold bind at 1, modify at 1.
  unfold try_except at 1, bind at 1, count_type, bind at 1, hashable, ret at 1,
    modify at 1.
  unfold bind at 1. rewrite not_ignored by exact Hign.
  set (mp2 := set_counts _ _ _ _).
  match goal with |- context [bind (if ?c then ?a else ?b)] =>
    set (pre := if c then a else b) end.
  assert (exists mp3, pre (mp2, w) = ((mp3, w), Ret tt) /\
            selected mp3 (JStr name) = Some (key, h)) as (mp3 & Epre & Hsel3).
  { subst pre. destruct (_ || _); eexists; (split; [reflexivity|]); auto. }
  unfold bind at 1. rewrite Epre.
  assert (exists mp4 r,
            dispatch_body (JStr name) data (mp3, w) = ((mp4, fst (h payload w)), r))
    as (mp4 & r & Ebody).
  { destruct (selected_guard _ _ _ _ Hsel3)
      as [(-> & -> & Hc)|[(-> & -> & Hc)|[(-> & -> & Hc)|(-> & -> & Hc)]]];
      unfold dispatch_body, guard; cbn [fst is_str];
      repeat (rewrite bool_decide_eq_false_2 by discriminate);
      rewrite ?bool_decide_eq_true_2 by reflexivity;
      rewrite Hc; unfold bind at 1, getitem; rewrite Hpay; unfold ret at 1.
    1-3: unfold call; destruct (h payload w) as [w' [e|]]; eexists _, _; reflexivity.
    destruct Hobj as [o ->]; [reflexivity|].
    unfold bind, dict_get, ret, logger, modify, call.
    destruct (h (JObj o) w) as [w' [e|]]; eexists _, _; reflexivity. }
  unfold _dispatch_message, try_except. rewrite Ebody.
  destruct r as [[]|e]; eexists; reflexivity.
Qed.

(** An [error] frame whose payload is not an object never reaches the error
    handler: reading its message fails first, the failure is logged by the
    dispatch step, the world is untouched and the error counter is not
    moved. *)
Theorem error_payload_not_an_object mp w data (h : handler World) payload :
  _identify_message_type data = JStr "error" ->
  error_callback mp = Some h ->
  KStr "error" ∉ ignored_message_types mp ->
  data !! "error" = Some payload ->
  (forall o, payload <> JObj o) ->
  exists mp',
    process_message data (mp, w) = ((mp', w), Ret tt) /\
    List.In (ErrorCallback (JStr "error") (AttributeError "get")) (log mp') /\
    error_count mp' = error_count mp.
Proof.
  intros Hty Hcb Hign Hpay Hobj.
  unfold process_message, _process_single_message.
  rewrite Hty.
  unfold bind at 1, modify at 1.
  unfold try_except at 1, bind at 1, count_type, bind at 1, hashable, ret at 1,
    modify at 1.
  unfold bind at 1. rewrite not_ignored by exact Hign.
  cbn [is_str]. rewrite !bool_decide_eq_false_2 by discriminate. cbn [orb].
  unfold bind at 1, logger at 1, modify at 1.
  unfold _dispatch_message, try_except, dispatch_body, guard. cbn [fst is_str].
  rewrite !bool_decide_eq_false_2 by discriminate.
  rewrite bool_decide_eq_true_2 by reflexivity.
  cbn [error_callback set_counts]. rewrite Hcb.
  unfold bind at 1, getitem. rewrite Hpay. unfold ret at 1.
  unfold bind at 1.
  assert (forall s : state World,
            dict_get payload "message" (JStr "Erro desconhecido") s =
              (s, Raise (AttributeError "get"))) as ->.
  { intros s. destruct payload; try reflexivity. exfalso. by eapply Hobj. }
  unfold logger, modify.
  eexists. split; [reflexivity|]. cbn.
  split; [apply in_or_app; right; left; reflexivity | reflexivity].
Qed.

End Statistics.

(** The payloads a recording handler was given. *)
Definition recording_handler : handler (list json) :=
  fun payload seen => (seen ++ [payload], None).

Definition recording_processor : t (list json) :=
  set_callbacks (Some recording_handler) (Some recording_handler)
    (Some recording_handler) (Some recording_handler) init.

Lemma counters_add_up_witness :
  exists mp' w',
    process_all [tick_frame; {[ "msg_type" := JArr [] ]}; {[ "pong" := JNum 1 ]}]
      (recording_processor, []) = ((mp', w'), Ret tt) /\
    message_count mp' = 3 /\
    stats_total (message_stats mp') + error_count mp' = message_count mp' /\
    0 <= error_count mp' <= message_count mp' /\
    (0 <= error_rate_percentage mp' <= 100)%Q.
Proof.
  apply (counters_add_up
           [tick_frame; {[ "msg_type" := JArr [] ]}; {[ "pong" := JNum 1 ]}]
           recording_processor []); reflexivity.
Defined.

Lemma handler_runs_once_on_payload_witness :
  exists mp',
    process_message {[ "balance" := JNum 10 ]} (recording_processor, []) =
      ((mp', [JNum 10]), Ret tt).
Proof.
  apply (handler_runs_once_on_payload recording_processor []
           {[ "balance" := JNum 10 ]} "balance" "balance" recording_handler (JNum 10)).
  - reflexivity.
  - reflexivity.
  - vm_compute. set_solver.
  - reflexivity.
  - discriminate.
Defined.

Lemma error_payload_not_an_object_witness :
  exists mp',
    process_message {[ "error" := JStr "rate limit" ]} (recording_processor, []) =
      ((mp', []), Ret tt) /\
    List.In (ErrorCallback (JStr "error") (AttributeError "get")) (log mp') /\
    error_count mp' = error_count recording_processor.
Proof.
  apply (error_payload_not_an_object recording_processor []
           {[ "error" := JStr "rate limit" ]} recording_handler (JStr "rate limit")).
  - reflexivity.
  - reflexivity.
  - vm_compute. set_solver.
  - reflexivity.
  - discriminate.
Defined.

End MessageProcessor.

(** ** src/connection/connection_monitor.py *)

Module ConnectionMonitor.

#[local] Open Scope Q_scope.

Inductive ConnectionQuality : Type := EXCELLENT | GOOD | FAIR | POOR | CRITICAL.

#[global] Instance ConnectionQuality_eq_dec : EqDecision ConnectionQuality.
Proof. solve_decision. Defined.

Record ConnectionMetrics : Type := {
  latency_ms : Q;
  uptime_percentage : Q;
  message_rate_per_minute : Q;
  error_rate_percentage : Q;
  reconnection_count : Z;
  last_disconnection_duration : Q
}.

(** Python's comparisons on numbers. *)
Definition gt (x y : Q) : bool := negb (Qle_bool x y).
Definition lt (x y : Q) : bool := negb (Qle_bool y x).
Definition ge (x y : Q) : bool := Qle_bool y x.

(** [min(a, b)]: [b] when [b < a], else [a]. *)
Definition py_min (a b : Q) : Q := if lt b a then b else a.

(** The [score] local of [_evaluate_connection_quality], after the five
    penalties. *)
Definition score (metrics : ConnectionMetrics) : Q :=
  let score := 100 in
  let score :=
    if gt (latency_ms metrics) 2000 then score - 30
    else if gt (latency_ms metrics) 1000 then score - 20
    else if gt (latency_ms metrics) 500 then score - 10
    else if gt (latency_ms metrics) 200 then score - 5
    else score in
  let score :=
    if lt (uptime_percentage metrics) 95
    then score - (95 - uptime_percentage metrics) * 2 else score in
  let score :=
    if gt (error_rate_percentage metrics) 5
    then score - error_rate_percentage metrics * 3 else score in
  let score :=
    if (5 <? reconnection_count metrics)%Z
    then score - inject_Z ((reconnection_count metrics - 5) * 5) else score in
  let score :=
    if gt (last_disconnection_duration metrics) 60
    then score - py_min 30 (last_disconnection_duration metrics / 2) else score in
  score.

(** The bands: [>= 90], [>= 70], [>= 50], [>= 30], else. *)
Definition band (score : Q) : ConnectionQuality :=
  if ge score 90 then EXCELLENT
  else if ge score 70 then GOOD
  else if ge score 50 then FAIR
  else if ge score 30 then POOR
  else CRITICAL.

Definition _evaluate_connection_quality (metrics : ConnectionMetrics)
  : ConnectionQuality :=
  band (score metrics).

Section Monitor.

(** What the forced-reconnect callback acts on. *)
Context {World : Type}.

Definition callback : Type := World -> World * option exn.

Inductive log_entry : Type :=
| InfoQualityChange (old_quality new_quality : ConnectionQuality)
| ErrorCriticalConnection
| ErrorForcingReconnect
| ErrorForcedReconnectFailed (e : exn)
| WarningDegraded (new_quality : ConnectionQuality)
| WarningAlert (alert_key : string).

Record quality_event : Type := {
  old_quality : ConnectionQuality;
  new_quality : ConnectionQuality;
  event_metrics : Q * Q * Q
}.

(** The fields of the monitor that the sampling loop reads or writes
    (wall-clock stamps are left out). *)
Record t : Type := mk {
  reconnect_callback : option callback;
  current_quality : ConnectionQuality;
  consecutive_poor_checks : Z;
  connection_events : list quality_event;
  quality_alerts_sent : gset string;
  latency_history : list Q;
  uptime_history : list Q;
  connection_quality_log : list (ConnectionQuality * Q * Q);
  log : list log_entry
}.

(** [__init__], then [set_callbacks(..., reconnect)]. *)
Definition init (reconnect : option callback) : t := {|
  reconnect_callback := reconnect;
  current_quality := EXCELLENT;
  consecutive_poor_checks := 0;
  connection_events := [];
  quality_alerts_sent := ∅;
  latency_history := [];
  uptime_history := [];
  connection_quality_log := [];
  log := []
|}.

Definition state : Type := t * World.

Definition with_quality (q : ConnectionQuality) (events : list quality_event) (mon : t) : t :=
  {| reconnect_callback := reconnect_callback mon;
     current_quality := q;
     consecutive_poor_checks := consecutive_poor_checks mon;
     connection_events := events;
     quality_alerts_sent := quality_alerts_sent mon;
     latency_history := latency_history mon;
     uptime_history := uptime_history mon;
     connection_quality_log := connection_quality_log mon;
     log := log mon |}.

Definition with_poor_checks (n : Z) (mon : t) : t :=
  {| reconnect_callback := reconnect_callback mon;
     current_quality := current_quality mon;
     consecutive_poor_checks := n;
     connection_events := connection_events mon;
     quality_alerts_sent := quality_alerts_sent mon;
     latency_history := latency_history mon;
     uptime_history := uptime_history mon;
     connection_quality_log := connection_quality_log mon;
     log := log mon |}.

Definition with_log (l : list log_entry) (mon : t) : t :=
  {| reconnect_callback := reconnect_callback mon;
     current_quality := current_quality mon;
     consecutive_poor_checks := consecutive_poor_checks mon;
     connection_events := connection_events mon;
     quality_alerts_sent := quality_alerts_sent mon;
     latency_history := latency_history mon;
     uptime_history := uptime_history mon;
     connection_quality_log := connection_quality_log mon;
     log := l |}.

Definition with_history (alerts : gset string) (lat up : list Q)
    (qlog : list (ConnectionQuality * Q * Q)) (mon : t) : t :=
  {| reconnect_callback := reconnect_callback mon;
     current_quality := current_quality mon;
     consecutive_poor_checks := consecutive_poor_checks mon;
     connection_events := connection_events mon;
     quality_alerts_sent := alerts;
     latency_history := lat;
     uptime_history := up;
     connection_quality_log := qlog;
     log := log mon |}.

Definition logger (e : log_entry) : Py state unit :=
  modify (fun '(mon, w) => (with_log (log mon ++ [e]) mon, w)).

(** [l[-n:]] *)
Definition last_n {A} (n : nat) (l : list A) : list A :=
  skipn (length l - n) l.

(** [if len(l) > n: l = l[-n:]] *)
Definition trim {A} (n : nat) (l : list A) : list A :=
  if (n <? length l)%nat then last_n n l else l.

(** [await self.reconnect_callback()] *)
Definition call (cb : callback) : Py state unit :=
  fun '(mon, w) =>
    match cb w with
    | (w', None) => ((mon, w'), Ret tt)
    | (w', Some e) => ((mon, w'), Raise e)
    end.

(** [_handle_quality_change] *)
Definition _handle_quality_change (new_quality : ConnectionQuality)
    (metrics : ConnectionMetrics) : Py state unit :=
  (old_quality <- gets (fun s => current_quality (fst s)) ;;
   logger (InfoQualityChange old_quality new_quality) ;;;
   modify (fun '(mon, w) =>
     (with_quality new_quality
        (trim 50 (connection_events mon ++
           [{| old_quality := old_quality;
               new_quality := new_quality;
               event_metrics := (latency_ms metrics, uptime_percentage metrics,
                                 error_rate_percentage metrics) |}])) mon, w)) ;;;
   match new_quality with
   | CRITICAL =>
       logger ErrorCriticalConnection ;;;
       modify (fun '(mon, w) =>
         (with_poor_checks (consecutive_poor_checks mon + 1)%Z mon, w)) ;;;
       mon <- gets fst ;;
       match reconnect_callback mon with
       | Some cb =>
           if (3 <=? consecutive_poor_checks mon)%Z
           then logger ErrorForcingReconnect ;;;
                try_except (call cb) (fun e => logger (ErrorForcedReconnectFailed e))
           else ret tt
       | None => ret tt
       end
   | POOR | FAIR =>
       modify (fun '(mon, w) =>
         (with_poor_checks (consecutive_poor_checks mon + 1)%Z mon, w)) ;;;
       logger (WarningDegraded new_quality)
   | EXCELLENT | GOOD =>
       modify (fun '(mon, w) => (with_poor_checks 0%Z mon, w))
   end)%py.

(** One condition of [_check_alerts]: alert once while the condition holds,
    re-arm when it clears. *)
Definition check_alert (cond : bool) (alert_key : string) : Py state unit :=
  (mon <- gets fst ;;
   if cond then
     if bool_decide (alert_key ∈ quality_alerts_sent mon) then ret tt
     else modify (fun '(mon, w) =>
            (with_history ({[alert_key]} ∪ quality_alerts_sent mon)
               (latency_history mon) (uptime_history mon)
               (connection_quality_log mon)
               (with_log (log mon ++ [WarningAlert alert_key]) mon), w))
   else modify (fun '(mon, w) =>
          (with_history (quality_alerts_sent mon ∖ {[alert_key]})
             (latency_history mon) (uptime_history mon)
             (connection_quality_log mon) mon, w)))%py.

(** [_check_alerts], with the thresholds of [__init__]. *)
Definition _check_alerts (metrics : ConnectionMetrics) : Py state unit :=
  (check_alert (gt (latency_ms metrics) 2000) "high_latency" ;;;
   check_alert (lt (uptime_percentage metrics) 95) "low_uptime" ;;;
   check_alert (gt (error_rate_percentage metrics) 5) "high_error_rate")%py.

(** [_update_history], with [max_history_size = 100]. *)
Definition _update_history (metrics : ConnectionMetrics) : Py state unit :=
  modify (fun '(mon, w) =>
    (with_history (quality_alerts_sent mon)
       (trim 100 (latency_history mon ++ [latency_ms metrics]))
       (trim 100 (uptime_history mon ++ [uptime_percentage metrics]))
       (trim 100 (connection_quality_log mon ++
          [(current_quality mon, latency_ms metrics, uptime_percentage metrics)]))
       mon, w)).

(** One turn of [_monitoring_loop] on the metrics [_collect_metrics] gave. *)
Definition monitoring_step (metrics : ConnectionMetrics) : Py state unit :=
  (let quality := _evaluate_connection_quality metrics in
   mon <- gets fst ;;
   (if bool_decide (quality <> current_quality mon)
    then _handle_quality_change quality metrics
    else ret tt) ;;;
   _check_alerts metrics ;;;
   _update_history metrics)%py.

(** The loop over the successive samples; an exception ends it. *)
Fixpoint _monitoring_loop (samples : list ConnectionMetrics) : Py state unit :=
  match samples with
  | [] => ret tt
  | metrics :: rest => (monitoring_step metrics ;;; _monitoring_loop rest)%py
  end.

(** How often the forced reconnect was started so far. *)
Definition is_forcing (e : log_entry) : bool :=
  match e with ErrorForcingReconnect => true | _ => false end.

Definition forced_reconnects (mon : t) : nat :=
  length (List.filter is_forcing (log mon)).

End Monitor.

Arguments callback World : clear implicits.
Arguments t World : clear implicits.
Arguments state World : clear implicits.

(** *** What the counter counts, read off the sequence of qualities *)

Definition degraded (q : ConnectionQuality) : bool :=
  match q with
  | FAIR | POOR | CRITICAL => true
  | EXCELLENT | GOOD => false
  end.

(** The number of changes of quality into a degraded band since the last
    change into [GOOD] or [EXCELLENT], starting from quality [current] and
    count [n]. *)
Fixpoint degraded_changes (current : ConnectionQuality) (n : Z)
    (qualities : list ConnectionQuality) : Z :=
  match qualities with
  | [] => n
  | q :: rest =>
      if bool_decide (q <> current)
      then degraded_changes q (if degraded q then n + 1 else 0)%Z rest
      else degraded_changes current n rest
  end.

Definition is_critical (q : ConnectionQuality) : bool :=
  match q with CRITICAL => true | _ => false end.

(** Whether a sample of quality [q] starts the forced reconnect. *)
Definition forces {World} (mon : t World) (q : ConnectionQuality) : bool :=
  bool_decide (q <> current_quality mon) &&
  is_critical q &&
  (3 <=? consecutive_poor_checks mon + 1)%Z &&
  bool_decide (is_Some (reconnect_callback mon)).

Section Properties.

Context {World : Type}.

Implicit Types (mon : t World) (w : World) (q : ConnectionQuality).

Lemma last_cons {A} (l : list A) : forall a d, List.last (a :: l) d = List.last l a.
Proof.
  induction l as [|b l IH]; intros a d; [reflexivity|].
  change (List.last (b :: l) d = List.last (b :: l) a). by rewrite !IH.
Qed.

Lemma forced_reconnects_snoc mon e :
  forced_reconnects (with_log (log mon ++ [e]) mon) =
    (forced_reconnects mon + (if is_forcing e then 1 else 0))%nat.
Proof.
  unfold forced_reconnects. cbn [log with_log].
  rewrite List.filter_app, length_app. cbn. destruct (is_forcing e); reflexivity.
Qed.

(** The state a step leaves, in the fields the forcing depends on. *)
Record summary : Type := {
  s_callback : option (callback World);
  s_quality : ConnectionQuality;
  s_checks : Z;
  s_forced : nat
}.

Definition summarize mon : summary :=
  {| s_callback := reconnect_callback mon;
     s_quality := current_quality mon;
     s_checks := consecutive_poor_checks mon;
     s_forced := forced_reconnects mon |}.

Definition after_change mon q : summary :=
  {| s_callback := reconnect_callback mon;
     s_quality := q;
     s_checks := (if degraded q then consecutive_poor_checks mon + 1 else 0)%Z;
     s_forced := (forced_reconnects mon +
                  (if is_critical q &&
                      (3 <=? consecutive_poor_checks mon + 1)%Z &&
                      bool_decide (is_Some (reconnect_callback mon))
                   then 1 else 0))%nat |}.

Lemma handle_quality_change_spec mon w q metrics :
  exists mon' w',
    _handle_quality_change q metrics (mon, w) = ((mon', w'), Ret tt) /\
    summarize mon' = after_change mon q.
Proof.
  unfold _handle_quality_change, summarize, after_change.
  unfold bind, gets, logger, modify, ret. cbn [fst snd].
  destruct q; cbn -[trim Z.add Z.leb forced_reconnects].
  5: destruct (reconnect_callback mon) as [cb|] eqn:Ecb;
       [destruct (3 <=? consecutive_poor_checks mon + 1)%Z eqn:E3|];
       [unfold try_except, call; destruct (cb w) as [w' [e|]]| |].
  all: eexists _, _; (split; [reflexivity|]);
    unfold forced_reconnects;
    cbn [log with_log with_quality with_poor_checks reconnect_callback
         current_quality consecutive_poor_checks];
    rewrite ?List.filter_app, ?length_app; cbn [List.filter is_forcing length];
    try rewrite Ecb; try rewrite E3; cbn [andb];
    rewrite ?bool_decide_eq_true_2 by eauto;
    rewrite ?bool_decide_eq_false_2 by (intros [? [=]]);
    rewrite ?andb_false_r; f_equal; lia.
Qed.

Lemma check_alert_spec cond key mon w :
  exists mon', check_alert cond key (mon, w) = ((mon', w), Ret tt) /\
               summarize mon' = summarize mon.
Proof.
  unfold check_alert, bind, gets, modify, ret. cbn [fst].
  destruct cond; [case_bool_decide|]; eexists; (split; [reflexivity|]); try reflexivity.
  unfold summarize. cbn -[forced_reconnects].
  f_equal. unfold forced_reconnects. cbn.
  rewrite List.filter_app, length_app. cbn. lia.
Qed.

Lemma check_alerts_spec metrics mon w :
  exists mon', _check_alerts metrics (mon, w) = ((mon', w), Ret tt) /\
               summarize mon' = summarize mon.
Proof.
  unfold _check_alerts, bind.
  destruct (check_alert_spec (gt (latency_ms metrics) 2000) "high_latency" mon w)
    as (m1 & -> & E1).
  destruct (check_alert_spec (lt (uptime_percentage metrics) 95) "low_uptime" m1 w)
    as (m2 & -> & E2).
  destruct (check_alert_spec (gt (error_rate_percentage metrics) 5) "high_error_rate" m2 w)
    as (m3 & -> & E3).
  exists m3. split; [reflexivity | congruence].
Qed.

(** The summary after one turn of the loop on a sample of quality [q]. *)
Definition after_step mon q : summary :=
  if bool_decide (q <> current_quality mon) then after_change mon q
  else summarize mon.

Lemma monitoring_step_spec metrics mon w :
  exists mon' w',
    monitoring_step metrics (mon, w) = ((mon', w'), Ret tt) /\
    summarize mon' = after_step mon (_evaluate_connection_quality metrics).
Proof.
  unfold monitoring_step, after_step.
  set (q := _evaluate_connection_quality metrics).
  unfold bind at 1, gets at 1. cbn [fst]. unfold bind at 1.
  assert (exists m1 w1,
    (if bool_decide (q <> current_quality mon)
     then _handle_quality_change q metrics else ret tt) (mon, w) = ((m1, w1), Ret tt) /\
    summarize m1 = (if bool_decide (q <> current_quality mon)
                    then after_change mon q else summarize mon))
    as (m1 & w1 & -> & E1).
  { case_bool_decide; [apply handle_quality_change_spec|].
    eexists _, _; split; reflexivity. }
  unfold bind.
  destruct (check_alerts_spec metrics m1 w1) as (m2 & -> & E2).
  unfold _update_history, modify.
  eexists _, _; split; [reflexivity|]. rewrite <- E1, <- E2. reflexivity.
Qed.

Lemma after_step_fields mon q :
  s_callback (after_step mon q) = reconnect_callback mon /\
  s_quality (after_step mon q) =
    (if bool_decide (q <> current_quality mon) then q else current_quality mon) /\
  s_checks (after_step mon q) =
    (if bool_decide (q <> current_quality mon)
     then (if degraded q then consecutive_poor_checks mon + 1 else 0)%Z
     else consecutive_poor_checks mon) /\
  s_forced (after_step mon q) =
    (forced_reconnects mon + (if forces mon q then 1 else 0))%nat.
Proof.
  unfold after_step, forces. case_bool_decide; cbn; repeat split; lia.
Qed.

(** The loop consumes all its samples, and its counter is the count of
    degraded changes of quality. *)
Lemma monitoring_loop_spec samples : forall mon w,
  exists mon' w',
    _monitoring_loop samples (mon, w) = ((mon', w'), Ret tt) /\
    reconnect_callback mon' = reconnect_callback mon /\
    consecutive_poor_checks mon' =
      degraded_changes (current_quality mon) (consecutive_poor_checks mon)
        (map _evaluate_connection_quality samples) /\
    current_quality mon' =
      List.last (map _evaluate_connection_quality samples) (current_quality mon).
Proof.
  induction samples as [|metrics rest IH]; intros mon w.
  - eexists _, _. repeat split.
  - cbn [_monitoring_loop]. unfold bind.
    destruct (monitoring_step_spec metrics mon w) as (m1 & w1 & -> & E1).
    destruct (IH m1 w1) as (m2 & w2 & -> & Hcb & Hn & Hq).
    destruct (after_step_fields mon (_evaluate_connection_quality metrics))
      as (Fcb & Fq & Fn & _).
    rewrite <- E1 in Fcb, Fq, Fn. cbn [summarize s_callback s_quality s_checks] in *.
    eexists _, _. split; [reflexivity|].
    rewrite Hcb, Hn, Hq, Fcb, Fq, Fn. cbn [map degraded_changes].
    split; [reflexivity|]. rewrite last_cons.
    destruct (decide (_evaluate_connection_quality metrics = current_quality mon))
      as [Heq|Hne].
    + rewrite !bool_decide_eq_false_2 by (intros H; exact (H Heq)).
      rewrite Heq. split; reflexivity.
    + rewrite !bool_decide_eq_true_2 by exact Hne. split; reflexivity.
Qed.

Lemma degraded_changes_bound qualities : forall current n,
  (0 <= n -> 0 <= degraded_changes current n qualities <= n + Z.of_nat (length qualities))%Z.
Proof.
  induction qualities as [|q rest IH]; intros current n Hn; cbn [degraded_changes length].
  - lia.
  - case_bool_decide.
    + destruct (degraded q).
      * specialize (IH q (n + 1)%Z). lia.
      * specialize (IH q 0%Z). lia.
    + specialize (IH current n). lia.
Qed.

Lemma degraded_changes_snoc qualities q : forall current n,
  degraded_changes current n (qualities ++ [q]) =
    (if bool_decide (q <> List.last qualities current)
     then (if degraded q then degraded_changes current n qualities + 1 else 0)%Z
     else degraded_changes current n qualities).
Proof.
  induction qualities as [|q0 rest IH]; intros current n; [reflexivity|].
  rewrite last_cons. cbn [app degraded_changes].
  case_bool_decide as Hc; rewrite IH.
  - reflexivity.
  - by rewrite Hc.
Qed.


End Properties.

(** *** Concrete runs *)

#[local] Open Scope Q_scope.

(** Metrics that are perfect but for the uptime. *)
Definition with_uptime (uptime : Q) : ConnectionMetrics :=
  {| latency_ms := 0;
     uptime_percentage := uptime;
     message_rate_per_minute := 0;
     error_rate_percentage := 0;
     reconnection_count := 0;
     last_disconnection_duration := 0 |}.

(** A reconnect callback that counts its invocations. *)
Definition counting_callback : callback nat := fun n => (S n, None).

(** Uptimes 70, 60 and 50 score 50, 30 and 10: FAIR, POOR, CRITICAL. *)
Definition degrading_samples : list ConnectionMetrics :=
  [with_uptime 70; with_uptime 60].



(** Three CRITICAL samples in a row are one change of quality: the counter
    stays at 1 and the callback is not invoked. *)
Example three_critical_samples_do_not_force :
  let run := _monitoring_loop [with_uptime 50; with_uptime 50; with_uptime 50]
               (init (Some counting_callback), 0%nat) in
  snd (fst run) = 0%nat /\ consecutive_poor_checks (fst (fst run)) = 1%Z.
Proof. vm_compute. split; reflexivity. Qed.

(** C9. The score is a function of the metrics alone; metrics with latency
    0, uptime 100, error rate 0, no reconnections and no last disconnection
    score 100 and are EXCELLENT, and the same metrics with uptime 80 score
    exactly 70 and are GOOD, whatever the message rate (which the score does
    not read). *)
Theorem quality_reference_evaluations (rate : Q) :
  let perfect := {| latency_ms := 0; uptime_percentage := 100;
                    message_rate_per_minute := rate; error_rate_percentage := 0;
                    reconnection_count := 0; last_disconnection_duration := 0 |} in
  let uptime80 := {| latency_ms := 0; uptime_percentage := 80;
                     message_rate_per_minute := rate; error_rate_percentage := 0;
                     reconnection_count := 0; last_disconnection_duration := 0 |} in
  score perfect = 100 /\
  _evaluate_connection_quality perfect = EXCELLENT /\
  score uptime80 = 70 /\
  _evaluate_connection_quality uptime80 = GOOD.
Proof. repeat split. Qed.

(** *** The score, the alerts and the histories *)

(** The penalties [_evaluate_connection_quality] subtracts. *)
Definition latency_penalty (metrics : ConnectionMetrics) : Q :=
  if gt (latency_ms metrics) 2000 then 30
  else if gt (latency_ms metrics) 1000 then 20
  else if gt (latency_ms metrics) 500 then 10
  else if gt (latency_ms metrics) 200 then 5
  else 0.

Definition uptime_penalty (metrics : ConnectionMetrics) : Q :=
  if lt (uptime_percentage metrics) 95
  then (95 - uptime_percentage metrics) * 2 else 0.

Definition error_penalty (metrics : ConnectionMetrics) : Q :=
  if gt (error_rate_percentage metrics) 5
  then error_rate_percentage metrics * 3 else 0.

Definition reconnection_penalty (metrics : ConnectionMetrics) : Q :=
  if (5 <? reconnection_count metrics)%Z
  then inject_Z ((reconnection_count metrics - 5) * 5) else 0.

Definition disconnection_penalty (metrics : ConnectionMetrics) : Q :=
  if gt (last_disconnection_duration metrics) 60
  then py_min 30 (last_disconnection_duration metrics / 2) else 0.

(** The order of the bands, best first. *)
Definition rank (q : ConnectionQuality) : Z :=
  match q with
  | EXCELLENT => 4
  | GOOD => 3
  | FAIR => 2
  | POOR => 1
  | CRITICAL => 0
  end.

Lemma gt_spec x y : gt x y = true <-> y < x.
Proof.
  unfold gt. rewrite negb_true_iff. split.
  - intros H. apply Qnot_le_lt. intros Hle. apply Qle_bool_iff in Hle. congruence.
  - intros H. destruct (Qle_bool x y) eqn:E; [|reflexivity].
    apply Qle_bool_iff in E. lra.
Qed.

Lemma gt_false x y : gt x y = false <-> x <= y.
Proof.
  unfold gt. rewrite negb_false_iff. apply Qle_bool_iff.
Qed.

Lemma lt_spec x y : lt x y = true <-> x < y.
Proof. unfold lt. apply (gt_spec y x). Qed.

Lemma lt_false x y : lt x y = false <-> y <= x.
Proof. unfold lt. apply (gt_false y x). Qed.

Lemma ge_spec x y : ge x y = true <-> y <= x.
Proof. unfold ge. apply Qle_bool_iff. Qed.

Lemma ge_false x y : ge x y = false <-> x < y.
Proof.
  unfold ge. split.
  - intros H. apply Qnot_le_lt. intros Hle. apply Qle_bool_iff in Hle. congruence.
  - intros H. destruct (Qle_bool y x) eqn:E; [|reflexivity].
    apply Qle_bool_iff in E. lra.
Qed.

(** Turn the comparisons of the context into inequalities. *)
Ltac compare_all :=
  repeat match goal with
         | H : gt _ _ = true |- _ => apply gt_spec in H
         | H : gt _ _ = false |- _ => apply gt_false in H
         | H : lt _ _ = true |- _ => apply lt_spec in H
         | H : lt _ _ = false |- _ => apply lt_false in H
         | H : ge _ _ = true |- _ => apply ge_spec in H
         | H : ge _ _ = false |- _ => apply ge_false in H
         end.

(** The score is 100 minus the five penalties. *)
Lemma score_penalties metrics :
  score metrics ==
    100 - latency_penalty metrics - uptime_penalty metrics - error_penalty metrics -
    reconnection_penalty metrics - disconnection_penalty metrics.
Proof.
  unfold score, latency_penalty, uptime_penalty, error_penalty, reconnection_penalty,
    disconnection_penalty.
  repeat match goal with
         | |- context [if ?c then _ else _] => destruct c
         end; ring.
Qed.

Lemma latency_penalty_mono m1 m2 :
  latency_ms m1 <= latency_ms m2 -> latency_penalty m1 <= latency_penalty m2.
Proof.
  intros H. unfold latency_penalty.
  repeat match goal with
         | |- context [if gt ?a ?b then _ else _] => destruct (gt a b) eqn:?
         end; compare_all; lra.
Qed.

Lemma uptime_penalty_mono m1 m2 :
  uptime_percentage m2 <= uptime_percentage m1 -> uptime_penalty m1 <= uptime_penalty m2.
Proof.
  intros H. unfold uptime_penalty.
  repeat match goal with
         | |- context [if lt ?a ?b then _ else _] => destruct (lt a b) eqn:?
         end; compare_all; lra.
Qed.

Lemma error_penalty_mono m1 m2 :
  error_rate_percentage m1 <= error_rate_percentage m2 ->
  error_penalty m1 <= error_penalty m2.
Proof.
  intros H. unfold error_penalty.
  repeat match goal with
         | |- context [if gt ?a ?b then _ else _] => destruct (gt a b) eqn:?
         end; compare_all; lra.
Qed.

Lemma reconnection_penalty_mono m1 m2 :
  (reconnection_count m1 <= reconnection_count m2)%Z ->
  reconnection_penalty m1 <= reconnection_penalty m2.
Proof.
  intros H. unfold reconnection_penalty.
  destruct (5 <? reconnection_count m1)%Z eqn:E1,
           (5 <? reconnection_count m2)%Z eqn:E2;
    try apply Z.ltb_lt in E1; try apply Z.ltb_ge in E1;
    try apply Z.ltb_lt in E2; try apply Z.ltb_ge in E2.
  - rewrite <- Zle_Qle. lia.
  - lia.
  - change 0 with (inject_Z 0). rewrite <- Zle_Qle. lia.
  - lra.
Qed.

(** A last disconnection of more than 60 seconds costs 30 points, whatever
    its length: half of it is already above the cap. *)
Lemma disconnection_penalty_thirty metrics :
  gt (last_disconnection_duration metrics) 60 = true ->
  disconnection_penalty metrics = 30.
Proof.
  intros H. unfold disconnection_penalty. rewrite H. unfold py_min.
  destruct (lt (last_disconnection_duration metrics / 2) 30) eqn:E; [|reflexivity].
  compare_all. exfalso.
  assert (last_disconnection_duration metrics / 2 ==
            last_disconnection_duration metrics * (1 # 2)) as Hhalf by (field).
  rewrite Hhalf in E. lra.
Qed.

Lemma disconnection_penalty_mono m1 m2 :
  last_disconnection_duration m1 <= last_disconnection_duration m2 ->
  disconnection_penalty m1 <= disconnection_penalty m2.
Proof.
  intros H.
  destruct (gt (last_disconnection_duration m1) 60) eqn:E1,
           (gt (last_disconnection_duration m2) 60) eqn:E2.
  - rewrite !disconnection_penalty_thirty by assumption. lra.
  - compare_all. lra.
  - rewrite (disconnection_penalty_thirty m2) by assumption.
    unfold disconnection_penalty. rewrite E1. lra.
  - unfold disconnection_penalty. rewrite E1, E2. lra.
Qed.

Lemma penalties_nonnegative metrics :
  0 <= latency_penalty metrics /\ 0 <= uptime_penalty metrics /\
  0 <= error_penalty metrics /\ 0 <= reconnection_penalty metrics /\
  0 <= disconnection_penalty metrics.
Proof.
  repeat split.
  - unfold latency_penalty.
    repeat match goal with
           | |- context [if ?c then _ else _] => destruct c
           end; lra.
  - unfold uptime_penalty. destruct (lt _ _) eqn:E; compare_all; lra.
  - unfold error_penalty. destruct (gt _ _) eqn:E; compare_all; lra.
  - unfold reconnection_penalty. destruct (5 <? _)%Z eqn:E; [|lra].
    apply Z.ltb_lt in E. change 0 with (inject_Z 0). rewrite <- Zle_Qle. lia.
  - destruct (gt (last_disconnection_duration metrics) 60) eqn:E.
    + rewrite disconnection_penalty_thirty by assumption. lra.
    + unfold disconnection_penalty. rewrite E. lra.
Qed.

Lemma band_mono s1 s2 : s1 <= s2 -> (rank (band s1) <= rank (band s2))%Z.
Proof.
  intros H. unfold band.
  repeat match goal with
         | |- context [if ge ?a ?b then _ else _] => destruct (ge a b) eqn:?
         end; compare_all; cbn; try lia; lra.
Qed.


(** The score never exceeds 100, and after a last disconnection of more
    than 60 seconds it is at most 70: the connection is not rated
    EXCELLENT, however good the other metrics are. *)
Theorem long_disconnection_caps_quality metrics :
  score metrics <= 100 /\
  (gt (last_disconnection_duration metrics) 60 = true ->
   score metrics <= 70 /\ _evaluate_connection_quality metrics <> EXCELLENT).
Proof.
  pose proof (score_penalties metrics) as Hs.
  destruct (penalties_nonnegative metrics) as (P1 & P2 & P3 & P4 & P5).
  split; [lra|].
  intros Hd. rewrite (disconnection_penalty_thirty _ Hd) in Hs.
  assert (score metrics <= 70) as H70 by lra.
  split; [exact H70|].
  unfold _evaluate_connection_quality, band.
  destruct (ge (score metrics) 90) eqn:E; [compare_all; lra|].
  repeat match goal with
         | |- context [if ?c then _ else _] => destruct c
         end; discriminate.
Qed.

Section Histories.

Context {World : Type}.

Implicit Types (mon : t World) (w : World).

(** What [_check_alerts] leaves in the set of alerts sent. *)
Definition alert_conditions (metrics : ConnectionMetrics) : list (string * bool) :=
  [ ("high_latency"%string, gt (latency_ms metrics) 2000);
    ("low_uptime"%string, lt (uptime_percentage metrics) 95);
    ("high_error_rate"%string, gt (error_rate_percentage metrics) 5) ].

(** The monitor with other alerts and another log. *)
Definition with_alerts (alerts : gset string) (l : list log_entry) mon : t World :=
  with_history alerts (latency_history mon) (uptime_history mon)
    (connection_quality_log mon) (with_log l mon).

Lemma with_alerts_id mon : with_alerts (quality_alerts_sent mon) (log mon) mon = mon.
Proof. by destruct mon. Qed.

Lemma check_alert_cases cond key mon w :
  exists alerts l,
    check_alert cond key (mon, w) = ((with_alerts alerts l mon, w), Ret tt) /\
    (key ∈ alerts <-> cond = true) /\
    (forall k, k <> key -> k ∈ alerts <-> k ∈ quality_alerts_sent mon) /\
    (l = log mon \/
     l = log mon ++ [WarningAlert key] /\ cond = true /\ key ∉ quality_alerts_sent mon) /\
    (key ∈ quality_alerts_sent mon <-> cond = true ->
     alerts = quality_alerts_sent mon /\ l = log mon).
Proof.
  unfold check_alert, bind, gets, modify, ret. cbn [fst].
  destruct cond; [case_bool_decide as Hin|].
  - exists (quality_alerts_sent mon), (log mon).
    rewrite with_alerts_id. repeat split; auto.
  - exists ({[key]} ∪ quality_alerts_sent mon), (log mon ++ [WarningAlert key]).
    split; [reflexivity|]. split; [|split; [|split]].
    + split; [reflexivity|]. intros _. apply elem_of_union_l, elem_of_singleton.
      reflexivity.
    + intros k Hk. rewrite elem_of_union, elem_of_singleton. tauto.
    + right. auto.
    + intros [_ H]. exfalso. apply Hin, H. reflexivity.
  - exists (quality_alerts_sent mon ∖ {[key]}), (log mon).
    split; [reflexivity|]. split; [|split; [|split]].
    + rewrite elem_of_difference, elem_of_singleton.
      split; [intros [_ H]; by destruct H | discriminate].
    + intros k Hk. rewrite elem_of_difference, elem_of_singleton. tauto.
    + left. reflexivity.
    + intros [H _]. split; [|reflexivity].
      apply set_eq. intros k. rewrite elem_of_difference, elem_of_singleton.
      split; [tauto|]. intros Hk. split; [exact Hk|].
      intros ->. specialize (H Hk). discriminate.
Qed.


(** The three histories of a monitor. *)
Definition histories mon : list Q * list Q * list (ConnectionQuality * Q * Q) :=
  (latency_history mon, uptime_history mon, connection_quality_log mon).

Lemma handle_quality_change_histories mon w q metrics :
  exists mon' w',
    _handle_quality_change q metrics (mon, w) = ((mon', w'), Ret tt) /\
    histories mon' = histories mon /\ current_quality mon' = q.
Proof.
  unfold _handle_quality_change.
  unfold bind, gets, logger, modify, ret. cbn [fst snd].
  destruct q; cbn -[trim Z.add Z.leb].
  5: destruct (reconnect_callback mon) as [cb|];
       [destruct (3 <=? consecutive_poor_checks mon + 1)%Z|];
       [unfold try_except, call; destruct (cb w) as [w' [e|]]| |].
  all: eexists _, _; split; [reflexivity|]; split; reflexivity.
Qed.

Lemma check_alerts_histories metrics mon w :
  exists mon',
    _check_alerts metrics (mon, w) = ((mon', w), Ret tt) /\
    histories mon' = histories mon /\ current_quality mon' = current_quality mon.
Proof.
  unfold _check_alerts, bind.
  destruct (check_alert_cases (gt (latency_ms metrics) 2000) "high_latency" mon w)
    as (a1 & l1 & -> & _).
  destruct (check_alert_cases (lt (uptime_percentage metrics) 95) "low_uptime"
              (with_alerts a1 l1 mon) w) as (a2 & l2 & -> & _).
  destruct (check_alert_cases (gt (error_rate_percentage metrics) 5) "high_error_rate"
              (with_alerts a2 l2 (with_alerts a1 l1 mon)) w) as (a3 & l3 & -> & _).
  eexists. split; [reflexivity|]. split; reflexivity.
Qed.

(** One sample, in the histories. *)
Lemma monitoring_step_histories metrics mon w :
  exists mon' w',
    monitoring_step metrics (mon, w) = ((mon', w'), Ret tt) /\
    latency_history mon' = trim 100 (latency_history mon ++ [latency_ms metrics]) /\
    uptime_history mon' =
      trim 100 (uptime_history mon ++ [uptime_percentage metrics]) /\
    connection_quality_log mon' =
      trim 100 (connection_quality_log mon ++
                  [(_evaluate_connection_quality metrics, latency_ms metrics,
                    uptime_percentage metrics)]).
Proof.
  unfold monitoring_step.
  set (q := _evaluate_connection_quality metrics).
  unfold bind at 1, gets at 1. cbn [fst]. unfold bind at 1.
  assert (exists m1 w1,
    (if bool_decide (q <> current_quality mon)
     then _handle_quality_change q metrics else ret tt) (mon, w) = ((m1, w1), Ret tt) /\
    histories m1 = histories mon /\ current_quality m1 = q)
    as (m1 & w1 & -> & H1 & Q1).
  { case_bool_decide as Hq; [apply handle_quality_change_histories|].
    eexists _, _; split; [reflexivity|]. split; [reflexivity|]. congruence. }
  unfold bind.
  destruct (check_alerts_histories metrics m1 w1) as (m2 & -> & H2 & Q2).
  unfold _update_history, modify.
  eexists _, _; split; [reflexivity|].
  cbn [latency_history uptime_history connection_quality_log with_history].
  rewrite Q2, Q1. unfold histories in H1, H2.
  injection H1 as <- <- <-. injection H2 as -> -> ->. auto.
Qed.

Lemma trim_length {A} n (l : list A) : (length (trim n l) <= Nat.max n (length l))%nat.
Proof.
  unfold trim, last_n. destruct (n <? length l)%nat; [rewrite length_skipn|]; lia.
Qed.

Lemma trim_bounded {A} n (l : list A) x :
  (length l <= n)%nat -> (length (trim n (l ++ [x])) <= n)%nat.
Proof.
  intros H. unfold trim, last_n. rewrite length_app. cbn [length].
  destruct (n <? length l + 1)%nat eqn:E.
  - rewrite length_skipn, length_app. cbn [length]. lia.
  - apply Nat.ltb_ge in E. rewrite length_app. cbn [length]. lia.
Qed.

(** Trimming after each append keeps what trimming once at the end keeps. *)
Lemma trim_snoc {A} n (l : list A) x :
  trim n (trim n l ++ [x]) = trim n (l ++ [x]).
Proof.
  unfold trim at 2, last_n.
  destruct (n <? length l)%nat eqn:E; [|reflexivity].
  apply Nat.ltb_lt in E.
  unfold trim, last_n. rewrite !length_app, length_skipn. cbn [length].
  replace (n <? length l - (length l - n) + 1)%nat with true
    by (symmetry; apply Nat.ltb_lt; lia).
  replace (n <? length l + 1)%nat with true by (symmetry; apply Nat.ltb_lt; lia).
  rewrite !skipn_app, skipn_skipn, length_skipn.
  replace (length l - (length l - n) + 1 - n + (length l - n))%nat
    with (length l + 1 - n)%nat by lia.
  f_equal. f_equal. lia.
Qed.

(** The histories are the trail of the last 100 samples: after the loop has
    run on any samples, a monitor whose histories were empty holds the
    latencies and the uptimes of the last 100 samples, in order, and its
    quality log holds, for each of them, the quality the sample was given. *)
Theorem histories_hold_last_samples samples mon w :
  latency_history mon = [] -> uptime_history mon = [] ->
  connection_quality_log mon = [] ->
  exists mon' w',
    _monitoring_loop samples (mon, w) = ((mon', w'), Ret tt) /\
    latency_history mon' = trim 100 (map latency_ms samples) /\
    uptime_history mon' = trim 100 (map uptime_percentage samples) /\
    connection_quality_log mon' =
      trim 100 (map (fun metrics => (_evaluate_connection_quality metrics,
                                     latency_ms metrics, uptime_percentage metrics))
                  samples) /\
    (length (latency_history mon') <= 100)%nat.
Proof.
  intros Hl Hu Hq.
  assert (forall samples mon w (ls us : list Q) (qs : list (ConnectionQuality * Q * Q)),
            latency_history mon = trim 100 ls ->
            uptime_history mon = trim 100 us ->
            connection_quality_log mon = trim 100 qs ->
            exists mon' w',
              _monitoring_loop samples (mon, w) = ((mon', w'), Ret tt) /\
              latency_history mon' = trim 100 (ls ++ map latency_ms samples) /\
              uptime_history mon' = trim 100 (us ++ map uptime_percentage samples) /\
              connection_quality_log mon' =
                trim 100 (qs ++ map (fun metrics =>
                                       (_evaluate_connection_quality metrics,
                                        latency_ms metrics, uptime_percentage metrics))
                                  samples)) as Hrun.
  { clear. induction samples as [|metrics rest IH]; intros mon w ls us qs Hl Hu Hq.
    - eexists _, _. split; [reflexivity|]. cbn [map]. rewrite !app_nil_r. auto.
    - cbn [_monitoring_loop]. unfold bind.
      destruct (monitoring_step_histories metrics mon w)
        as (m1 & w1 & -> & L1 & U1 & Q1).
      rewrite Hl, trim_snoc in L1. rewrite Hu, trim_snoc in U1.
      rewrite Hq, trim_snoc in Q1.
      destruct (IH m1 w1 _ _ _ L1 U1 Q1) as (m2 & w2 & -> & L2 & U2 & Q2).
      eexists _, _. split; [reflexivity|]. cbn [map].
      rewrite <- !app_assoc in L2, U2, Q2. auto. }
  destruct (Hrun samples mon w [] [] []) as (mon' & w' & Hloop & L & U & Q);
    [by rewrite Hl | by rewrite Hu | by rewrite Hq |].
  cbn [app] in L, U, Q.
  exists mon', w'. repeat split; try assumption.
  rewrite L. unfold trim, last_n.
  destruct (100 <? length (map latency_ms samples))%nat eqn:E.
  - rewrite length_skipn. lia.
  - apply Nat.ltb_ge in E. exact E.
Qed.

End Histories.


Lemma histories_hold_last_samples_witness :
  exists mon' w',
    _monitoring_loop degrading_samples (init (Some counting_callback), O) =
      ((mon', w'), Ret tt) /\
    latency_history mon' = trim 100 (map latency_ms degrading_samples) /\
    uptime_history mon' = trim 100 (map uptime_percentage degrading_samples) /\
    connection_quality_log mon' =
      trim 100 (map (fun metrics => (_evaluate_connection_quality metrics,
                                     latency_ms metrics, uptime_percentage metrics))
                  degrading_samples) /\
    (length (latency_history mon') <= 100)%nat.
Proof.
  apply (histories_hold_last_samples degrading_samples
           (init (Some counting_callback)) O); reflexivity.
Defined.

(** Perfect metrics after an outage of ten minutes. *)
Definition after_outage : ConnectionMetrics :=
  {| latency_ms := 0; uptime_percentage := 100; message_rate_per_minute := 0;
     error_rate_percentage := 0; reconnection_count := 0;
     last_disconnection_duration := 600 |}.

Lemma long_disconnection_caps_quality_witness :
  score after_outage <= 70 /\ _evaluate_connection_quality after_outage <> EXCELLENT.
Proof.
  apply (long_disconnection_caps_quality after_outage). reflexivity.
Defined.

End ConnectionMonitor.

(** ** src/connection/reconnection_system.py *)

Module ReconnectionSystem.

#[local] Open Scope Q_scope.

Inductive ReconnectionContext : Type :=
| EMERGENCY_TICKS
| PRIORITY_CONTRACTS
| NORMAL_IDLE.

#[global] Instance ReconnectionContext_eq_dec : EqDecision ReconnectionContext.
Proof. solve_decision. Defined.

(** [ReconnectionStrategy]: the fields [__init__] derives from the context. *)
Record ReconnectionStrategy : Type := {
  context : ReconnectionContext;
  delays : list Q;
  max_attempts : Z;
  persistent_delays : list Q
}.

Definition _get_delays_for_context (ctx : ReconnectionContext) : list Q :=
  match ctx with
  | EMERGENCY_TICKS => [1 # 2; 1; 2; 3; 5; 8; 10]
  | PRIORITY_CONTRACTS => [2; 4; 6; 10; 15; 20; 30]
  | NORMAL_IDLE => [10; 10; 10; 10; 10; 10; 10]
  end.

Definition _get_max_attempts_for_context (ctx : ReconnectionContext) : Z :=
  match ctx with
  | EMERGENCY_TICKS => 10
  | PRIORITY_CONTRACTS => 7
  | NORMAL_IDLE => 5
  end.

Definition _get_persistent_delays (ctx : ReconnectionContext) : list Q :=
  match ctx with
  | EMERGENCY_TICKS => [10; 10; 10]
  | PRIORITY_CONTRACTS => [10; 10; 10]
  | NORMAL_IDLE => [10; 10; 10]
  end.

(** [ReconnectionStrategy(context)] *)
Definition new_strategy (ctx : ReconnectionContext) : ReconnectionStrategy :=
  {| context := ctx;
     delays := _get_delays_for_context ctx;
     max_attempts := _get_max_attempts_for_context ctx;
     persistent_delays := _get_persistent_delays ctx |}.

(** [get_delay]: [self.delays[min(attempt - 1, len(self.delays) - 1)]] *)
Definition get_delay (strategy : ReconnectionStrategy) (attempt : Z) : result Q :=
  py_index (delays strategy)
    (Z.min (attempt - 1) (Z.of_nat (length (delays strategy)) - 1)).

Definition get_persistent_delay (strategy : ReconnectionStrategy) (cycle : Z)
  : result Q :=
  py_index (persistent_delays strategy)
    (Z.min (cycle - 1) (Z.of_nat (length (persistent_delays strategy)) - 1)).

Section System.

(** What the collaborators' callbacks read and act on. *)
Context {World : Type}.

(** Outside the object: the collaborators' world, the reading of
    [time.time()], and the delays slept so far. Only [asyncio.sleep] moves
    the clock. *)
Record env : Type := {
  world : World;
  now : Q;
  slept : list Q
}.

Record t : Type := mk {
  attempt_count : Z;
  persistent_cycle : Z;
  current_strategy : option ReconnectionStrategy;
  is_reconnecting : bool;
  is_persistent_mode : bool;
  last_disconnection_time : Q;
  has_tick_operations_callback : option (World -> bool);
  has_active_contracts_callback : option (World -> bool);
  reconnect_callback : option (World -> World * result bool);
  total_reconnections : Z;
  successful_reconnections : Z;
  failed_reconnections : Z;
  persistent_recoveries : Z;
  total_downtime_seconds : Q;
  state_backup_time : Q
}.

(** [__init__] *)
Definition init : t := {|
  attempt_count := 0; persistent_cycle := 0; current_strategy := None;
  is_reconnecting := false; is_persistent_mode := false;
  last_disconnection_time := 0;
  has_tick_operations_callback := None; has_active_contracts_callback := None;
  reconnect_callback := None;
  total_reconnections := 0; successful_reconnections := 0;
  failed_reconnections := 0; persistent_recoveries := 0;
  total_downtime_seconds := 0; state_backup_time := 0 |}.

Definition set_context_callbacks (has_tick_ops has_contracts : World -> bool)
    (reconnect_func : World -> World * result bool) (sys : t) : t :=
  {| attempt_count := attempt_count sys; persistent_cycle := persistent_cycle sys;
     current_strategy := current_strategy sys;
     is_reconnecting := is_reconnecting sys;
     is_persistent_mode := is_persistent_mode sys;
     last_disconnection_time := last_disconnection_time sys;
     has_tick_operations_callback := Some has_tick_ops;
     has_active_contracts_callback := Some has_contracts;
     reconnect_callback := Some reconnect_func;
     total_reconnections := total_reconnections sys;
     successful_reconnections := successful_reconnections sys;
     failed_reconnections := failed_reconnections sys;
     persistent_recoveries := persistent_recoveries sys;
     total_downtime_seconds := total_downtime_seconds sys;
     state_backup_time := state_backup_time sys |}.

(** The episode fields: counters of the current episode, strategy, flags. *)
Definition with_episode (attempts cycle : Z) (strategy : option ReconnectionStrategy)
    (reconnecting persistent : bool) (sys : t) : t :=
  {| attempt_count := attempts; persistent_cycle := cycle;
     current_strategy := strategy;
     is_reconnecting := reconnecting;
     is_persistent_mode := persistent;
     last_disconnection_time := last_disconnection_time sys;
     has_tick_operations_callback := has_tick_operations_callback sys;
     has_active_contracts_callback := has_active_contracts_callback sys;
     reconnect_callback := reconnect_callback sys;
     total_reconnections := total_reconnections sys;
     successful_reconnections := successful_reconnections sys;
     failed_reconnections := failed_reconnections sys;
     persistent_recoveries := persistent_recoveries sys;
     total_downtime_seconds := total_downtime_seconds sys;
     state_backup_time := state_backup_time sys |}.

(** The statistics and the stamps. *)
Definition with_stats (disconnected_at : Q) (total successful persistent : Z)
    (downtime backup_time : Q) (sys : t) : t :=
  {| attempt_count := attempt_count sys; persistent_cycle := persistent_cycle sys;
     current_strategy := current_strategy sys;
     is_reconnecting := is_reconnecting sys;
     is_persistent_mode := is_persistent_mode sys;
     last_disconnection_time := disconnected_at;
     has_tick_operations_callback := has_tick_operations_callback sys;
     has_active_contracts_callback := has_active_contracts_callback sys;
     reconnect_callback := reconnect_callback sys;
     total_reconnections := total;
     successful_reconnections := successful;
     failed_reconnections := failed_reconnections sys;
     persistent_recoveries := persistent;
     total_downtime_seconds := downtime;
     state_backup_time := backup_time |}.

Definition state : Type := t * env.

(** [await asyncio.sleep(delay)] *)
Definition sleep (delay : Q) : Py state unit :=
  modify (fun '(sys, e) =>
    (sys, {| world := world e; now := now e + delay; slept := slept e ++ [delay] |})).

(** Lift a [result] into a computation. *)
Definition lift {A} (r : result A) : Py state A := fun s => (s, r).

(** [determine_context] *)
Definition determine_context (sys : t) (w : World) : ReconnectionContext :=
  if match has_tick_operations_callback sys with
     | Some has_tick_ops => has_tick_ops w
     | None => false
     end
  then EMERGENCY_TICKS
  else if match has_active_contracts_callback sys with
          | Some has_contracts => has_contracts w
          | None => false
          end
  then PRIORITY_CONTRACTS
  else NORMAL_IDLE.

(** [self.current_strategy.<method>(...)]: [None] has no attributes. *)
Definition strategy_of (sys : t) : result ReconnectionStrategy :=
  match current_strategy sys with
  | Some strategy => Ret strategy
  | None => Raise (AttributeError "current_strategy")
  end.

(** [_attempt_reconnection] *)
Definition _attempt_reconnection : Py state bool :=
  fun '(sys, e) =>
    match reconnect_callback sys with
    | Some reconnect =>
        match reconnect (world e) with
        | (w', Ret true) =>
            let e' := {| world := w'; now := now e; slept := slept e |} in
            if is_persistent_mode sys then ((sys, e'), Ret true)
            else
              let downtime := now e - last_disconnection_time sys in
              ((with_stats (last_disconnection_time sys) (total_reconnections sys)
                  (successful_reconnections sys + 1)%Z (persistent_recoveries sys)
                  (total_downtime_seconds sys + downtime) (state_backup_time sys)
                  sys, e'), Ret true)
        | (w', Ret false) =>
            ((sys, {| world := w'; now := now e; slept := slept e |}), Ret false)
        | (w', Raise ex) =>
            ((sys, {| world := w'; now := now e; slept := slept e |}), Raise ex)
        end
    | None => ((sys, e), Ret false)
    end.

(** [_initial_reconnection_attempts]; [fuel] bounds the turns of the
    [while]. [None]: the bound was reached with the loop still running. *)
Fixpoint _initial_reconnection_attempts (fuel : nat) (ctx : ReconnectionContext)
    (s : state) : option (state * result bool) :=
  let sys := fst s in
  match strategy_of sys with
  | Raise ex => Some (s, Raise ex)
  | Ret strategy =>
      if (attempt_count sys <? max_attempts strategy)%Z then
        match fuel with
        | O => None
        | S fuel' =>
            let sys1 := with_episode (attempt_count sys + 1)%Z (persistent_cycle sys)
                          (current_strategy sys) (is_reconnecting sys)
                          (is_persistent_mode sys) sys in
            match (delay <- lift (get_delay strategy (attempt_count sys1)) ;;
                   sleep delay ;;;
                   _attempt_reconnection)%py (sys1, snd s) with
            | (s', Ret true) => Some (s', Ret true)
            | (s', Ret false) => _initial_reconnection_attempts fuel' ctx s'
            | (s', Raise ex) => Some (s', Raise ex)
            end
        end
      else Some (s, Ret false)
  end.

(** [_persistent_reconnection_loop]: the [while True]. *)
Fixpoint _persistent_reconnection_loop (fuel : nat) (ctx : ReconnectionContext)
    (s : state) : option (state * result bool) :=
  match fuel with
  | O => None
  | S fuel' =>
      let sys := fst s in
      let sys1 := with_episode (attempt_count sys) (persistent_cycle sys + 1)%Z
                    (current_strategy sys) (is_reconnecting sys)
                    (is_persistent_mode sys) sys in
      match (strategy <- lift (strategy_of sys1) ;;
             delay <- lift (get_persistent_delay strategy (persistent_cycle sys1)) ;;
             sleep delay ;;;
             _attempt_reconnection)%py (sys1, snd s) with
      | ((sys2, e2), Ret true) =>
          let downtime := now e2 - last_disconnection_time sys2 in
          Some ((with_stats (last_disconnection_time sys2) (total_reconnections sys2)
                   (successful_reconnections sys2 + 1)%Z
                   (persistent_recoveries sys2 + 1)%Z
                   (total_downtime_seconds sys2 + downtime) (state_backup_time sys2)
                   sys2, e2), Ret true)
      | ((sys2, e2), Ret false) =>
          if (persistent_cycle sys2 mod 3 =? 0)%Z then
            let new_context := determine_context sys2 (world e2) in
            if bool_decide (new_context <> ctx)
            then _persistent_reconnection_loop fuel' new_context
                   (with_episode (attempt_count sys2) (persistent_cycle sys2)
                      (Some (new_strategy new_context)) (is_reconnecting sys2)
                      (is_persistent_mode sys2) sys2, e2)
            else _persistent_reconnection_loop fuel' ctx (sys2, e2)
          else _persistent_reconnection_loop fuel' ctx (sys2, e2)
      | (s', Raise ex) => Some (s', Raise ex)
      end
  end.

(** The [finally] of [start_persistent_reconnection]. *)
Definition finally_reset (s : state) : state :=
  (with_episode (attempt_count (fst s)) (persistent_cycle (fst s)) None false false
     (fst s), snd s).

(** [start_persistent_reconnection] *)
Definition start_persistent_reconnection (fuel : nat) (s : state)
  : option (state * result bool) :=
  let '(sys, e) := s in
  if is_reconnecting sys then Some (s, Ret false)
  else
    let sys1 :=
      with_stats (now e) (total_reconnections sys + 1)%Z
        (successful_reconnections sys) (persistent_recoveries sys)
        (total_downtime_seconds sys) (now e)
        (with_episode 0 0 (current_strategy sys) true false sys) in
    let ctx := determine_context sys1 (world e) in
    let sys2 := with_episode (attempt_count sys1) (persistent_cycle sys1)
                  (Some (new_strategy ctx)) true false sys1 in
    match _initial_reconnection_attempts fuel ctx (sys2, e) with
    | None => None
    | Some (s3, Ret true) => Some (finally_reset s3, Ret true)
    | Some (s3, Raise _) => Some (finally_reset s3, Ret false)
    | Some ((sys3, e3), Ret false) =>
        let sys4 := with_episode (attempt_count sys3) (persistent_cycle sys3)
                      (current_strategy sys3) (is_reconnecting sys3) true sys3 in
        match _persistent_reconnection_loop fuel ctx (sys4, e3) with
        | None => None
        | Some (s5, Ret success) => Some (finally_reset s5, Ret success)
        | Some (s5, Raise _) => Some (finally_reset s5, Ret false)
        end
    end.

(** The world after the first [k] invocations of the reconnect callback,
    and what its next invocation returns. Nothing else acts on the world
    while the controller runs. *)
Fixpoint world_after (reconnect : World -> World * result bool) (k : nat)
    (w : World) : World :=
  match k with
  | O => w
  | S k' => fst (reconnect (world_after reconnect k' w))
  end.

Definition outcome (reconnect : World -> World * result bool) (k : nat)
    (w : World) : result bool :=
  snd (reconnect (world_after reconnect k w)).

(** The stub of the spec: it fails on its first [M - 1] calls and succeeds
    on call [M]. *)
Definition fails_then_succeeds (reconnect : World -> World * result bool)
    (w : World) (M : nat) : Prop :=
  (forall k, (k < M - 1)%nat -> outcome reconnect k w = Ret false) /\
  outcome reconnect (M - 1) w = Ret true.

End System.

Arguments env World : clear implicits.
Arguments t World : clear implicits.
Arguments state World : clear implicits.

Lemma py_index_clamped {A} (l : list A) (i : Z) :
  l <> [] -> (0 <= i)%Z ->
  exists x, py_index l (Z.min i (Z.of_nat (length l) - 1)) = Ret x.
Proof.
  intros Hl Hi. unfold py_index.
  assert (0 < length l)%nat by (destruct l; [done | cbn; lia]).
  set (j := Z.min i (Z.of_nat (length l) - 1)).
  assert (0 <= j < Z.of_nat (length l))%Z as Hj by lia.
  destruct (j <? 0)%Z eqn:Hneg; [lia|].
  replace ((0 <=? j)%Z && (j <? Z.of_nat (length l))%Z) with true
    by (symmetry; apply andb_true_intro; split; [apply Z.leb_le | apply Z.ltb_lt]; lia).
  destruct (nth_error l (Z.to_nat j)) as [x|] eqn:E; [eauto|].
  apply nth_error_None in E. lia.
Qed.

Lemma get_delay_ok ctx (attempt : Z) :
  (1 <= attempt)%Z -> exists d, get_delay (new_strategy ctx) attempt = Ret d.
Proof.
  intros H. apply py_index_clamped; [destruct ctx; discriminate | lia].
Qed.

Lemma get_persistent_delay_ok ctx (cycle : Z) :
  (1 <= cycle)%Z -> exists d, get_persistent_delay (new_strategy ctx) cycle = Ret d.
Proof.
  intros H. apply py_index_clamped; [destruct ctx; discriminate | lia].
Qed.

Lemma max_attempts_pos ctx : (5 <= _get_max_attempts_for_context ctx <= 10)%Z.
Proof. destruct ctx; cbn; lia. Qed.

Section Properties.

Context {World : Type}.

(** The stub of the spec and the world it starts in. *)
Variable reconnect : World -> World * result bool.
Variable w0 : World.
Variable M : nat.
Hypothesis M_pos : (1 <= M)%nat.
Hypothesis stub : fails_then_succeeds reconnect w0 M.

Implicit Types (sys : t World) (e : env World) (ctx : ReconnectionContext).

(** The environment after call [k + 1] of the stub. *)
Definition moved e (k : nat) : env World :=
  {| world := world_after reconnect (S k) w0; now := now e; slept := slept e |}.

Lemma attempt_fails sys e (k : nat) :
  reconnect_callback sys = Some reconnect ->
  world e = world_after reconnect k w0 ->
  (k < M - 1)%nat ->
  _attempt_reconnection (sys, e) = ((sys, moved e k), Ret false).
Proof.
  intros Hcb Hw Hk. unfold _attempt_reconnection, moved. rewrite Hcb, Hw.
  pose proof (proj1 stub k Hk) as Ho. unfold outcome in Ho. cbn [world_after].
  destruct (reconnect (world_after reconnect k w0)) as [w' r]. cbn in Ho. subst r.
  reflexivity.
Qed.

(** The fields that one attempt leaves alone. *)
Definition kept sys sys' : Prop :=
  attempt_count sys' = attempt_count sys /\
  persistent_cycle sys' = persistent_cycle sys /\
  current_strategy sys' = current_strategy sys /\
  is_reconnecting sys' = is_reconnecting sys /\
  is_persistent_mode sys' = is_persistent_mode sys /\
  reconnect_callback sys' = reconnect_callback sys /\
  persistent_recoveries sys' = persistent_recoveries sys.

Lemma attempt_succeeds sys e :
  reconnect_callback sys = Some reconnect ->
  world e = world_after reconnect (M - 1) w0 ->
  exists sys',
    _attempt_reconnection (sys, e) = ((sys', moved e (M - 1)), Ret true) /\
    kept sys sys'.
Proof.
  intros Hcb Hw. unfold _attempt_reconnection, moved. rewrite Hcb, Hw.
  pose proof (proj2 stub) as Ho. unfold outcome in Ho. cbn [world_after].
  destruct (reconnect (world_after reconnect (M - 1) w0)) as [w' r]. cbn in Ho. subst r.
  destruct (is_persistent_mode sys) eqn:Hp; eexists; (split; [reflexivity|]);
    unfold kept; cbn; auto 10.
Qed.

(** The fast phase: [budget] is the attempt budget of the context. With
    enough fuel it ends after [min M budget] calls of the stub, with success
    exactly when call [M] is within the budget. *)
Lemma initial_enough ctx (n : nat) : forall (a : nat) sys e fuel,
  let budget := Z.to_nat (_get_max_attempts_for_context ctx) in
  current_strategy sys = Some (new_strategy ctx) ->
  reconnect_callback sys = Some reconnect ->
  attempt_count sys = Z.of_nat a ->
  world e = world_after reconnect a w0 ->
  (a < M)%nat -> (a <= budget)%nat ->
  n = (Nat.min M budget - a)%nat -> (n <= fuel)%nat ->
  exists sys' e',
    _initial_reconnection_attempts fuel ctx (sys, e) =
      Some ((sys', e'), Ret (M <=? budget)%nat) /\
    attempt_count sys' = Z.of_nat (Nat.min M budget) /\
    world e' = world_after reconnect (Nat.min M budget) w0 /\
    persistent_cycle sys' = persistent_cycle sys /\
    current_strategy sys' = current_strategy sys /\
    is_reconnecting sys' = is_reconnecting sys /\
    is_persistent_mode sys' = is_persistent_mode sys /\
    reconnect_callback sys' = reconnect_callback sys /\
    persistent_recoveries sys' = persistent_recoveries sys.
Proof.
  induction n as [|n IH]; intros a sys e fuel budget Hst Hcb Ha Hw HaM Hab Hn Hfuel.
  - (* the budget is used up before call M *)
    assert (a = budget /\ (budget < M)%nat) as [-> HbM] by lia.
    exists sys, e. replace (Nat.min M budget) with budget by lia.
    replace (M <=? budget)%nat with false by (symmetry; apply Nat.leb_gt; lia).
    split; [|auto 10].
    destruct fuel; cbn [_initial_reconnection_attempts fst]; unfold strategy_of;
      rewrite Hst; cbn [max_attempts new_strategy]; rewrite Ha;
      (replace (_ <? _)%Z with false; [reflexivity|]);
      symmetry; apply Z.ltb_ge; subst budget; pose proof (max_attempts_pos ctx); lia.
  - destruct fuel as [|fuel]; [lia|].
    cbn [_initial_reconnection_attempts fst snd]. unfold strategy_of at 1.
    rewrite Hst. cbn [max_attempts new_strategy].
    replace (_ <? _)%Z with true
      by (symmetry; apply Z.ltb_lt; rewrite Ha; subst budget;
          pose proof (max_attempts_pos ctx); lia).
    destruct (get_delay_ok ctx (attempt_count sys + 1)%Z) as [d Hd]; [lia|].
    unfold bind at 1, lift at 1. cbn [attempt_count with_episode].
    fold (new_strategy ctx). rewrite Hd.
    unfold bind, sleep, modify.
    match goal with
    | |- context [_attempt_reconnection (?a, ?b)] => set (sys1 := a); set (e1 := b)
    end.
    assert (reconnect_callback sys1 = Some reconnect) as Hcb1 by exact Hcb.
    assert (world e1 = world_after reconnect a w0) as Hw1 by exact Hw.
    destruct (decide (a = M - 1)%nat) as [Hlast|Hmore].
    + (* call M succeeds *)
      rewrite Hlast in Hw1.
      destruct (attempt_succeeds sys1 e1 Hcb1 Hw1) as (sys2 & -> & K).
      destruct K as (K1 & K2 & K3 & K4 & K5 & K6 & K7).
      exists sys2, (moved e1 (M - 1)).
      replace (M <=? budget)%nat with true by (symmetry; apply Nat.leb_le; lia).
      replace (Nat.min M budget) with M by lia.
      split; [reflexivity|].
      rewrite K1, K2, K3, K4, K5, K6, K7. cbn [attempt_count sys1 with_episode].
      repeat split; try reflexivity; [lia|].
      unfold moved. cbn [world]. f_equal. lia.
    + rewrite (attempt_fails sys1 e1 a Hcb1 Hw1) by lia.
      destruct (IH (S a) sys1 (moved e1 a) fuel) as (sys' & e' & Hrun & Hrest);
        try assumption; try reflexivity; try lia.
      { cbn. lia. }
      exists sys', e'. split; [exact Hrun|]. exact Hrest.
Qed.

(** The persistent phase, entered after [b] failed calls: with enough fuel
    it ends in success on call [M], after [M - b] cycles. *)
Lemma persistent_enough (b n : nat) : forall (c : nat) ctx sys e fuel,
  (exists ctx', current_strategy sys = Some (new_strategy ctx')) ->
  reconnect_callback sys = Some reconnect ->
  persistent_cycle sys = Z.of_nat c ->
  world e = world_after reconnect (b + c) w0 ->
  (b + c < M)%nat ->
  n = (M - (b + c))%nat -> (n <= fuel)%nat ->
  exists sys' e',
    _persistent_reconnection_loop fuel ctx (sys, e) = Some ((sys', e'), Ret true) /\
    persistent_cycle sys' = Z.of_nat (M - b) /\
    world e' = world_after reconnect M w0 /\
    attempt_count sys' = attempt_count sys /\
    is_reconnecting sys' = is_reconnecting sys /\
    persistent_recoveries sys' = (persistent_recoveries sys + 1)%Z.
Proof.
  induction n as [|n IH]; intros c ctx sys e fuel [ctx' Hst] Hcb Hc Hw HcM Hn Hfuel;
    [lia|].
  destruct fuel as [|fuel]; [lia|].
  cbn [_persistent_reconnection_loop fst snd].
  unfold bind at 1, lift at 1, strategy_of. cbn [current_strategy with_episode].
  rewrite Hst.
  destruct (get_persistent_delay_ok ctx' (persistent_cycle sys + 1)%Z) as [d Hd]; [lia|].
  unfold bind at 1, lift at 1. cbn [persistent_cycle with_episode]. rewrite Hd.
  unfold bind, sleep, modify.
  match goal with
  | |- context [_attempt_reconnection (?a, ?b)] => set (sys1 := a); set (e1 := b)
  end.
  assert (reconnect_callback sys1 = Some reconnect) as Hcb1 by exact Hcb.
  assert (world e1 = world_after reconnect (b + c) w0) as Hw1 by exact Hw.
  destruct (decide (b + c = M - 1)%nat) as [Hlast|Hmore].
  - rewrite Hlast in Hw1.
    destruct (attempt_succeeds sys1 e1 Hcb1 Hw1) as (sys2 & -> & K).
    destruct K as (K1 & K2 & K3 & K4 & K5 & K6 & K7).
    eexists _, _. split; [reflexivity|].
    cbn [persistent_cycle attempt_count is_reconnecting persistent_recoveries
         with_stats world].
    rewrite K1, K2, K4, K7. cbn [sys1 persistent_cycle attempt_count is_reconnecting
      persistent_recoveries with_episode].
    repeat split; try reflexivity; [lia|].
    unfold moved. cbn [world]. f_equal. lia.
  - rewrite (attempt_fails sys1 e1 (b + c) Hcb1 Hw1) by lia.
    assert (forall ctx0 (st : option ReconnectionStrategy),
              (exists ctx'', st = Some (new_strategy ctx'')) ->
              exists sys' e',
                _persistent_reconnection_loop fuel ctx0
                  (with_episode (attempt_count sys1) (persistent_cycle sys1) st
                     (is_reconnecting sys1) (is_persistent_mode sys1) sys1,
                   moved e1 (b + c)) = Some ((sys', e'), Ret true) /\
                persistent_cycle sys' = Z.of_nat (M - b) /\
                world e' = world_after reconnect M w0 /\
                attempt_count sys' = attempt_count sys /\
                is_reconnecting sys' = is_reconnecting sys /\
                persistent_recoveries sys' = (persistent_recoveries sys + 1)%Z) as Hnext.
    { intros ctx0 st Hst0.
      destruct (IH (S c) ctx0
                  (with_episode (attempt_count sys1) (persistent_cycle sys1) st
                     (is_reconnecting sys1) (is_persistent_mode sys1) sys1)
                  (moved e1 (b + c)) fuel)
        as (sys' & e' & Hrun & P1 & P2 & P3 & P4 & P5); try lia.
      - exact Hst0.
      - exact Hcb.
      - cbn. lia.
      - unfold moved. cbn [world]. f_equal. lia.
      - exists sys', e'. repeat split; assumption. }
    assert (with_episode (attempt_count sys1) (persistent_cycle sys1)
              (current_strategy sys1) (is_reconnecting sys1) (is_persistent_mode sys1)
              sys1 = sys1) as Hid by reflexivity.
    destruct (_ =? _)%Z; [case_bool_decide|].
    + apply Hnext. eauto.
    + rewrite <- Hid. apply Hnext. cbn. eauto.
    + rewrite <- Hid. apply Hnext. cbn. eauto.
Qed.

(** More fuel does not change a result. *)
Lemma initial_mono (fuel : nat) : forall fuel' ctx (s : state World) r,
  (fuel <= fuel')%nat ->
  _initial_reconnection_attempts fuel ctx s = Some r ->
  _initial_reconnection_attempts fuel' ctx s = Some r.
Proof.
  induction fuel as [|fuel IH]; intros [|fuel'] ctx s r Hle H; try lia;
    cbn [_initial_reconnection_attempts] in *;
    repeat case_match; simplify_eq; try done.
  apply (IH fuel'); [lia | assumption].
Qed.

Lemma persistent_mono (fuel : nat) : forall fuel' ctx (s : state World) r,
  (fuel <= fuel')%nat ->
  _persistent_reconnection_loop fuel ctx s = Some r ->
  _persistent_reconnection_loop fuel' ctx s = Some r.
Proof.
  induction fuel as [|fuel IH]; intros [|fuel'] ctx s r Hle H; try lia;
    cbn [_persistent_reconnection_loop] in *; try done.
  repeat case_match; simplify_eq; try done;
    (apply (IH fuel'); [lia | assumption]).
Qed.

Lemma start_mono (fuel fuel' : nat) (s : state World) r :
  (fuel <= fuel')%nat ->
  start_persistent_reconnection fuel s = Some r ->
  start_persistent_reconnection fuel' s = Some r.
Proof.
  intros Hle. unfold start_persistent_reconnection. destruct s as [sys e].
  destruct (is_reconnecting sys); [done|].
  destruct (_initial_reconnection_attempts fuel _ _) as [[s3 r3]|] eqn:E1; [|done].
  rewrite (initial_mono _ _ _ _ _ Hle E1).
  destruct r3 as [[|]|ex]; try done. destruct s3 as [sys3 e3].
  destruct (_persistent_reconnection_loop fuel _ _) as [[s5 r5]|] eqn:E2; [|done].
  by rewrite (persistent_mono _ _ _ _ _ Hle E2).
Qed.

Lemma start_enough sys e (fuel : nat) :
  is_reconnecting sys = false ->
  reconnect_callback sys = Some reconnect ->
  world e = w0 ->
  (M <= fuel)%nat ->
  let budget :=
    Z.to_nat (_get_max_attempts_for_context (determine_context sys w0)) in
  exists sys' e',
    start_persistent_reconnection fuel (sys, e) = Some ((sys', e'), Ret true) /\
    world e' = world_after reconnect M w0 /\
    attempt_count sys' = Z.of_nat (Nat.min M budget) /\
    persistent_cycle sys' = Z.of_nat (M - budget) /\
    persistent_recoveries sys' =
      (persistent_recoveries sys + (if (budget <? M)%nat then 1 else 0))%Z /\
    is_reconnecting sys' = false /\
    is_persistent_mode sys' = false.
Proof.
  intros Hrec Hcb Hw Hfuel budget.
  unfold start_persistent_reconnection. rewrite Hrec.
  match goal with
  | |- context [_initial_reconnection_attempts fuel ?c _] => set (ctx := c)
  end.
  match goal with
  | |- context [_initial_reconnection_attempts fuel ctx (?a, e)] => set (sys2 := a)
  end.
  assert (ctx = determine_context sys w0) as Hctx by (rewrite <- Hw; reflexivity).
  assert (budget = Z.to_nat (_get_max_attempts_for_context ctx)) as Hbudget
    by (rewrite Hctx; reflexivity).
  pose proof (max_attempts_pos ctx) as Hpos.
  destruct (initial_enough ctx (Nat.min M budget - 0) 0 sys2 e fuel)
    as (sys3 & e3 & -> & A1 & A2 & A3 & A4 & A5 & A6 & A7 & A8);
    try reflexivity; try lia; try assumption.
  rewrite <- Hbudget in *.
  destruct (M <=? budget)%nat eqn:Hle.
  - apply Nat.leb_le in Hle.
    eexists _, _. split; [reflexivity|].
    cbn [finally_reset fst snd world attempt_count persistent_cycle
         persistent_recoveries is_reconnecting is_persistent_mode with_episode].
    rewrite A1, A2, A3, A8.
    replace (budget <? M)%nat with false by (symmetry; apply Nat.ltb_ge; lia).
    replace (M - budget)%nat with 0%nat by lia.
    replace (Nat.min M budget) with M by lia.
    repeat split; try reflexivity. cbn. lia.
  - apply Nat.leb_gt in Hle.
    match goal with
    | |- context [_persistent_reconnection_loop fuel ctx (?a, e3)] => set (sys4 := a)
    end.
    destruct (persistent_enough budget (M - (budget + 0)) 0 ctx sys4 e3 fuel)
      as (sys5 & e5 & -> & B1 & B2 & B3 & B4 & B5); try reflexivity; try lia.
    + exists ctx. cbn. rewrite A4. reflexivity.
    + cbn. rewrite A7. exact Hcb.
    + cbn. rewrite A3. reflexivity.
    + rewrite A2. f_equal. lia.
    + eexists _, _. split; [reflexivity|].
      cbn [finally_reset fst snd world attempt_count persistent_cycle
           persistent_recoveries is_reconnecting is_persistent_mode with_episode].
      rewrite B1, B2, B3, B5. cbn [sys4 attempt_count persistent_recoveries with_episode].
      rewrite A1, A8.
      replace (budget <? M)%nat with true by (symmetry; apply Nat.ltb_lt; lia).
      repeat split; try reflexivity.
Qed.


End Properties.

(** *** Concrete runs: the world counts the invocations of the callback *)

(** A stub that succeeds on its 7th invocation. *)
Definition succeeds_on_7th : nat -> nat * result bool :=
  fun calls => (S calls, Ret (6 <=? calls)%nat).

(** A stub that raises on its first invocation and would succeed on the
    second. *)
Definition raises_then_succeeds : nat -> nat * result bool :=
  fun calls =>
    (S calls, match calls with
              | O => Raise (RuntimeError "connection refused")
              | _ => Ret true
              end).

(** No trade is open: the context is [NORMAL_IDLE], the budget 5. *)
Definition idle_system (reconnect : nat -> nat * result bool) : t nat :=
  set_context_callbacks (fun _ => false) (fun _ => false) reconnect init.

Definition fresh_env : env nat := {| world := O; now := 0; slept := [] |}.



Example reentrant_start_returns_failure (fuel : nat) :
  let busy := with_episode 0 0 None true false (idle_system succeeds_on_7th) in
  start_persistent_reconnection fuel (busy, fresh_env) =
    Some ((busy, fresh_env), Ret false).
Proof. reflexivity. Qed.

(** *** The delays, and the accounting of an episode *)

(** The fast phase backs off: for attempts numbered from 1 the delay is
    defined, positive, never shorter for a later attempt, at most 30
    seconds, and from attempt 7 on it stays at the last delay of the
    context. In the persistent phase every cycle waits 10 seconds, in every
    context. *)
Theorem reconnection_delays_back_off ctx (a b : Z) :
  (1 <= a <= b)%Z ->
  exists da db dlast,
    get_delay (new_strategy ctx) a = Ret da /\
    get_delay (new_strategy ctx) b = Ret db /\
    get_delay (new_strategy ctx) 7 = Ret dlast /\
    0 < da /\ da <= db /\ db <= dlast /\ dlast <= 30 /\
    ((7 <= a)%Z -> da = dlast) /\
    get_persistent_delay (new_strategy ctx) a = Ret 10.
Proof.
  intros H.
  assert (forall x : Z, (1 <= x)%Z ->
            exists i : nat, (i <= 6)%nat /\ ((Z.of_nat i < 6)%Z -> x = (Z.of_nat i + 1)%Z) /\
              ((7 <= x)%Z -> i = 6%nat) /\
              Z.min (x - 1) (Z.of_nat 7 - 1) = Z.of_nat i) as Hidx.
  { intros x Hx. exists (Z.to_nat (Z.min (x - 1) 6)). repeat split; lia. }
  assert (forall x : Z, (1 <= x)%Z ->
            exists i : nat, (i <= 2)%nat /\
              Z.min (x - 1) (Z.of_nat 3 - 1) = Z.of_nat i) as Hpidx.
  { intros x Hx. exists (Z.to_nat (Z.min (x - 1) 2)). split; lia. }
  destruct (Hidx a) as (i & Hi & Hia & Hi7 & Ea); [lia|].
  destruct (Hidx b) as (j & Hj & Hjb & _ & Eb); [lia|].
  destruct (Hpidx a) as (k & Hk & Ek); [lia|].
  assert (i <= j)%nat as Hij by lia.
  unfold get_delay, get_persistent_delay.
  assert (length (delays (new_strategy ctx)) = 7%nat) as -> by (by destruct ctx).
  assert (length (persistent_delays (new_strategy ctx)) = 3%nat) as ->
    by (by destruct ctx).
  rewrite Ea, Eb, Ek. clear Ea Eb Ek Hia Hjb Hidx Hpidx H.
  assert (py_index (persistent_delays (new_strategy ctx)) (Z.of_nat k) = Ret 10) as ->
    by (destruct ctx; do 3 (destruct k as [|k]; [reflexivity|]); lia).
  destruct ctx;
    repeat (destruct i as [|i]; [|try lia]);
    repeat (destruct j as [|j]; [|try lia]);
    try lia;
    (eexists _, _, _; split; [reflexivity|]; split; [reflexivity|];
     split; [reflexivity|];
     repeat split; try (intros; first [reflexivity | lia]);
     first [reflexivity | discriminate | lra]).
Qed.

Section Episode.

Context {World : Type}.

Implicit Types (sys : t World) (e : env World) (s : state World).

(** What the loops of an episode never write. *)
Definition fixed sys :=
  (has_tick_operations_callback sys, has_active_contracts_callback sys,
   reconnect_callback sys, total_reconnections sys, failed_reconnections sys,
   is_reconnecting sys, is_persistent_mode sys, last_disconnection_time sys).

(** What a result adds to the count of successes. *)
Definition gain (r : result bool) : Z :=
  match r with
  | Ret true => 1
  | _ => 0
  end.

Lemma attempt_accounting sys e s' r :
  _attempt_reconnection (sys, e) = (s', r) ->
  fixed (fst s') = fixed sys /\
  successful_reconnections (fst s') =
    (successful_reconnections sys + (if is_persistent_mode sys then 0 else gain r))%Z.
Proof.
  unfold _attempt_reconnection.
  destruct (reconnect_callback sys) as [reconnect|]; [|intros [= <- <-]; cbn; split;
    [reflexivity | destruct (is_persistent_mode sys); lia]].
  destruct (reconnect (world e)) as [w' [[|]|ex]].
  - destruct (is_persistent_mode sys) eqn:E; intros [= <- <-]; cbn.
    + split; [reflexivity | lia].
    + split; [unfold fixed; cbn; by rewrite E | reflexivity].
  - intros [= <- <-]; cbn. split; [reflexivity | destruct (is_persistent_mode sys); lia].
  - intros [= <- <-]; cbn. split; [reflexivity | destruct (is_persistent_mode sys); lia].
Qed.

(** One turn of either loop: the delay is looked up, slept, and the
    reconnection attempted. *)
Lemma turn_accounting (delay : result Q) sys e s' r :
  (delay <- lift delay ;; sleep delay ;;; _attempt_reconnection)%py (sys, e) = (s', r) ->
  fixed (fst s') = fixed sys /\
  successful_reconnections (fst s') =
    (successful_reconnections sys + (if is_persistent_mode sys then 0 else gain r))%Z.
Proof.
  unfold bind at 1, lift. destruct delay as [d|ex].
  - unfold bind, sleep, modify. apply attempt_accounting.
  - intros [= <- <-]. cbn. split; [reflexivity | destruct (is_persistent_mode sys); lia].
Qed.

Lemma initial_accounting (fuel : nat) : forall ctx s s' r,
  _initial_reconnection_attempts fuel ctx s = Some (s', r) ->
  is_persistent_mode (fst s) = false ->
  fixed (fst s') = fixed (fst s) /\
  successful_reconnections (fst s') =
    (successful_reconnections (fst s) + gain r)%Z.
Proof.
  induction fuel as [|fuel IH]; intros ctx [sys e] s' r; cbn [fst snd];
    cbn [_initial_reconnection_attempts fst snd];
    (destruct (strategy_of sys) as [strategy|ex];
       [|intros [= <- <-] _; cbn; split; [reflexivity | lia]]);
    (destruct (attempt_count sys <? max_attempts strategy)%Z;
       [|intros [= <- <-] _; cbn; split; [reflexivity | lia]]);
    [discriminate|].
  set (sys1 := with_episode _ _ _ _ _ sys).
  destruct ((delay <- lift (get_delay strategy (attempt_count sys1)) ;;
             sleep delay ;;; _attempt_reconnection)%py (sys1, e))
    as [s1 r1] eqn:E.
  intros Hrun Hmode.
  destruct (turn_accounting _ _ _ _ _ E) as [F1 S1].
  assert (is_persistent_mode sys1 = false) as Hmode1 by exact Hmode.
  rewrite Hmode1 in S1.
  assert (fixed sys1 = fixed sys) as F0 by reflexivity.
  destruct r1 as [[|]|ex].
  - injection Hrun as <- <-. split; [congruence | exact S1].
  - assert (is_persistent_mode (fst s1) = false) as Hm1.
    { unfold fixed in F1. injection F1 as _ _ _ _ _ _ -> _. exact Hmode1. }
    destruct (IH ctx s1 s' r Hrun Hm1) as [F2 S2].
    split; [congruence|]. rewrite S2, S1. cbn [gain successful_reconnections].
    change (successful_reconnections sys1) with (successful_reconnections sys). lia.
  - injection Hrun as <- <-. split; [congruence | exact S1].
Qed.

Lemma persistent_accounting (fuel : nat) : forall ctx s s' r,
  _persistent_reconnection_loop fuel ctx s = Some (s', r) ->
  is_persistent_mode (fst s) = true ->
  fixed (fst s') = fixed (fst s) /\
  successful_reconnections (fst s') =
    (successful_reconnections (fst s) + gain r)%Z.
Proof.
  induction fuel as [|fuel IH]; intros ctx [sys e] s' r; [discriminate|].
  cbn [_persistent_reconnection_loop fst snd].
  set (sys1 := with_episode _ _ _ _ _ sys).
  intros Hrun Hmode.
  assert (is_persistent_mode sys1 = true) as Hmode1 by exact Hmode.
  assert (fixed sys1 = fixed sys) as F0 by reflexivity.
  unfold bind at 1, lift at 1 in Hrun.
  destruct (strategy_of sys1) as [strategy|ex];
    [|injection Hrun as <- <-; cbn; split; [reflexivity | lia]].
  match type of Hrun with
  | match ?m (sys1, e) with _ => _ end = _ =>
      destruct (m (sys1, e)) as [[sys2 e2] r1] eqn:E
  end.
  destruct (turn_accounting _ _ _ _ _ E) as [F1 S1]. cbn [fst] in F1, S1.
  rewrite Hmode1 in S1.
  assert (is_persistent_mode sys2 = true) as Hm2.
  { unfold fixed in F1. injection F1 as _ _ _ _ _ _ -> _. exact Hmode1. }
  destruct r1 as [[|]|ex].
  - injection Hrun as <- <-. cbn [fst gain successful_reconnections with_stats].
    split; [rewrite <- F0, <- F1; unfold fixed; cbn; by rewrite Hm2|].
    rewrite S1. change (successful_reconnections sys1)
      with (successful_reconnections sys). lia.
  - assert (forall ctx' sys3,
              fixed sys3 = fixed sys2 ->
              successful_reconnections sys3 = successful_reconnections sys2 ->
              _persistent_reconnection_loop fuel ctx' (sys3, e2) = Some (s', r) ->
              fixed (fst s') = fixed sys /\
              successful_reconnections (fst s') =
                (successful_reconnections sys + gain r)%Z) as Hnext.
    { intros ctx' sys3 F3 S3 Hloop.
      assert (is_persistent_mode sys3 = true) as Hm3.
      { unfold fixed in F3. injection F3 as _ _ _ _ _ _ -> _. exact Hm2. }
      destruct (IH ctx' (sys3, e2) s' r Hloop Hm3) as [F4 S4]. cbn [fst] in F4, S4.
      split; [congruence|]. rewrite S4, S3, S1.
      change (successful_reconnections sys1) with (successful_reconnections sys).
      lia. }
    destruct (persistent_cycle sys2 mod 3 =? 0)%Z;
      [case_bool_decide|]; eapply Hnext; try exact Hrun; reflexivity.
  - injection Hrun as <- <-. cbn [fst gain]. split; [congruence|].
    rewrite S1. change (successful_reconnections sys1)
      with (successful_reconnections sys). lia.
Qed.

(** Every episode is accounted for and releases its flags. Whatever the
    callbacks do (return, fail, raise), a call of
    [start_persistent_reconnection] that returns, made while no reconnection
    is in progress, returns a boolean; it has counted one episode; it has
    counted one success exactly when it returns true; it has left the
    count of failed reconnections alone; and it leaves the controller idle
    again: not reconnecting, not in persistent mode, without a strategy. *)
Theorem episode_is_accounted_for (fuel : nat) sys e s' r :
  start_persistent_reconnection fuel (sys, e) = Some (s', r) ->
  is_reconnecting sys = false ->
  exists success : bool,
    r = Ret success /\
    total_reconnections (fst s') = (total_reconnections sys + 1)%Z /\
    successful_reconnections (fst s') =
      (successful_reconnections sys + (if success then 1 else 0))%Z /\
    failed_reconnections (fst s') = failed_reconnections sys /\
    is_reconnecting (fst s') = false /\
    is_persistent_mode (fst s') = false /\
    current_strategy (fst s') = None /\
    reconnect_callback (fst s') = reconnect_callback sys.
Proof.
  intros Hrun Hidle. unfold start_persistent_reconnection in Hrun.
  rewrite Hidle in Hrun.
  set (sys1 := with_stats _ _ _ _ _ _ _) in Hrun.
  set (ctx := determine_context sys1 (world e)) in Hrun.
  set (sys2 := with_episode _ _ _ _ _ sys1) in Hrun.
  assert (forall s3 : state World,
            fixed (fst s3) = fixed sys2 \/
            fixed (fst s3) =
              fixed (with_episode (attempt_count sys2) (persistent_cycle sys2)
                       (current_strategy sys2) (is_reconnecting sys2) true sys2) ->
            total_reconnections (fst (finally_reset s3)) =
              (total_reconnections sys + 1)%Z /\
            failed_reconnections (fst (finally_reset s3)) = failed_reconnections sys /\
            is_reconnecting (fst (finally_reset s3)) = false /\
            is_persistent_mode (fst (finally_reset s3)) = false /\
            current_strategy (fst (finally_reset s3)) = None /\
            reconnect_callback (fst (finally_reset s3)) = reconnect_callback sys)
    as Hfinal.
  { intros [sys3 e3] [F|F]; unfold fixed in F; cbn in F;
      injection F as _ _ Hcb Ht Hf _ _ _; cbn; auto 10. }
  destruct (_initial_reconnection_attempts fuel ctx (sys2, e))
    as [[[sys3 e3] r3]|] eqn:E1; [|discriminate].
  destruct (initial_accounting _ _ _ _ _ E1) as [F3 S3]; [reflexivity|].
  cbn [fst] in F3, S3.
  change (successful_reconnections sys2) with (successful_reconnections sys) in S3.
  destruct r3 as [[|]|ex].
  - injection Hrun as <- <-. exists true. split; [reflexivity|].
    destruct (Hfinal (sys3, e3)) as (A1 & A2 & A3 & A4 & A5 & A6); [left; exact F3|].
    cbn [gain] in S3. cbn [fst finally_reset with_episode successful_reconnections] in *.
    auto 10.
  - set (sys4 := with_episode _ _ _ _ true sys3) in Hrun.
    destruct (_persistent_reconnection_loop fuel ctx (sys4, e3))
      as [[[sys5 e5] r5]|] eqn:E2; [|discriminate].
    destruct (persistent_accounting _ _ _ _ _ E2) as [F5 S5]; [reflexivity|].
    cbn [fst] in F5, S5.
    change (successful_reconnections sys4) with (successful_reconnections sys3) in S5.
    assert (fixed sys5 =
              fixed (with_episode (attempt_count sys2) (persistent_cycle sys2)
                       (current_strategy sys2) (is_reconnecting sys2) true sys2)) as F.
    { rewrite F5. unfold fixed in *. cbn. injection F3 as -> -> -> -> -> -> _ ->.
      reflexivity. }
    destruct (Hfinal (sys5, e5)) as (A1 & A2 & A3 & A4 & A5 & A6); [right; exact F|].
    cbn [gain] in S3.
    destruct r5 as [success|ex]; injection Hrun as <- <-.
    + exists success. split; [reflexivity|].
      cbn [fst finally_reset with_episode successful_reconnections] in *.
      repeat split; try assumption.
      rewrite S5, S3. destruct success; cbn; lia.
    + exists false. split; [reflexivity|].
      cbn [fst finally_reset with_episode successful_reconnections] in *.
      repeat split; try assumption.
      rewrite S5, S3. cbn. lia.
  - injection Hrun as <- <-. exists false. split; [reflexivity|].
    destruct (Hfinal (sys3, e3)) as (A1 & A2 & A3 & A4 & A5 & A6); [left; exact F3|].
    cbn [gain] in S3. cbn [fst finally_reset with_episode successful_reconnections] in *.
    repeat split; try assumption; lia.
Qed.

End Episode.

Lemma reconnection_delays_back_off_witness :
  exists da db dlast,
    get_delay (new_strategy EMERGENCY_TICKS) 2 = Ret da /\
    get_delay (new_strategy EMERGENCY_TICKS) 9 = Ret db /\
    get_delay (new_strategy EMERGENCY_TICKS) 7 = Ret dlast /\
    0 < da /\ da <= db /\ db <= dlast /\ dlast <= 30 /\
    ((7 <= 2)%Z -> da = dlast) /\
    get_persistent_delay (new_strategy EMERGENCY_TICKS) 2 = Ret 10.
Proof.
  apply (reconnection_delays_back_off EMERGENCY_TICKS 2 9). lia.
Defined.

(** Where the episode of [succeeds_on_7th] ends. *)
Definition episode_end : state nat :=
  Eval vm_compute in
    match start_persistent_reconnection 7 (idle_system succeeds_on_7th, fresh_env) with
    | Some (s', _) => s'
    | None => (idle_system succeeds_on_7th, fresh_env)
    end.

Lemma episode_is_accounted_for_witness :
  start_persistent_reconnection 7 (idle_system succeeds_on_7th, fresh_env) =
    Some (episode_end, Ret true) /\
  is_reconnecting (idle_system succeeds_on_7th) = false /\
  exists success : bool,
    Ret true = Ret success /\
    total_reconnections (fst episode_end) =
      (total_reconnections (idle_system succeeds_on_7th) + 1)%Z /\
    successful_reconnections (fst episode_end) =
      (successful_reconnections (idle_system succeeds_on_7th) +
       (if success then 1 else 0))%Z /\
    failed_reconnections (fst episode_end) =
      failed_reconnections (idle_system succeeds_on_7th) /\
    is_reconnecting (fst episode_end) = false /\
    is_persistent_mode (fst episode_end) = false /\
    current_strategy (fst episode_end) = None /\
    reconnect_callback (fst episode_end) = reconnect_callback (idle_system succeeds_on_7th).
Proof.
  split; [vm_compute; reflexivity|]. split; [reflexivity|].
  apply (episode_is_accounted_for 7 (idle_system succeeds_on_7th) fresh_env
           episode_end (Ret true)).
  - vm_compute. reflexivity.
  - reflexivity.
Defined.

End ReconnectionSystem.

(** ** src/connection/websocket_manager.py *)

Module WebSocketManager.

(** An [asyncio.Future] of a request: pending, resolved with the response,
    or cancelled. The future is shared by the pending-request table and the
    coroutine that awaits it, so it lives in a store. *)
Inductive future : Type :=
| Pending
| Resolved (data : frame)
| Cancelled.

(** [future.done()] *)
Definition done (f : future) : bool :=
  match f with
  | Pending => false
  | Resolved _ | Cancelled => true
  end.

(** What the socket hands to [recv] within the poll interval. *)
Inductive recv_event : Type :=
| Message (data : option frame)   (* a text frame; [None]: it is not JSON *)
| RecvTimeout
| ConnectionClosed
| RecvError (e : exn).

Section Manager.

(** What the collaborators' callbacks act on. *)
Context {World : Type}.

Inductive log_entry : Type :=
| WarningNoConnection
| WarningSocketClosed
| WarningConnectionClosedInLoop
| ErrorInLoop (e : exn)
| ErrorProcessingMessage (e : exn)
| ErrorDisconnectionCallback (e : exn)
| ErrorSendingPong
| DebugNotJson.

(** The fields of the manager the request path and the pump use (latency
    statistics and wall-clock stamps are left out). [websocket] holds the
    [closed] flag of the socket; [futures] is the store of the futures
    created so far, a future being named by its index; [sent] is what was
    written to the socket. *)
Record t : Type := mk {
  is_connected : bool;
  is_authorized : bool;
  websocket : option bool;
  pending_requests : gmap Z nat;
  futures : list future;
  message_loop_running : bool;
  message_callback : option (frame -> World -> World * option exn);
  disconnection_callback : option (World -> World * option exn);
  total_messages_sent : Z;
  total_messages_received : Z;
  sent : list frame;
  log : list log_entry
}.

(** [__init__] *)
Definition init : t := {|
  is_connected := false; is_authorized := false; websocket := None;
  pending_requests := ∅; futures := []; message_loop_running := false;
  message_callback := None; disconnection_callback := None;
  total_messages_sent := 0; total_messages_received := 0;
  sent := []; log := [] |}.

(** The connection fields. *)
Definition with_connection (connected authorized : bool) (socket : option bool)
    (loop_running : bool) (m : t) : t :=
  {| is_connected := connected; is_authorized := authorized; websocket := socket;
     pending_requests := pending_requests m; futures := futures m;
     message_loop_running := loop_running;
     message_callback := message_callback m;
     disconnection_callback := disconnection_callback m;
     total_messages_sent := total_messages_sent m;
     total_messages_received := total_messages_received m;
     sent := sent m; log := log m |}.

(** The table and the store. *)
Definition with_requests (pending : gmap Z nat) (store : list future) (m : t) : t :=
  {| is_connected := is_connected m; is_authorized := is_authorized m;
     websocket := websocket m;
     pending_requests := pending; futures := store;
     message_loop_running := message_loop_running m;
     message_callback := message_callback m;
     disconnection_callback := disconnection_callback m;
     total_messages_sent := total_messages_sent m;
     total_messages_received := total_messages_received m;
     sent := sent m; log := log m |}.

(** The traffic counters, what was sent, and the log. *)
Definition with_traffic (n_sent n_received : Z) (out : list frame)
    (l : list log_entry) (m : t) : t :=
  {| is_connected := is_connected m; is_authorized := is_authorized m;
     websocket := websocket m;
     pending_requests := pending_requests m; futures := futures m;
     message_loop_running := message_loop_running m;
     message_callback := message_callback m;
     disconnection_callback := disconnection_callback m;
     total_messages_sent := n_sent;
     total_messages_received := n_received;
     sent := out; log := l |}.

Definition with_callbacks (on_message : option (frame -> World -> World * option exn))
    (on_disconnection : option (World -> World * option exn)) (m : t) : t :=
  {| is_connected := is_connected m; is_authorized := is_authorized m;
     websocket := websocket m;
     pending_requests := pending_requests m; futures := futures m;
     message_loop_running := message_loop_running m;
     message_callback := on_message;
     disconnection_callback := on_disconnection;
     total_messages_sent := total_messages_sent m;
     total_messages_received := total_messages_received m;
     sent := sent m; log := log m |}.

Definition state : Type := t * World.

Definition logger (e : log_entry) : Py state unit :=
  modify (fun '(m, w) =>
    (with_traffic (total_messages_sent m) (total_messages_received m) (sent m)
       (log m ++ [e]) m, w)).

(** [connect], when [websockets.connect] succeeds: a fresh open socket and a
    running pump. *)
Definition connected (m : t) : t := with_connection true (is_authorized m) (Some false) true m.

(** [future.cancel()] when [not future.done()], on the future at [loc]. *)
Definition cancel_if_pending (loc : nat) (store : list future) : list future :=
  match store !! loc with
  | Some f => if done f then store else <[loc := Cancelled]> store
  | None => store
  end.

(** [for future in self.pending_requests.values(): ...] *)
Definition cancel_all (pending : gmap Z nat) (store : list future) : list future :=
  foldr cancel_if_pending store (map_to_list pending).*2.

(** [disconnect]: the pump task is cancelled first; its [finally] finds
    [is_connected] already false and does nothing. *)
Definition disconnect (m : t) : t :=
  let m := with_connection false false (websocket m) false m in
  let m := with_requests ∅ (cancel_all (pending_requests m) (futures m)) m in
  with_connection (is_connected m) (is_authorized m) None
    (message_loop_running m) m.

(** The id [send_request] assigns when the clock reads [now_us]
    microseconds: [int(time.time() * 1000000) + len(self.pending_requests)]. *)
Definition req_id_at (now_us : Z) (m : t) : Z :=
  now_us + Z.of_nat (size (pending_requests m)).

(** [send_request], up to the [await] of the response: the guards, the id,
    the registration of a fresh future, the write. It returns the id and the
    location of the future, or [None] when a guard returned. *)
Definition send_request_begin (now_us : Z) (request : frame)
  : Py state (option (Z * nat)) :=
  fun '(m, w) =>
    match is_connected m, websocket m with
    | true, Some closed =>
        if closed then
          ((with_connection false (is_authorized m) (websocket m)
              (message_loop_running m)
              (with_traffic (total_messages_sent m) (total_messages_received m)
                 (sent m) (log m ++ [WarningSocketClosed]) m), w), Ret None)
        else
          let req_id := req_id_at now_us m in
          let request := <["req_id" := JNum (inject_Z req_id)]> request in
          let loc := length (futures m) in
          ((with_traffic (total_messages_sent m + 1) (total_messages_received m)
              (sent m ++ [request]) (log m)
              (with_requests (<[req_id := loc]> (pending_requests m))
                 (futures m ++ [Pending]) m), w), Ret (Some (req_id, loc)))
    | _, _ =>
        ((with_traffic (total_messages_sent m) (total_messages_received m)
            (sent m) (log m ++ [WarningNoConnection]) m, w), Ret None)
    end.

(** The [finally] of [send_request]: [self.pending_requests.pop(req_id, None)],
    run when the wait ends (response, timeout or cancellation). *)
Definition send_request_finally (req_id : Z) : Py state unit :=
  modify (fun '(m, w) =>
    (with_requests (delete req_id (pending_requests m)) (futures m) m, w)).

(** The key a JSON value is in the pending table, whose keys are [int]. *)
Definition table_key (v : json) : result (option Z) :=
  match v with
  | JNum q => Ret (if Qeq_bool q (inject_Z (Qfloor q)) then Some (Qfloor q) else None)
  | JBool b => Ret (Some (if b then 1 else 0))
  | JNull | JStr _ => Ret None
  | JArr _ | JObj _ => Raise TypeError
  end.

(** [_handle_ping]: answer with a pong; a failed write is logged. *)
Definition _handle_ping (m : t) : t :=
  match websocket m with
  | Some false =>
      with_traffic (total_messages_sent m) (total_messages_received m)
        (sent m ++ [{[ "pong" := JNum 1 ]}]) (log m) m
  | _ =>
      with_traffic (total_messages_sent m) (total_messages_received m)
        (sent m) (log m ++ [ErrorSendingPong]) m
  end.

(** The body of the [try] of [process_message], for a decoded frame. *)
Definition process_body (data : frame) : Py state unit :=
  fun '(m, w) =>
    let forward : Py state unit := fun '(m, w) =>
      let m :=
        match data !! "msg_type" with
        | Some (JStr "ping") => _handle_ping m
        | _ => m
        end in
      match message_callback m with
      | Some on_message =>
          match on_message data w with
          | (w', None) => ((m, w'), Ret tt)
          | (w', Some e) => ((m, w'), Raise e)
          end
      | None => ((m, w), Ret tt)
      end in
    match data !! "req_id" with
    | Some v =>
        match table_key v with
        | Raise e => ((m, w), Raise e)
        | Ret key =>
            match key ≫= (fun k => (fun loc => (k, loc)) <$> pending_requests m !! k) with
            | Some (k, loc) =>
                let store :=
                  match futures m !! loc with
                  | Some f => if done f then futures m
                              else <[loc := Resolved data]> (futures m)
                  | None => futures m
                  end in
                ((with_requests (delete k (pending_requests m)) store m, w), Ret tt)
            | None => forward (m, w)
            end
        end
    | None => forward (m, w)
    end.

(** [process_message] *)
Definition process_message (message : option frame) : Py state unit :=
  (modify (fun '(m, w) =>
     (with_traffic (total_messages_sent m) (total_messages_received m + 1)
        (sent m) (log m) m, w)) ;;;
   match message with
   | None => logger DebugNotJson
   | Some data =>
       try_except (process_body data) (fun e => logger (ErrorProcessingMessage e))
   end)%py.

(** The [finally] of [_message_loop]. *)
Definition message_loop_finally : Py state unit :=
  fun '(m, w) =>
    let m := with_connection (is_connected m) (is_authorized m) (websocket m) false m in
    if is_connected m then
      let m := with_connection false false (websocket m) false m in
      match disconnection_callback m with
      | Some on_disconnection =>
          match on_disconnection w with
          | (w', None) => ((m, w'), Ret tt)
          | (w', Some e) =>
              ((with_traffic (total_messages_sent m) (total_messages_received m)
                  (sent m) (log m ++ [ErrorDisconnectionCallback e]) m, w'), Ret tt)
          end
      | None => ((m, w), Ret tt)
      end
    else ((m, w), Ret tt).

(** [while self.is_connected and self.websocket and not self.websocket.closed] *)
Definition loop_condition (m : t) : bool :=
  is_connected m && match websocket m with Some closed => negb closed | None => false end.

(** [_message_loop] on what the socket delivers. The result tells whether
    the loop has ended (and run its [finally]) or still waits on [recv]. *)
Fixpoint _message_loop (events : list recv_event) (s : state) : state * bool :=
  if loop_condition (fst s) then
    match events with
    | [] => (s, false)
    | Message message :: rest =>
        let s1 := fst (modify (fun '(m, w) =>
                    (with_traffic (total_messages_sent m)
                       (total_messages_received m + 1) (sent m) (log m) m, w)) s) in
        _message_loop rest (fst (process_message message s1))
    | RecvTimeout :: rest => _message_loop rest s
    | ConnectionClosed :: rest =>
        (fst ((logger WarningConnectionClosedInLoop ;;; message_loop_finally)%py s), true)
    | RecvError e :: rest => _message_loop rest (fst (logger (ErrorInLoop e) s))
    end
  else (fst (message_loop_finally s), true).

(** *** Traces of the request path *)

(** What happens on a connection, in order: a call of [send_request] when
    the clock reads [now_us]; a frame read by the pump; the end of the wait
    of the request [req_id] (its [finally]). *)
Inductive event : Type :=
| Send (now_us : Z) (request : frame)
| Deliver (message : option frame)
| Finish (req_id : Z).

(** The state after the events, and the ids assigned, in order. *)
Fixpoint run (events : list event) (s : state) : state * list Z :=
  match events with
  | [] => (s, [])
  | Send now_us request :: rest =>
      match send_request_begin now_us request s with
      | (s', Ret (Some (req_id, _))) =>
          let '(s'', ids) := run rest s' in (s'', req_id :: ids)
      | (s', _) => run rest s'
      end
  | Deliver message :: rest => run rest (fst (process_message message s))
  | Finish req_id :: rest => run rest (fst (send_request_finally req_id s))
  end.

(** Calls of [send_request] only, at the given clock readings. *)
Definition sends (calls : list (Z * frame)) : list event :=
  map (fun '(now_us, request) => Send now_us request) calls.

End Manager.

Arguments t World : clear implicits.
Arguments state World : clear implicits.

Section Properties.

Context {World : Type}.

Implicit Types (m : t World) (w : World).

(** A call of [send_request] on an open connection registers the id
    [req_id_at] gives. *)
Lemma send_request_begin_open m w now_us request :
  is_connected m = true -> websocket m = Some false ->
  exists m',
    send_request_begin now_us request (m, w) =
      ((m', w), Ret (Some (req_id_at now_us m, length (futures m)))) /\
    is_connected m' = true /\ websocket m' = Some false /\
    pending_requests m' =
      <[req_id_at now_us m := length (futures m)]> (pending_requests m) /\
    futures m' = futures m ++ [Pending].
Proof.
  intros Hc Hs. unfold send_request_begin. rewrite Hc, Hs.
  eexists. split; [reflexivity|]. cbn. auto.
Qed.

(** Strictly increasing ids out of non-decreasing clock readings, when the
    table grows by one at each call. *)
Lemma ids_strictly_sorted (clocks : list Z) : forall (n : Z),
  StronglySorted Z.le clocks ->
  StronglySorted Z.lt (imap (fun i now_us => now_us + n + Z.of_nat i) clocks).
Proof.
  induction clocks as [|c rest IH]; intros n Hs; [constructor|].
  inversion_clear Hs as [|? ? Hrest Hall].
  rewrite imap_cons. constructor.
  - rewrite (imap_ext _ (fun i now_us => now_us + (n + 1) + Z.of_nat i));
      [apply IH; assumption|].
    intros i x _. cbn. lia.
  - apply Forall_forall. intros id Hin.
    apply list_elem_of_In, elem_of_lookup_imap in Hin as (i & x & -> & Hx).
    rewrite Forall_forall in Hall.
    assert (c <= x) by (apply Hall, list_elem_of_In; eapply list_elem_of_lookup_2; eauto).
    cbn. lia.
Qed.

Lemma run_sends_ids (calls : list (Z * frame)) : forall m w (lo : Z),
  is_connected m = true -> websocket m = Some false ->
  (forall k, is_Some (pending_requests m !! k) ->
             k < lo + Z.of_nat (size (pending_requests m))) ->
  Forall (Z.le lo) calls.*1 ->
  StronglySorted Z.le calls.*1 ->
  snd (run (sends calls) (m, w)) =
    imap (fun i now_us => now_us + Z.of_nat (size (pending_requests m)) + Z.of_nat i)
      calls.*1.
Proof.
  induction calls as [|[now_us request] rest IH]; intros m w lo Hc Hs Hkeys Hlo Hsorted;
    [reflexivity|].
  cbn [sends map run fmap list_fmap fst].
  destruct (send_request_begin_open m w now_us request Hc Hs)
    as (m' & -> & Hc' & Hs' & Hp' & _).
  cbn [fmap list_fmap fst] in Hlo, Hsorted.
  inversion_clear Hlo as [|? ? Hlo0 _].
  inversion_clear Hsorted as [|? ? Hsorted' Hall].
  assert (pending_requests m !! req_id_at now_us m = None) as Hfresh.
  { destruct (pending_requests m !! req_id_at now_us m) eqn:E; [|reflexivity].
    specialize (Hkeys (req_id_at now_us m) (mk_is_Some _ _ E)).
    unfold req_id_at in Hkeys. lia. }
  assert (size (pending_requests m') = S (size (pending_requests m))) as Hsize
    by (rewrite Hp'; apply map_size_insert_None; exact Hfresh).
  specialize (IH m' w now_us Hc' Hs').
  fold (sends rest).
  destruct (run (sends rest) (m', w)) as [s'' ids] eqn:Erun.
  cbn [snd] in *. rewrite imap_cons. f_equal; [unfold req_id_at; lia|].
  rewrite IH; try assumption.
  - apply imap_ext. intros i x _. cbn. rewrite Hsize. lia.
  - intros k Hk. rewrite Hp' in Hk. rewrite Hsize.
    destruct (decide (k = req_id_at now_us m)) as [->|Hne].
    + unfold req_id_at. lia.
    + rewrite lookup_insert_ne in Hk by congruence.
      specialize (Hkeys k Hk). lia.
Qed.


Lemma cancel_if_pending_done loc (store : list future) f :
  cancel_if_pending loc store !! loc = Some f -> done f = true.
Proof.
  unfold cancel_if_pending. destruct (store !! loc) as [f0|] eqn:E.
  - destruct (done f0) eqn:D.
    + intros H. congruence.
    + rewrite list_lookup_insert_eq by (eapply lookup_lt_Some; eauto).
      intros [= <-]. reflexivity.
  - intros H. congruence.
Qed.

Lemma cancel_if_pending_keeps_done loc loc' (store : list future) :
  (forall f, store !! loc' = Some f -> done f = true) ->
  forall f, cancel_if_pending loc store !! loc' = Some f -> done f = true.
Proof.
  intros Hdone f. destruct (decide (loc = loc')) as [->|Hne].
  - apply cancel_if_pending_done.
  - unfold cancel_if_pending. destruct (store !! loc) as [f0|]; [|apply Hdone].
    destruct (done f0); [apply Hdone|].
    rewrite list_lookup_insert_ne by exact Hne. apply Hdone.
Qed.

Lemma cancel_each_done (locs : list nat) (store : list future) loc :
  loc ∈ locs ->
  forall f, foldr cancel_if_pending store locs !! loc = Some f -> done f = true.
Proof.
  induction locs as [|l rest IH]; intros Hin; [set_solver|].
  cbn [foldr]. destruct (decide (loc = l)) as [->|Hne].
  - apply cancel_if_pending_done.
  - apply cancel_if_pending_keeps_done, IH.
    apply elem_of_cons in Hin as [?|?]; [congruence | assumption].
Qed.

(** The explicit close: [disconnect] leaves the table empty, and every
    future that was in it is done (cancelled, if it was still pending). *)
Lemma disconnect_resolves_all m req_id loc :
  pending_requests m !! req_id = Some loc ->
  is_connected (disconnect m) = false /\
  pending_requests (disconnect m) = ∅ /\
  (forall f, futures (disconnect m) !! loc = Some f -> done f = true).
Proof.
  intros Hreq. unfold disconnect. cbn. repeat split.
  apply cancel_each_done.
  apply list_elem_of_fmap. exists (req_id, loc). split; [reflexivity|].
  by apply elem_of_map_to_list.
Qed.

End Properties.

(** *** Concrete runs on a fresh connection, with no callbacks set *)

Definition fresh_connection : state unit := (connected init, tt).

Definition response_to (req_id : Z) : option frame :=
  Some {[ "req_id" := JNum (inject_Z req_id) ]}.



(** C3 on the code: the state with one request pending, then the socket
    closes under the pump. The pump ends and marks the manager disconnected,
    but the request stays in the table with its future pending; the explicit
    [disconnect] on the same state empties the table and cancels the future. *)
Theorem pump_close_leaves_request_pending :
  let s0 := fst (run [Send 1000 ∅] fresh_connection) in
  let '((m, _), ended) := _message_loop [ConnectionClosed] s0 in
  pending_requests (fst s0) = {[ 1000 := 0%nat ]} /\
  futures (fst s0) !! 0%nat = Some Pending /\
  ended = true /\
  is_connected m = false /\
  pending_requests m = {[ 1000 := 0%nat ]} /\
  futures m !! 0%nat = Some Pending /\
  pending_requests (disconnect (fst s0)) = ∅ /\
  futures (disconnect (fst s0)) !! 0%nat = Some Cancelled.
Proof. vm_compute. repeat split. Qed.

(** *** Responses, the pump and the explicit close *)

Section Requests.

Context {World : Type}.

Implicit Types (m : t World) (w : World) (data : frame) (s : state World).

Lemma table_key_id (k : Z) : table_key (JNum (inject_Z k)) = Ret (Some k).
Proof.
  unfold table_key. rewrite Qfloor_Z.
  by rewrite (proj2 (Qeq_bool_iff _ _) (Qeq_refl _)).
Qed.

(** The fields [process_message] has no write to. *)
Definition connection m :=
  (is_connected m, is_authorized m, websocket m, message_loop_running m,
   message_callback m, disconnection_callback m, total_messages_sent m).

Lemma handle_ping_fields m :
  connection (_handle_ping m) = connection m /\
  pending_requests (_handle_ping m) = pending_requests m /\
  futures (_handle_ping m) = futures m /\
  total_messages_received (_handle_ping m) = total_messages_received m.
Proof. unfold _handle_ping. by destruct (websocket m) as [[|]|]. Qed.

Lemma process_message_cases message m w :
  exists m' w',
    process_message message (m, w) = ((m', w'), Ret tt) /\
    connection m' = connection m /\
    total_messages_received m' = total_messages_received m + 1 /\
    (pending_requests m' = pending_requests m /\ futures m' = futures m \/
     exists data v k loc,
       message = Some data /\ data !! "req_id" = Some v /\
       table_key v = Ret (Some k) /\ pending_requests m !! k = Some loc /\
       pending_requests m' = delete k (pending_requests m) /\
       futures m' =
         match futures m !! loc with
         | Some Pending => <[loc := Resolved data]> (futures m)
         | _ => futures m
         end /\
       w' = w).
Proof.
  unfold process_message, bind, modify.
  destruct message as [data|]; [|eexists _, _; split; [reflexivity|]; cbn; auto].
  set (m0 := with_traffic _ _ _ _ m).
  assert (connection m0 = connection m /\ pending_requests m0 = pending_requests m /\
          futures m0 = futures m /\
          total_messages_received m0 = total_messages_received m + 1)
    as (C0 & P0 & F0 & R0) by done.
  assert (forward_fields : forall m1 : t World,
            m1 = m0 \/ m1 = _handle_ping m0 ->
            connection m1 = connection m /\
            total_messages_received m1 = total_messages_received m + 1 /\
            pending_requests m1 = pending_requests m /\ futures m1 = futures m).
  { intros m1 [->| ->]; [done|].
    destruct (handle_ping_fields m0) as (-> & -> & -> & ->). done. }
  unfold try_except, process_body.
  assert (exists m' w',
            (let (s', r) :=
               match message_callback
                       match data !! "msg_type" with
                       | Some (JStr "ping") => _handle_ping m0
                       | _ => m0
                       end
               with
               | Some on_message =>
                   let (w', o) := on_message data w in
                   match o with
                   | Some e =>
                       (match data !! "msg_type" with
                        | Some (JStr "ping") => _handle_ping m0
                        | _ => m0
                        end, w', Raise e)
                   | None =>
                       (match data !! "msg_type" with
                        | Some (JStr "ping") => _handle_ping m0
                        | _ => m0
                        end, w', Ret tt)
                   end
               | None =>
                   (match data !! "msg_type" with
                    | Some (JStr "ping") => _handle_ping m0
                    | _ => m0
                    end, w, Ret tt)
               end in
             match r with
             | Ret a => (s', Ret a)
             | Raise e => logger (ErrorProcessingMessage e) s'
             end) = ((m', w'), Ret tt) /\
            connection m' = connection m /\
            total_messages_received m' = total_messages_received m + 1 /\
            pending_requests m' = pending_requests m /\ futures m' = futures m)
    as Hforward.
  { match goal with |- context [message_callback ?x] => set (m1 := x) end.
    assert (m1 = m0 \/ m1 = _handle_ping m0) as Hm1
      by (subst m1; repeat case_match; auto).
    destruct (forward_fields m1 Hm1) as (C1 & R1 & P1 & F1). clearbody m1.
    destruct (message_callback m1) as [on_message|];
      [destruct (on_message data w) as [w' [e|]]|];
      eexists _, _; (split; [reflexivity|]); cbn; auto. }
  destruct (data !! "req_id") as [v|] eqn:Ev;
    [|destruct Hforward as (m' & w' & E & C & R & P & F); exists m', w'; auto 10].
  destruct (table_key v) as [[k|]|e] eqn:Ek.
  - cbn [mbind option_bind]. change (pending_requests m0) with (pending_requests m).
    destruct (pending_requests m !! k) as [loc|] eqn:El; cbn [fmap option_fmap option_map].
    + eexists _, _. split; [reflexivity|]. split; [done|]. split; [done|].
      right. exists data, v, k, loc. repeat split; try done.
      cbn. change (futures m0) with (futures m).
      by destruct (futures m !! loc) as [[| |]|].
    + destruct Hforward as (m' & w' & E & C & R & P & F); exists m', w'; auto 10.
  - cbn [mbind option_bind].
    destruct Hforward as (m' & w' & E & C & R & P & F); exists m', w'; auto 10.
  - eexists _, _. split; [reflexivity|]. cbn. auto.
Qed.

(** [process_message] is contained. Whatever the frame (JSON or not) and
    whatever the message callback does, it returns normally and counts the
    frame once; it leaves the connection flags and the socket alone; it adds
    no pending request; and a future that is done keeps what it holds. *)
Theorem process_message_contained message m w :
  exists m' w',
    process_message message (m, w) = ((m', w'), Ret tt) /\
    total_messages_received m' = total_messages_received m + 1 /\
    is_connected m' = is_connected m /\ websocket m' = websocket m /\
    pending_requests m' ⊆ pending_requests m /\
    length (futures m') = length (futures m) /\
    (forall loc f, futures m !! loc = Some f -> done f = true ->
                   futures m' !! loc = Some f).
Proof.
  destruct (process_message_cases message m w) as (m' & w' & E & C & R & Hreq).
  exists m', w'. split; [exact E|]. split; [exact R|].
  unfold connection in C. injection C as Hc _ Hs _ _ _ _.
  split; [exact Hc|]. split; [exact Hs|].
  destruct Hreq as [[-> ->]|(data & v & k & loc & _ & _ & _ & Hk & -> & -> & _)];
    [done|].
  split; [apply delete_subseteq|].
  destruct (futures m !! loc) as [[| |]|] eqn:El; try done.
  split; [apply length_insert|].
  intros loc' f Hf Hdone. destruct (decide (loc = loc')) as [<-|Hne].
  - rewrite El in Hf. injection Hf as <-. discriminate.
  - by rewrite list_lookup_insert_ne.
Qed.

(** The round trip of a request. On an open connection a request is sent,
    the frame carrying its id arrives, and the wait ends: the future created
    for the request holds that frame, the frame was not handed to the message
    callback (the world is untouched), and the request is out of the table. *)
Theorem response_resolves_request m w now_us request data :
  is_connected m = true -> websocket m = Some false ->
  data !! "req_id" = Some (JNum (inject_Z (req_id_at now_us m))) ->
  exists m',
    run [Send now_us request; Deliver (Some data); Finish (req_id_at now_us m)] (m, w) =
      ((m', w), [req_id_at now_us m]) /\
    futures m' = futures m ++ [Resolved data] /\
    pending_requests m' = delete (req_id_at now_us m) (pending_requests m) /\
    sent m' = sent m ++ [<["req_id" := JNum (inject_Z (req_id_at now_us m))]> request] /\
    total_messages_sent m' = total_messages_sent m + 1 /\
    total_messages_received m' = total_messages_received m + 1.
Proof.
  intros Hc Hs Hid. set (id := req_id_at now_us m) in *.
  cbn [run]. unfold send_request_begin. rewrite Hc, Hs. fold id.
  unfold process_message, bind, modify, try_except, process_body.
  cbn [fst snd pending_requests futures with_traffic with_requests].
  rewrite Hid, table_key_id. cbn [mbind option_bind].
  rewrite lookup_insert_eq. cbn [fmap option_fmap option_map].
  rewrite lookup_app_r by lia. rewrite Nat.sub_diag. cbn [lookup list_lookup done].
  unfold send_request_finally, modify. cbn [fst snd].
  eexists. split; [reflexivity|].
  cbn [pending_requests futures sent total_messages_sent total_messages_received
       with_traffic with_requests].
  rewrite insert_app_r_alt by lia. rewrite Nat.sub_diag.
  rewrite delete_delete_eq, delete_insert_eq. done.
Qed.

(** What is settled stays settled. Along any sends, frames and ends of
    waits, a future that is done (resolved or cancelled) keeps what it
    holds: a later frame with the same id does not replace a response, and a
    cancelled request is not resolved afterwards. *)
Theorem settled_futures_are_final (events : list event) m w loc f :
  futures m !! loc = Some f -> done f = true ->
  futures (fst (fst (run events (m, w)))) !! loc = Some f.
Proof.
  revert m w. induction events as [|ev rest IH]; intros m w Hf Hdone; [exact Hf|].
  destruct ev as [now_us request|message|req_id]; cbn [run].
  - unfold send_request_begin.
    destruct (is_connected m), (websocket m) as [[|]|];
      try (apply IH; [exact Hf | exact Hdone]).
    destruct (run rest _) as [s'' ids] eqn:E. cbn [fst].
    change s'' with (fst (s'', ids)). rewrite <- E.
    apply IH; [|exact Hdone]. cbn. by apply lookup_app_l_Some.
  - destruct (process_message_cases message m w) as (m' & w' & -> & _ & _ & Hreq).
    cbn [fst]. apply IH; [|exact Hdone].
    destruct Hreq as [[_ ->]|(data & v & k & l & _ & _ & _ & _ & _ & -> & _)];
      [exact Hf|].
    destruct (futures m !! l) as [[| |]|] eqn:El; try exact Hf.
    destruct (decide (l = loc)) as [->|Hne]; [|by rewrite list_lookup_insert_ne].
    rewrite El in Hf. injection Hf as <-. discriminate.
  - apply IH; [exact Hf | exact Hdone].
Qed.

(** What the pump reads. *)
Definition is_close (ev : recv_event) : bool :=
  match ev with ConnectionClosed => true | _ => false end.

Definition is_frame (ev : recv_event) : bool :=
  match ev with Message _ => true | _ => false end.

(** The events up to the close of the socket. *)
Fixpoint until_close (events : list recv_event) : list recv_event :=
  match events with
  | [] => []
  | ev :: rest => if is_close ev then [] else ev :: until_close rest
  end.

Lemma message_loop_finally_cases m w :
  exists m' w',
    message_loop_finally (m, w) = ((m', w'), Ret tt) /\
    is_connected m' = false /\
    pending_requests m' = pending_requests m /\ futures m' = futures m /\
    total_messages_received m' = total_messages_received m /\
    w' = if is_connected m
         then match disconnection_callback m with
              | Some on_disconnection => fst (on_disconnection w)
              | None => w
              end
         else w.
Proof.
  unfold message_loop_finally. cbn [is_connected with_connection].
  destruct (is_connected m) eqn:Hc; [|eexists _, _; split; [reflexivity|]; by cbn].
  cbn [disconnection_callback with_connection].
  destruct (disconnection_callback m) as [on_disconnection|];
    [destruct (on_disconnection w) as [w' [e|]]|];
    eexists _, _; (split; [reflexivity|]); by cbn.
Qed.

(** The pump counts every frame twice. On an open connection the pump ends
    exactly when the socket reports the close, disconnected; until then it
    keeps reading, and every frame it reads adds 2 to
    [total_messages_received] (once in the loop, once in
    [process_message]). It adds no pending request. *)
Theorem pump_counts_each_frame_twice (events : list recv_event) m w :
  loop_condition m = true ->
  exists m' w',
    _message_loop events (m, w) = ((m', w'), existsb is_close events) /\
    total_messages_received m' =
      total_messages_received m +
      2 * Z.of_nat (length (List.filter is_frame (until_close events))) /\
    is_connected m' = negb (existsb is_close events) /\
    pending_requests m' ⊆ pending_requests m.
Proof.
  revert m w. induction events as [|ev rest IH]; intros m w Hopen.
  - cbn [_message_loop fst]. rewrite Hopen. exists m, w. cbn.
    unfold loop_condition in Hopen. apply andb_true_iff in Hopen as [-> _].
    repeat split; [lia | done].
  - cbn [_message_loop fst]. rewrite Hopen.
    destruct ev as [message| | |e];
      cbn [existsb is_close until_close orb List.filter is_frame length].
    + unfold modify at 1. cbn [fst].
      set (m0 := with_traffic _ _ _ _ m).
      destruct (process_message_cases message m0 w) as (m1 & w1 & -> & C1 & R1 & Hreq).
      cbn [fst].
      assert (loop_condition m1 = true) as Hopen1.
      { unfold connection in C1. injection C1 as Hc _ Hs _ _ _ _.
        unfold loop_condition. rewrite Hc, Hs. exact Hopen. }
      destruct (IH m1 w1 Hopen1) as (m' & w' & -> & R & Hc & Hsub).
      exists m', w'. split; [reflexivity|]. split; [|split; [exact Hc|]].
      * rewrite R, R1. cbn [total_messages_received with_traffic m0]. lia.
      * etrans; [exact Hsub|].
        destruct Hreq as [[-> _]|(_ & _ & k & _ & _ & _ & _ & _ & -> & _)];
          [done | apply delete_subseteq].
    + apply IH, Hopen.
    + unfold bind, logger, modify. cbn [fst].
      set (m0 := with_traffic _ _ _ _ m).
      destruct (message_loop_finally_cases m0 w) as (m' & w' & -> & Hc & P & _ & R & _).
      exists m', w'. cbn [fst]. split; [reflexivity|]. rewrite R, P, Hc.
      cbn. split; [lia|done].
    + unfold logger, modify. cbn [fst].
      set (m0 := with_traffic _ _ _ _ m).
      destruct (IH m0 w) as (m' & w' & -> & R & Hc & Hsub); [exact Hopen|].
      exists m', w'. split; [reflexivity|]. auto.
Qed.

(** A frame that answers no request of the table [m] holds. *)
Definition answers_none m (ev : recv_event) : Prop :=
  match ev with
  | Message (Some data) =>
      forall v k, data !! "req_id" = Some v -> table_key v = Ret (Some k) ->
                  pending_requests m !! k = None
  | _ => True
  end.

(** The pump settles nothing by itself. When none of the frames read
    answers a request of the table, the pump leaves the table and every
    future as they were, also when it ends (because the socket closed, or
    because the connection was found closed): the requests are still in the
    table, their futures still pending, and the manager is disconnected. *)
Theorem pump_keeps_unanswered_requests (events : list recv_event) m w :
  Forall (answers_none m) events ->
  exists m' w' ended,
    _message_loop events (m, w) = ((m', w'), ended) /\
    pending_requests m' = pending_requests m /\
    futures m' = futures m /\
    (ended = true -> is_connected m' = false).
Proof.
  revert m w. induction events as [|ev rest IH]; intros m w Hnone.
  - cbn [_message_loop fst]. destruct (loop_condition m).
    + exists m, w, false. repeat split. discriminate.
    + destruct (message_loop_finally_cases m w) as (m' & w' & -> & Hc & P & F & _).
      exists m', w', true. auto.
  - cbn [_message_loop fst]. inversion_clear Hnone as [|? ? Hev Hrest].
    destruct (loop_condition m);
      [|destruct (message_loop_finally_cases m w) as (m' & w' & -> & Hc & P & F & _);
        exists m', w', true; auto].
    destruct ev as [message| | |e].
    + unfold modify at 1. cbn [fst].
      set (m0 := with_traffic _ _ _ _ m).
      destruct (process_message_cases message m0 w) as (m1 & w1 & -> & _ & _ & Hreq).
      cbn [fst].
      assert (pending_requests m1 = pending_requests m /\ futures m1 = futures m)
        as [P1 F1].
      { destruct Hreq as [[-> ->]|(data & v & k & loc & -> & Hv & Hk & Hloc & _)];
          [done|].
        change (pending_requests m0) with (pending_requests m) in Hloc.
        cbn in Hev. rewrite (Hev v k Hv Hk) in Hloc. discriminate. }
      destruct (IH m1 w1) as (m' & w' & ended & -> & P & F & Hc).
      { eapply Forall_impl; [|exact Hrest].
        intros [[data|]| | |]; cbn; try done. by rewrite P1. }
      exists m', w', ended. rewrite P, F. auto.
    + apply IH, Hrest.
    + unfold bind, logger, modify. cbn [fst].
      set (m0 := with_traffic _ _ _ _ m).
      destruct (message_loop_finally_cases m0 w) as (m' & w' & -> & Hc & P & F & _).
      exists m', w', true. auto.
    + unfold logger, modify. cbn [fst].
      set (m0 := with_traffic _ _ _ _ m).
      destruct (IH m0 w) as (m' & w' & ended & -> & P & F & Hc); [exact Hrest|].
      exists m', w', ended. auto.
Qed.

Lemma cancel_all_lookup (locs : list nat) (store : list future) loc :
  foldr cancel_if_pending store locs !! loc =
    match store !! loc with
    | Some Pending => Some (if bool_decide (loc ∈ locs) then Cancelled else Pending)
    | other => other
    end.
Proof.
  induction locs as [|l rest IH]; cbn [foldr].
  - rewrite bool_decide_eq_false_2 by (rewrite elem_of_nil; tauto).
    by destruct (store !! loc) as [[| |]|].
  - set (store' := foldr cancel_if_pending store rest) in *.
    unfold cancel_if_pending.
    destruct (decide (loc = l)) as [->|Hne].
    + rewrite bool_decide_eq_true_2 by (rewrite elem_of_cons; by left).
      rewrite IH. destruct (store !! l) as [[| |]|] eqn:El; cbn [done]; try exact IH.
      case_bool_decide; cbn [done]; [exact IH|].
      rewrite list_lookup_insert_eq; [done|].
      apply lookup_lt_is_Some. rewrite IH. eauto.
    + assert (bool_decide (loc ∈ l :: rest) = bool_decide (loc ∈ rest)) as ->
        by (apply bool_decide_ext; rewrite elem_of_cons; tauto).
      destruct (store' !! l) as [f|]; [|exact IH].
      destruct (done f); [exact IH|].
      rewrite list_lookup_insert_ne by done. exact IH.
Qed.

(** The explicit close. [disconnect] leaves the manager disconnected,
    unauthorized, without socket and with an empty table; it cancels the
    futures of the table that were pending and changes no other future; and
    a request made afterwards is refused without being sent. *)
Theorem disconnect_cancels_what_is_pending m :
  is_connected (disconnect m) = false /\ is_authorized (disconnect m) = false /\
  websocket (disconnect m) = None /\ pending_requests (disconnect m) = ∅ /\
  (forall req_id loc,
     pending_requests m !! req_id = Some loc -> futures m !! loc = Some Pending ->
     futures (disconnect m) !! loc = Some Cancelled) /\
  (forall loc f,
     futures m !! loc = Some f ->
     done f = true \/ (forall req_id, pending_requests m !! req_id <> Some loc) ->
     futures (disconnect m) !! loc = Some f) /\
  (forall now_us request w,
     exists m',
       send_request_begin now_us request (disconnect m, w) = ((m', w), Ret None) /\
       sent m' = sent m /\ pending_requests m' = ∅).
Proof.
  unfold disconnect.
  cbn [is_connected is_authorized websocket pending_requests futures with_connection
       with_requests].
  repeat split.
  - intros req_id loc Hreq Hf. unfold cancel_all. rewrite cancel_all_lookup, Hf.
    rewrite bool_decide_eq_true_2; [done|].
    apply list_elem_of_fmap. exists (req_id, loc). split; [done|].
    by apply elem_of_map_to_list.
  - intros loc f Hf Hcase. unfold cancel_all. rewrite cancel_all_lookup, Hf.
    destruct f; try done. destruct Hcase as [Hd|Hnot]; [discriminate|].
    rewrite bool_decide_eq_false_2; [done|].
    intros Hin. apply list_elem_of_fmap in Hin as ([k l] & -> & Hin).
    apply elem_of_map_to_list in Hin. by apply (Hnot k).
  - intros now_us request w. unfold send_request_begin. cbn.
    eexists. split; [reflexivity|]. done.
Qed.

End Requests.

(** A connection whose message callback records the frames it is given. *)
Definition recording_connection : t (list frame) :=
  with_callbacks (Some (fun data seen => (seen ++ [data], None))) None (connected init).

Definition time_answer : frame :=
  {[ "req_id" := JNum (inject_Z 1000); "time" := JNum 1700000000 ]}.

Definition pushed_tick : frame := {[ "tick" := JNum 1 ]}.

Lemma response_resolves_request_witness :
  exists m',
    run [Send 1000 {[ "time" := JNum 1 ]}; Deliver (Some time_answer);
         Finish (req_id_at 1000 recording_connection)] (recording_connection, []) =
      ((m', []), [req_id_at 1000 recording_connection]) /\
    futures m' = futures recording_connection ++ [Resolved time_answer] /\
    pending_requests m' =
      delete (req_id_at 1000 recording_connection)
        (pending_requests recording_connection) /\
    sent m' =
      sent recording_connection ++
      [<["req_id" := JNum (inject_Z (req_id_at 1000 recording_connection))]>
         {[ "time" := JNum 1 ]}] /\
    total_messages_sent m' = total_messages_sent recording_connection + 1 /\
    total_messages_received m' = total_messages_received recording_connection + 1.
Proof.
  apply (response_resolves_request recording_connection [] 1000
           {[ "time" := JNum 1 ]} time_answer); reflexivity.
Defined.

(** The request of [time_answer], answered. *)
Definition answered_connection : t (list frame) :=
  with_requests ∅ [Resolved time_answer] recording_connection.

Lemma settled_futures_are_final_witness :
  futures
    (fst (fst (run [Deliver (Some time_answer); Send 1000 ∅;
                    Deliver (Some {[ "req_id" := JNum (inject_Z 1000) ]})]
                 (answered_connection, []))))
    !! 0%nat = Some (Resolved time_answer).
Proof.
  apply (settled_futures_are_final
           [Deliver (Some time_answer); Send 1000 ∅;
            Deliver (Some {[ "req_id" := JNum (inject_Z 1000) ]})]
           answered_connection [] 0%nat (Resolved time_answer)); reflexivity.
Defined.

Lemma pump_counts_each_frame_twice_witness :
  exists m' w',
    _message_loop [Message (Some pushed_tick); RecvTimeout; Message None;
                   ConnectionClosed; Message None] (recording_connection, []) =
      ((m', w'),
       existsb is_close [Message (Some pushed_tick); RecvTimeout; Message None;
                         ConnectionClosed; Message None]) /\
    total_messages_received m' =
      total_messages_received recording_connection +
      2 * Z.of_nat
            (length
               (List.filter is_frame
                  (until_close [Message (Some pushed_tick); RecvTimeout; Message None;
                                ConnectionClosed; Message None]))) /\
    is_connected m' =
      negb (existsb is_close [Message (Some pushed_tick); RecvTimeout; Message None;
                              ConnectionClosed; Message None]) /\
    pending_requests m' ⊆ pending_requests recording_connection.
Proof.
  apply (pump_counts_each_frame_twice
           [Message (Some pushed_tick); RecvTimeout; Message None;
            ConnectionClosed; Message None] recording_connection []).
  reflexivity.
Defined.

(** One request is waiting for its response. *)
Definition waiting_connection : t (list frame) :=
  with_requests {[ 1000 := 0%nat ]} [Pending] recording_connection.

Lemma pump_keeps_unanswered_requests_witness :
  exists m' w' ended,
    _message_loop [Message (Some pushed_tick); ConnectionClosed] (waiting_connection, []) =
      ((m', w'), ended) /\
    pending_requests m' = pending_requests waiting_connection /\
    futures m' = futures waiting_connection /\
    (ended = true -> is_connected m' = false).
Proof.
  apply (pump_keeps_unanswered_requests
           [Message (Some pushed_tick); ConnectionClosed] waiting_connection []).
  constructor; [|constructor; [exact I | constructor]].
  intros v k Hv. vm_compute in Hv. discriminate.
Defined.

End WebSocketManager.

(** ** src/core/data_models.py *)

Module DataModels.

#[local] Open Scope Q_scope.

Inductive ContractStatus : Type := OPEN | WON | LOST | SOLD | FINISHED.

(** [ContractInfo], with the fields the recovery and the reconciliation read
    or write. *)
Record ContractInfo : Type := mkContract {
  id : string;
  symbol : string;
  amount : Q;
  status : ContractStatus;
  end_time : option Q;
  profit : Q;
  payout : Q;
  sell_price : Q;
  forced_result : bool
}.

(** A new contract: the defaults of the dataclass. *)
Definition new_contract (id symbol : string) (amount : Q) : ContractInfo :=
  {| id := id; symbol := symbol; amount := amount; status := OPEN;
     end_time := None; profit := 0; payout := 0; sell_price := 0;
     forced_result := false |}.

(** [is_finished]: the status is one of WON, LOST, SOLD, FINISHED. *)
Definition is_finished (c : ContractInfo) : bool :=
  match status c with
  | OPEN => false
  | WON | LOST | SOLD | FINISHED => true
  end.

(** Contracts are objects shared by reference: the ledger of an asset and
    the recovery snapshot hold the same object. The store gives the contract
    at each location. *)
Abbreviation store := (nat -> ContractInfo).

(** [c.status = ...; c.profit = ...; c.end_time = ...] *)
Definition with_result (st : ContractStatus) (p : Q) (ended : option Q)
    (c : ContractInfo) : ContractInfo :=
  {| id := id c; symbol := symbol c; amount := amount c; status := st;
     end_time := ended; profit := p; payout := payout c;
     sell_price := sell_price c; forced_result := forced_result c |}.

(** [c.status = ...; c.profit = ...] *)
Definition with_status_profit (st : ContractStatus) (p : Q) (c : ContractInfo)
  : ContractInfo :=
  with_result st p (end_time c) c.

(** [x > 0] *)
Definition positive (x : Q) : bool := negb (Qle_bool x 0).

(** [sum(xs)]: from 0, left to right. *)
Definition py_sum (xs : list Q) : Q := fold_left Qplus xs 0.

(** An instance attribute that [delattr] can remove. The dataclass field
    [forced_total_loss: Optional[float] = None] is also a class attribute:
    once the instance attribute is deleted, reading it gives the class
    default [None], [hasattr] is still true, and a second [delattr] raises. *)
Inductive attribute (A : Type) : Type :=
| Deleted
| Held (value : A).

Arguments Deleted {A}.
Arguments Held {A} value.

(** [AssetState], with the fields the reconciliation reads or writes. The
    active contracts are locations in the store. *)
Record AssetState : Type := mkAsset {
  asset_symbol : string;
  current_sequence : Z;
  loss_accumulator : Q;
  active_contracts : list nat;
  forced_total_loss : attribute (option Q)
}.

Definition new_asset (symbol : string) : AssetState :=
  {| asset_symbol := symbol; current_sequence := 1; loss_accumulator := 0;
     active_contracts := []; forced_total_loss := Held None |}.

End DataModels.

(** ** src/connection/contract_recovery.py *)

Module ContractRecovery.

Import DataModels.

#[local] Open Scope Q_scope.

(** [d[key] = value] on an insertion-ordered dict: a present key keeps its
    place. *)
Fixpoint dict_set {V} (key : string) (value : V) (d : list (string * V))
  : list (string * V) :=
  match d with
  | [] => [(key, value)]
  | (k, v) :: rest =>
      if bool_decide (k = key) then (k, value) :: rest
      else (k, v) :: dict_set key value rest
  end.

(** What [_recover_single_contract] returns. *)
Record recovery_result : Type := {
  success : bool;
  result_profit : Q;
  data : option json;
  still_active : bool
}.

(** What [recover_lost_contracts] returns (the elapsed time is left out). *)
Record report : Type := {
  total_contracts : Z;
  recovered : Z;
  failed : Z;
  total_profit : Q
}.

Inductive log_entry : Type :=
| ErrorNoRequestCallback
| WarningUnknownStatus (contract_id : string) (status : json)
| WarningInvalidResponse (contract_id : string) (attempt : Z)
| ErrorAttempt (contract_id : string) (attempt : Z) (e : exn)
| ErrorCalculatingProfit (e : exn)
| InfoRecovered (contract_id : string) (profit : Q)
| InfoStillActive (contract_id : string)
| ErrorUpdateCallback (e : exn)
| ErrorForcedAsLoss (contract_id : string) (loss : Q).

Section Recovery.

(** What the callbacks act on besides the contracts: the venue, the
    orchestrator. *)
Context {World : Type}.

(** Python's [float] on a string. *)
Variable float_of_string : string -> option Q.

(** [await send_request(request, timeout=...)]: the response, [None], or an
    exception. *)
Definition send_request_type : Type := frame -> World -> World * result (option frame).

(** [await contract_update(contract, data)]: it is given the contract object
    and may write to any contract. *)
Definition contract_update_type : Type :=
  nat -> option json -> store * World -> (store * World) * option exn.

(** Outside the object: the store of contracts, the collaborators' world,
    and the reading of [time.time()], which [asyncio.sleep] moves. *)
Record env : Type := {
  contracts : store;
  world : World;
  now : Q
}.

Record t : Type := mk {
  monitored_contracts : list (string * nat);
  send_request_callback : option send_request_type;
  contract_update_callback : option contract_update_type;
  max_recovery_attempts : Z;
  retry_delay : Q;
  total_recoveries_attempted : Z;
  successful_recoveries : Z;
  failed_recoveries : Z;
  contracts_forced_as_loss : Z;
  balance_before_disconnection : Q;
  disconnection_time : Q;
  log : list log_entry
}.

(** [__init__] *)
Definition init : t := {|
  monitored_contracts := [];
  send_request_callback := None; contract_update_callback := None;
  max_recovery_attempts := 3; retry_delay := 2;
  total_recoveries_attempted := 0; successful_recoveries := 0;
  failed_recoveries := 0; contracts_forced_as_loss := 0;
  balance_before_disconnection := 0; disconnection_time := 0;
  log := [] |}.

Definition set_callbacks (send_request : send_request_type)
    (contract_update : option contract_update_type) (r : t) : t :=
  {| monitored_contracts := monitored_contracts r;
     send_request_callback := Some send_request;
     contract_update_callback := contract_update;
     max_recovery_attempts := max_recovery_attempts r; retry_delay := retry_delay r;
     total_recoveries_attempted := total_recoveries_attempted r;
     successful_recoveries := successful_recoveries r;
     failed_recoveries := failed_recoveries r;
     contracts_forced_as_loss := contracts_forced_as_loss r;
     balance_before_disconnection := balance_before_disconnection r;
     disconnection_time := disconnection_time r;
     log := log r |}.

(** The snapshot. *)
Definition with_snapshot (monitored : list (string * nat)) (balance at_time : Q)
    (r : t) : t :=
  {| monitored_contracts := monitored;
     send_request_callback := send_request_callback r;
     contract_update_callback := contract_update_callback r;
     max_recovery_attempts := max_recovery_attempts r; retry_delay := retry_delay r;
     total_recoveries_attempted := total_recoveries_attempted r;
     successful_recoveries := successful_recoveries r;
     failed_recoveries := failed_recoveries r;
     contracts_forced_as_loss := contracts_forced_as_loss r;
     balance_before_disconnection := balance;
     disconnection_time := at_time;
     log := log r |}.

(** The statistics and the log. *)
Definition with_stats (attempted successful failures forced : Z)
    (l : list log_entry) (r : t) : t :=
  {| monitored_contracts := monitored_contracts r;
     send_request_callback := send_request_callback r;
     contract_update_callback := contract_update_callback r;
     max_recovery_attempts := max_recovery_attempts r; retry_delay := retry_delay r;
     total_recoveries_attempted := attempted;
     successful_recoveries := successful;
     failed_recoveries := failures;
     contracts_forced_as_loss := forced;
     balance_before_disconnection := balance_before_disconnection r;
     disconnection_time := disconnection_time r;
     log := l |}.

Definition state : Type := t * env.

Definition logger (entry : log_entry) : Py state unit :=
  modify (fun '(r, e) =>
    (with_stats (total_recoveries_attempted r) (successful_recoveries r)
       (failed_recoveries r) (contracts_forced_as_loss r) (log r ++ [entry]) r, e)).

(** [await asyncio.sleep(delay)] *)
Definition sleep (delay : Q) : Py state unit :=
  modify (fun '(r, e) =>
    (r, {| contracts := contracts e; world := world e; now := now e + delay |})).

(** Write to the contract object at [loc]. *)
Definition write_contract (loc : nat) (f : ContractInfo -> ContractInfo)
  : Py state unit :=
  modify (fun '(r, e) =>
    (r, {| contracts := <[loc := f (contracts e loc)]> (contracts e);
           world := world e; now := now e |})).

(** [backup_state_before_disconnection]: the contracts that are not
    finished, by symbol and in order, are put under their ids. *)
Definition backup_state_before_disconnection
    (active_contracts : list (string * list nat)) (current_balance : Q)
  : Py state unit :=
  modify (fun '(r, e) =>
    let open_locs :=
      List.filter (fun loc => negb (is_finished (contracts e loc)))
        (concat active_contracts.*2) in
    (with_snapshot
       (fold_left (fun d loc => dict_set (id (contracts e loc)) loc d) open_locs [])
       current_balance (now e) r, e)).

(** [float(v)] *)
Definition py_float (v : json) : result Q :=
  match v with
  | JNum q => Ret q
  | JBool b => Ret (if b then 1 else 0)
  | JStr s => match float_of_string s with
              | Some q => Ret q
              | None => Raise ValueError
              end
  | JNull | JArr _ | JObj _ => Raise TypeError
  end.

(** [contract_data.get(key, default)] on the dict [contract_data]. *)
Definition get (contract_data : gmap string json) (key : string) (dflt : json) : json :=
  default dflt (contract_data !! key).

(** [_calculate_contract_profit]: a [ValueError] or [TypeError] of [float]
    gives the loss of the original amount. *)
Definition _calculate_contract_profit (contract : ContractInfo)
    (contract_data : gmap string json) : Py state Q :=
  match py_float (get contract_data "buy_price" (JNum (amount contract))) with
  | Ret buy_price =>
      if is_str (get contract_data "status" JNull) "won" then
        match py_float (get contract_data "payout" (JNum 0)) with
        | Ret payout => ret (payout - buy_price)
        | Raise e => (logger (ErrorCalculatingProfit e) ;;; ret (- amount contract))%py
        end
      else ret (- buy_price)
  | Raise e => (logger (ErrorCalculatingProfit e) ;;; ret (- amount contract))%py
  end.

(** What one turn of the [for attempt in range(...)] loop decides. *)
Inductive attempt_outcome : Type :=
| Return (result : recovery_result)
| Break
| Continue.

(** The body of the [try] of one attempt (before the sleep). *)
Definition attempt_body (loc : nat) (attempt : Z) : Py state attempt_outcome :=
  fun '(r, e) =>
    let contract := contracts e loc in
    match send_request_callback r with
    | None => (logger ErrorNoRequestCallback ;;; ret Break)%py (r, e)
    | Some send_request =>
        let request : frame :=
          {[ "proposal_open_contract" := JNum 1; "contract_id" := JStr (id contract) ]} in
        match send_request request (world e) with
        | (w', Raise ex) =>
            ((r, {| contracts := contracts e; world := w'; now := now e |}), Raise ex)
        | (w', Ret response) =>
            let s1 : state := (r, {| contracts := contracts e; world := w'; now := now e |}) in
            match response ≫= (fun resp => resp !! "proposal_open_contract") with
            | None =>
                (logger (WarningInvalidResponse (id contract) (attempt + 1)) ;;;
                 ret Continue)%py s1
            | Some (JObj contract_data) =>
                let status := get contract_data "status" JNull in
                if is_str status "sold" || is_str status "won" || is_str status "lost"
                then
                  (profit <- _calculate_contract_profit contract contract_data ;;
                   ended <- gets (fun s => now (snd s)) ;;
                   write_contract loc
                     (with_result (if positive profit then WON else LOST) profit
                        (Some ended)) ;;;
                   logger (InfoRecovered (id contract) profit) ;;;
                   modify (fun '(r, e) =>
                     (with_stats (total_recoveries_attempted r)
                        (successful_recoveries r + 1)%Z (failed_recoveries r)
                        (contracts_forced_as_loss r) (log r) r, e)) ;;;
                   ret (Return {| success := true; result_profit := profit;
                                  data := Some (JObj contract_data);
                                  still_active := false |}))%py s1
                else if is_str status "open" then
                  (logger (InfoStillActive (id contract)) ;;;
                   ret (Return {| success := true; result_profit := 0;
                                  data := Some (JObj contract_data);
                                  still_active := true |}))%py s1
                else
                  (logger (WarningUnknownStatus (id contract) status) ;;;
                   ret Continue)%py s1
            | Some _ => (s1, Raise (AttributeError "get"))
            end
        end
    end.

(** One attempt: the [try] with its [except Exception], and the sleep that
    precedes the next attempt. *)
Definition attempt_once (loc : nat) (attempt : Z) : Py state attempt_outcome :=
  (max <- gets (fun s => max_recovery_attempts (fst s)) ;;
   delay <- gets (fun s => retry_delay (fst s)) ;;
   let pause : Py state unit :=
     if (attempt <? max - 1)%Z then sleep delay else ret tt in
   try_except
     (outcome <- attempt_body loc attempt ;;
      match outcome with
      | Continue => pause ;;; ret Continue
      | _ => ret outcome
      end)
     (fun ex =>
        contract_id <- gets (fun s => id (contracts (snd s) loc)) ;;
        logger (ErrorAttempt contract_id (attempt + 1) ex) ;;;
        pause ;;; ret Continue))%py.

(** The [for attempt in ...] loop over the attempts that are left. *)
Fixpoint attempts (loc : nat) (todo : list Z) : Py state (option recovery_result) :=
  match todo with
  | [] => ret None
  | attempt :: rest =>
      (outcome <- attempt_once loc attempt ;;
       match outcome with
       | Return result => ret (Some result)
       | Break => ret None
       | Continue => attempts loc rest
       end)%py
  end.

(** [range(n)] *)
Definition range (n : Z) : list Z := map Z.of_nat (seq 0 (Z.to_nat n)).

(** [_recover_single_contract] *)
Definition _recover_single_contract (loc : nat) : Py state recovery_result :=
  (modify (fun '(r, e) =>
     (with_stats (total_recoveries_attempted r + 1)%Z (successful_recoveries r)
        (failed_recoveries r) (contracts_forced_as_loss r) (log r) r, e)) ;;;
   max <- gets (fun s => max_recovery_attempts (fst s)) ;;
   found <- attempts loc (range max) ;;
   match found with
   | Some result => ret result
   | None =>
       modify (fun '(r, e) =>
         (with_stats (total_recoveries_attempted r) (successful_recoveries r)
            (failed_recoveries r + 1)%Z (contracts_forced_as_loss r) (log r) r, e)) ;;;
       ret {| success := false; result_profit := 0; data := None;
              still_active := false |}
   end)%py.

(** [await self.contract_update_callback(contract, data)] in its [try]. *)
Definition notify (loc : nat) (contract_data : option json) : Py state unit :=
  fun '(r, e) =>
    match contract_update_callback r with
    | Some contract_update =>
        match contract_update loc contract_data (contracts e, world e) with
        | ((cs, w'), None) =>
            ((r, {| contracts := cs; world := w'; now := now e |}), Ret tt)
        | ((cs, w'), Some ex) =>
            logger (ErrorUpdateCallback ex)
              (r, {| contracts := cs; world := w'; now := now e |})
        end
    | None => ((r, e), Ret tt)
    end.

(** The counters of [recover_lost_contracts]. *)
Record counters : Type := {
  recovered_count : Z;
  failed_count : Z;
  profit_total : Q
}.

(** The body of the [for] of [recover_lost_contracts], for one contract of
    the snapshot. *)
Definition recover_one (loc : nat) (acc : counters) : Py state counters :=
  (recovery_result <- _recover_single_contract loc ;;
   if success recovery_result then
     notify loc (data recovery_result) ;;;
     ret {| recovered_count := (recovered_count acc + 1)%Z;
            failed_count := failed_count acc;
            profit_total := profit_total acc + result_profit recovery_result |}
   else
     original_amount <- gets (fun s => amount (contracts (snd s) loc)) ;;
     contract_id <- gets (fun s => id (contracts (snd s) loc)) ;;
     write_contract loc (with_status_profit FINISHED (- original_amount)) ;;;
     modify (fun '(r, e) =>
       (with_stats (total_recoveries_attempted r) (successful_recoveries r)
          (failed_recoveries r) (contracts_forced_as_loss r + 1)%Z (log r) r, e)) ;;;
     logger (ErrorForcedAsLoss contract_id (- original_amount)) ;;;
     ret {| recovered_count := recovered_count acc;
            failed_count := (failed_count acc + 1)%Z;
            profit_total := profit_total acc - original_amount |})%py.

(** The [for contract_id, contract in self.monitored_contracts.items()]. *)
Fixpoint recover_each (locs : list nat) (acc : counters) : Py state counters :=
  match locs with
  | [] => ret acc
  | loc :: rest => (acc' <- recover_one loc acc ;; recover_each rest acc')%py
  end.

(** [recover_lost_contracts] *)
Definition recover_lost_contracts : Py state report :=
  (monitored <- gets (fun s => monitored_contracts (fst s)) ;;
   match monitored with
   | [] => ret {| total_contracts := 0; recovered := 0; failed := 0;
                  total_profit := 0 |}
   | _ =>
       acc <- recover_each monitored.*2
                {| recovered_count := 0; failed_count := 0; profit_total := 0 |} ;;
       monitored' <- gets (fun s => monitored_contracts (fst s)) ;;
       ret {| total_contracts := Z.of_nat (length monitored');
              recovered := recovered_count acc;
              failed := failed_count acc;
              total_profit := profit_total acc |}
   end)%py.

End Recovery.

Arguments env World : clear implicits.
Arguments t World : clear implicits.
Arguments state World : clear implicits.
Arguments send_request_type World : clear implicits.
Arguments contract_update_type World : clear implicits.

Section Properties.

Context {World : Type}.
Variable float_of_string : string -> option Q.

Implicit Types (s : state World) (loc : nat).

(** A computation that returns, whatever it does, and leaves the snapshot
    as it was. *)
Definition steady {A} (m : Py (state World) A) : Prop :=
  forall s, exists s' a,
    m s = (s', Ret a) /\ monitored_contracts (fst s') = monitored_contracts (fst s).

(** A computation that may raise, and leaves the snapshot as it was. *)
Definition keeps_snapshot {A} (m : Py (state World) A) : Prop :=
  forall s s' r, m s = (s', r) ->
    monitored_contracts (fst s') = monitored_contracts (fst s).

Lemma steady_keeps {A} (m : Py (state World) A) : steady m -> keeps_snapshot m.
Proof. intros H s s' r E. destruct (H s) as (s1 & a & E1 & K). congruence. Qed.

Lemma steady_ret {A} (a : A) : steady (ret a).
Proof. intros s. by exists s, a. Qed.

Lemma steady_bind {A B} (m : Py (state World) A) (k : A -> Py (state World) B) :
  steady m -> (forall a, steady (k a)) -> steady (bind m k).
Proof.
  intros Hm Hk s. destruct (Hm s) as (s1 & a & E1 & K1).
  destruct (Hk a s1) as (s2 & b & E2 & K2).
  exists s2, b. unfold bind. rewrite E1, E2. split; congruence.
Qed.

Lemma steady_try {A} (m : Py (state World) A) h :
  keeps_snapshot m -> (forall ex, steady (h ex)) -> steady (try_except m h).
Proof.
  intros Hm Hh s. unfold try_except.
  destruct (m s) as [s1 [a|ex]] eqn:E.
  - exists s1, a. split; [reflexivity | exact (Hm _ _ _ E)].
  - destruct (Hh ex s1) as (s2 & a & E2 & K2). exists s2, a.
    split; [exact E2|]. rewrite K2. exact (Hm _ _ _ E).
Qed.

Lemma keeps_snapshot_bind {A B} (m : Py (state World) A) (k : A -> Py (state World) B) :
  keeps_snapshot m -> (forall a, keeps_snapshot (k a)) -> keeps_snapshot (bind m k).
Proof.
  intros Hm Hk s s' r. unfold bind. destruct (m s) as [s1 [a|ex]] eqn:E; intros H.
  - rewrite (Hk a _ _ _ H). exact (Hm _ _ _ E).
  - injection H as <- _. exact (Hm _ _ _ E).
Qed.

Lemma steady_modify (f : state World -> state World) :
  (forall s, monitored_contracts (fst (f s)) = monitored_contracts (fst s)) ->
  steady (modify f).
Proof. intros H s. exists (f s), tt. split; [reflexivity | apply H]. Qed.

Lemma steady_logger entry : steady (logger (World:=World) entry).
Proof. intros [r e]. eexists _, _. split; reflexivity. Qed.

Lemma steady_sleep delay : steady (sleep (World:=World) delay).
Proof. intros [r e]. eexists _, _. split; reflexivity. Qed.

Lemma steady_write loc f : steady (write_contract (World:=World) loc f).
Proof. intros [r e]. eexists _, _. split; reflexivity. Qed.

Lemma steady_gets {A} (f : state World -> A) : steady (gets f).
Proof. intros s. eexists _, _. split; reflexivity. Qed.

Lemma steady_calculate c contract_data :
  steady (_calculate_contract_profit float_of_string (World:=World) c contract_data).
Proof.
  unfold _calculate_contract_profit.
  repeat case_match;
    repeat first [apply steady_ret | apply steady_logger
                 | apply steady_bind; [|intros ?]].
Qed.

Create HintDb steady.
#[local] Hint Resolve steady_ret steady_logger steady_sleep steady_write steady_gets
  steady_calculate steady_keeps : steady.
#[local] Hint Extern 2 (steady (bind _ _)) => apply steady_bind; [|intros ?] : steady.
#[local] Hint Extern 2 (keeps_snapshot (bind _ _)) => apply keeps_snapshot_bind; [|intros ?] : steady.

#[local] Hint Extern 2 (steady (modify _)) =>
  apply steady_modify; intros [? ?]; reflexivity : steady.
#[local] Hint Extern 2 (steady (if ?b then _ else _)) => destruct b : steady.

(** Close a goal [m s0 = (s', r) -> snapshot kept] for a steady [m]. *)
Ltac close_keeps :=
  match goal with
  | |- (_, _) = _ -> _ => intros [= <- _]; reflexivity
  | |- ?m ?s0 = _ -> _ =>
      let K := fresh "K" in
      assert (keeps_snapshot m) as K by (auto 12 with steady);
      let E := fresh "E" in intros E; apply K in E; exact E
  end.

Lemma keeps_attempt_body loc attempt :
  keeps_snapshot (attempt_body float_of_string (World:=World) loc attempt).
Proof.
  intros [r e] s' res. unfold attempt_body.
  repeat case_match; close_keeps.
Qed.

Lemma steady_attempt_once loc attempt :
  steady (attempt_once float_of_string (World:=World) loc attempt).
Proof.
  unfold attempt_once.
  apply steady_bind; [auto with steady | intros max].
  apply steady_bind; [auto with steady | intros delay].
  apply steady_try.
  - apply keeps_snapshot_bind; [apply keeps_attempt_body | intros []]; auto 8 with steady.
  - intros ex. auto 10 with steady.
Qed.

Lemma steady_attempts loc todo :
  steady (attempts float_of_string (World:=World) loc todo).
Proof.
  induction todo as [|attempt rest IH]; cbn [attempts]; [auto with steady|].
  apply steady_bind; [apply steady_attempt_once | intros []]; auto with steady.
Qed.

Lemma steady_recover_single loc :
  steady (_recover_single_contract float_of_string (World:=World) loc).
Proof.
  unfold _recover_single_contract.
  apply steady_bind; [auto with steady | intros _].
  apply steady_bind; [auto with steady | intros max].
  apply steady_bind; [apply steady_attempts | intros [result|]]; auto 8 with steady.
Qed.

Lemma steady_notify loc contract_data : steady (notify (World:=World) loc contract_data).
Proof.
  intros [r e]. unfold notify.
  destruct (contract_update_callback r) as [cb|]; [|by eexists _, _].
  destruct (cb loc contract_data (contracts e, world e)) as [[cs w'] [ex|]];
    eexists _, _; split; reflexivity.
Qed.

(** One contract of the snapshot moves exactly one of the two counts. *)
Lemma recover_one_counts loc acc s :
  exists s' acc',
    recover_one float_of_string loc acc s = (s', Ret acc') /\
    monitored_contracts (fst s') = monitored_contracts (fst s) /\
    (recovered_count acc' + failed_count acc' =
       recovered_count acc + failed_count acc + 1)%Z.
Proof.
  unfold recover_one. unfold bind at 1.
  destruct (steady_recover_single loc s) as (s1 & res & -> & K1).
  destruct (success res).
  - unfold bind. destruct (steady_notify loc (data res) s1) as (s2 & [] & -> & K2).
    eexists _, _. split; [reflexivity|]. cbn. split; [congruence | lia].
  - destruct s1 as [r1 e1]. eexists _, _. split; [reflexivity|].
    cbn in *. split; [congruence | lia].
Qed.

Lemma recover_each_counts (locs : list nat) : forall acc s,
  exists s' acc',
    recover_each float_of_string locs acc s = (s', Ret acc') /\
    monitored_contracts (fst s') = monitored_contracts (fst s) /\
    (recovered_count acc' + failed_count acc' =
       recovered_count acc + failed_count acc + Z.of_nat (length locs))%Z.
Proof.
  induction locs as [|loc rest IH]; intros acc s.
  - exists s, acc. cbn. repeat split. lia.
  - cbn [recover_each]. unfold bind.
    destruct (recover_one_counts loc acc s) as (s1 & acc1 & -> & K1 & C1).
    destruct (IH acc1 s1) as (s2 & acc2 & -> & K2 & C2).
    exists s2, acc2. split; [reflexivity|]. split; [congruence|].
    cbn [length]. lia.
Qed.

(** Every value a computation returns satisfies [P]. *)
Definition yields {A} (P : A -> Prop) (m : Py (state World) A) : Prop :=
  forall s s' a, m s = (s', Ret a) -> P a.

Lemma yields_ret {A} (P : A -> Prop) a : P a -> yields P (ret a).
Proof. intros H s s' a' [= _ <-]. exact H. Qed.

Lemma yields_bind {A B} (P : B -> Prop) (m : Py (state World) A) k :
  (forall a, yields P (k a)) -> yields P (bind m k).
Proof.
  intros Hk s s' b. unfold bind. destruct (m s) as [s1 [a|ex]]; [apply Hk | discriminate].
Qed.

Lemma yields_try {A} (P : A -> Prop) (m : Py (state World) A) h :
  yields P m -> (forall ex, yields P (h ex)) -> yields P (try_except m h).
Proof.
  intros Hm Hh s s' a. unfold try_except.
  destruct (m s) as [s1 [a1|ex]] eqn:E; [|apply Hh].
  intros [= <- <-]. exact (Hm _ _ _ E).
Qed.

(** A result that says "still active" is a success with profit 0. *)
Definition open_is_success (res : recovery_result) : Prop :=
  still_active res = true -> success res = true /\ result_profit res = 0.

Definition outcome_ok (o : attempt_outcome) : Prop :=
  match o with
  | Return res => open_is_success res
  | Break | Continue => True
  end.

Lemma yields_attempt_body loc attempt :
  yields outcome_ok (attempt_body float_of_string (World:=World) loc attempt).
Proof.
  intros [r e] s' o. unfold attempt_body.
  repeat case_match; try discriminate;
    match goal with
    | |- ?m ?s0 = _ -> _ =>
        assert (yields outcome_ok m) as Y
          by (repeat first [apply yields_bind; intros ? | apply yields_ret];
              cbn; unfold open_is_success; cbn; first [done | tauto]);
        apply Y
    end.
Qed.

Lemma yields_attempt_once loc attempt :
  yields outcome_ok (attempt_once float_of_string (World:=World) loc attempt).
Proof.
  unfold attempt_once. apply yields_bind; intros max. apply yields_bind; intros delay.
  apply yields_try.
  - intros s s' o. unfold bind.
    destruct (attempt_body _ _ _ s) as [s1 [o1|ex]] eqn:E; [|discriminate].
    pose proof (yields_attempt_body _ _ _ _ _ E) as Hok.
    destruct o1; [intros [= _ <-]; exact Hok | intros [= _ <-]; exact I|].
    destruct (if (attempt <? max - 1)%Z then _ else _) as [s2 [[]|ex]];
      [intros [= _ <-]; exact I | discriminate].
  - intros ex. repeat (apply yields_bind; intros ?). apply yields_ret. exact I.
Qed.

Lemma yields_attempts loc todo :
  yields (fun found => match found with
                       | Some res => open_is_success res
                       | None => True
                       end)
    (attempts float_of_string (World:=World) loc todo).
Proof.
  induction todo as [|attempt rest IH]; cbn [attempts]; [by apply yields_ret|].
  intros s s' found. unfold bind.
  destruct (attempt_once _ _ _ s) as [s1 [o|ex]] eqn:E; [|discriminate].
  pose proof (yields_attempt_once _ _ _ _ _ E) as Hok.
  destruct o; [intros [= _ <-]; exact Hok | intros [= _ <-]; exact I | apply IH].
Qed.

Lemma recover_single_open loc :
  yields open_is_success (_recover_single_contract float_of_string (World:=World) loc).
Proof.
  unfold _recover_single_contract. apply yields_bind; intros _. apply yields_bind; intros max.
  intros s s' res. unfold bind.
  destruct (attempts _ _ _ s) as [s1 [found|ex]] eqn:E; [|discriminate].
  pose proof (yields_attempts _ _ _ _ _ E) as Hok.
  destruct found as [res0|]; [intros [= _ <-]; exact Hok|].
  cbn. intros [= _ <-]. unfold open_is_success. cbn. discriminate.
Qed.


(** What the forcing writes: a position whose recovery fails is forced to
    FINISHED with profit minus its amount; its forced-result flag is left as
    it was. *)
Lemma recover_one_forces_loss loc acc s s1 res :
  _recover_single_contract float_of_string loc s = (s1, Ret res) ->
  success res = false ->
  exists s2 acc',
    recover_one float_of_string loc acc s = (s2, Ret acc') /\
    status (contracts (snd s2) loc) = FINISHED /\
    profit (contracts (snd s2) loc) = - amount (contracts (snd s1) loc) /\
    forced_result (contracts (snd s2) loc) = forced_result (contracts (snd s1) loc) /\
    failed_count acc' = (failed_count acc + 1)%Z.
Proof.
  intros Hrun Hfail. unfold recover_one, bind at 1. rewrite Hrun, Hfail.
  destruct s1 as [r1 e1]. eexists _, _. split; [reflexivity|].
  cbn. rewrite fn_lookup_insert. cbn. auto.
Qed.

End Properties.

(** *** Concrete runs: one open position of amount 1 in the snapshot *)

(** The world counts the requests made to the venue. *)
Definition unreachable_venue : send_request_type nat :=
  fun _ requests => (S requests, Ret None).

Definition venue_reports_open : send_request_type nat :=
  fun _ requests =>
    (S requests,
     Ret (Some {[ "proposal_open_contract" := JObj {[ "status" := JStr "open" ]} ]})).

(** No string is read as a number in these runs. *)
Definition no_float : string -> option Q := fun _ => None.

(** The position is the contract at location 0. *)
Definition ledger : store :=
  <[ 0%nat := new_contract "C1" "R_100" 1 ]> (fun _ => new_contract "" "" 0).

(** The state after [set_callbacks] and [backup_state_before_disconnection]. *)
Definition snapshot (venue : send_request_type nat) : state nat :=
  fst (backup_state_before_disconnection [("R_100"%string, [0%nat])] 100
         (set_callbacks venue None init,
          {| contracts := ledger; world := 0%nat; now := 0 |})).

Definition no_counts : counters :=
  {| recovered_count := 0; failed_count := 0; profit_total := 0 |}.


(** C2 on the code: the venue gives no response to any of the 3 attempts.
    The position is forced to FINISHED with profit minus its amount and the
    report counts it as failed, but its forced-result flag is still false. *)
Theorem unreachable_venue_forces_loss_without_flag :
  let s := snapshot unreachable_venue in
  let '((r, e), rep) := recover_lost_contracts no_float s in
  monitored_contracts (fst s) = [("C1"%string, 0%nat)] /\
  amount (contracts (snd s) 0%nat) = 1 /\
  world e = 3%nat /\
  rep = Ret {| total_contracts := 1; recovered := 0; failed := 1;
               total_profit := 0 - 1 |} /\
  contracts_forced_as_loss r = 1%Z /\
  status (contracts e 0%nat) = FINISHED /\
  profit (contracts e 0%nat) = - (1) /\
  forced_result (contracts e 0%nat) = false.
Proof. vm_compute. repeat split. Qed.

(** *** The snapshot, the waits, the statistics and the venue's word *)

Section Accounting.

Context {World : Type}.
Variable float_of_string : string -> option Q.

Implicit Types (r : t World) (e : env World) (s : state World) (loc : nat).

Lemma dict_set_spec {V} (key : string) (value : V) (d : list (string * V)) :
  NoDup d.*1 ->
  NoDup (dict_set key value d).*1 /\
  forall k v, (k, v) ∈ dict_set key value d <->
              (k = key /\ v = value) \/ (k <> key /\ (k, v) ∈ d).
Proof.
  induction d as [|[k0 v0] rest IH]; intros Hnd.
  - split; [apply list.NoDup_cons; split; [apply not_elem_of_nil | apply NoDup_nil_2]|].
    intros k v. cbn. rewrite list_elem_of_singleton, elem_of_nil.
    split; [intros [= -> ->]; auto | intros [[-> ->]|[_ []]]; reflexivity].
  - cbn [fmap list_fmap fst] in Hnd. apply list.NoDup_cons in Hnd as [Hk0 Hnd].
    destruct (IH Hnd) as [IHnd IHin]. cbn [dict_set].
    case_bool_decide as Hkey.
    + subst k0. split; [by apply list.NoDup_cons|].
      intros k v. rewrite !elem_of_cons. split.
      * intros [[= -> ->]|Hin]; [auto|]. right. split; [|auto].
        intros ->. apply Hk0. apply list_elem_of_fmap. by exists (key, v).
      * intros [[-> ->]|[Hne [[= -> ->]|Hin]]]; auto. done.
    + split.
      * cbn [fmap list_fmap fst]. apply list.NoDup_cons. split; [|exact IHnd].
        intros Hin. apply list_elem_of_fmap in Hin as ([k v] & -> & Hin).
        apply IHin in Hin as [[-> ->]|[_ Hin]]; [done|].
        apply Hk0. apply list_elem_of_fmap. by exists (k, v).
      * intros k v. rewrite !elem_of_cons, IHin. split.
        -- intros [[= -> ->]|[[-> ->]|[Hne Hin]]]; auto.
        -- intros [[-> ->]|[Hne [[= -> ->]|Hin]]]; auto.
Qed.

Lemma snapshot_fold (cs : store) (locs : list nat) :
  forall (d : list (string * nat)) (seen : list nat),
    NoDup d.*1 ->
    (forall k v, (k, v) ∈ d -> v ∈ seen /\ id (cs v) = k) ->
    (forall v, v ∈ seen -> id (cs v) ∈ d.*1) ->
    NoDup (fold_left (fun d loc => dict_set (id (cs loc)) loc d) locs d).*1 /\
    (forall k v,
       (k, v) ∈ fold_left (fun d loc => dict_set (id (cs loc)) loc d) locs d ->
       v ∈ seen ++ locs /\ id (cs v) = k) /\
    (forall v,
       v ∈ seen ++ locs ->
       id (cs v) ∈ (fold_left (fun d loc => dict_set (id (cs loc)) loc d) locs d).*1).
Proof.
  induction locs as [|loc rest IH]; intros d seen Hnd Hin Hall.
  - cbn [fold_left]. rewrite app_nil_r. auto.
  - cbn [fold_left].
    destruct (dict_set_spec (id (cs loc)) loc d Hnd) as [Hnd1 Hin1].
    replace (seen ++ loc :: rest) with ((seen ++ [loc]) ++ rest)
      by (by rewrite <- app_assoc).
    apply IH; [exact Hnd1| |].
    + intros k v Hkv. apply Hin1 in Hkv as [[-> ->]|[_ Hkv]].
      * split; [|reflexivity]. apply elem_of_app. right. by apply list_elem_of_singleton.
      * destruct (Hin k v Hkv) as [Hs Hid]. split; [|exact Hid].
        apply elem_of_app. by left.
    + intros v Hv. apply elem_of_app in Hv as [Hv|Hv].
      * destruct (decide (id (cs v) = id (cs loc))) as [Heq|Hne].
        -- rewrite Heq. apply list_elem_of_fmap. exists (id (cs loc), loc).
           split; [reflexivity|]. apply Hin1. by left.
        -- specialize (Hall v Hv). apply list_elem_of_fmap in Hall as ([k l] & Hk & Hkl).
           cbn in Hk. subst k. apply list_elem_of_fmap. exists (id (cs v), l).
           split; [reflexivity|]. apply Hin1. right. by split.
      * apply list_elem_of_singleton in Hv as ->.
        apply list_elem_of_fmap. exists (id (cs loc), loc).
        split; [reflexivity|]. apply Hin1. by left.
Qed.

(** The snapshot holds the open positions. After
    [backup_state_before_disconnection], whatever the snapshot held before,
    the monitored contracts are the active contracts that are not finished,
    each under its own id and each id once (of two open contracts with the
    same id one is kept); the balance and the time of the disconnection are
    recorded; no contract is written. *)
Theorem snapshot_holds_open_contracts
    (active_contracts : list (string * list nat)) (current_balance : Q) r e :
  exists r',
    backup_state_before_disconnection active_contracts current_balance (r, e) =
      ((r', e), Ret tt) /\
    balance_before_disconnection r' = current_balance /\
    disconnection_time r' = now e /\
    NoDup (monitored_contracts r').*1 /\
    (forall contract_id loc,
       (contract_id, loc) ∈ monitored_contracts r' ->
       loc ∈ concat active_contracts.*2 /\
       is_finished (contracts e loc) = false /\
       id (contracts e loc) = contract_id) /\
    (forall loc,
       loc ∈ concat active_contracts.*2 -> is_finished (contracts e loc) = false ->
       id (contracts e loc) ∈ (monitored_contracts r').*1).
Proof.
  unfold backup_state_before_disconnection, modify.
  eexists. split; [reflexivity|].
  cbn [balance_before_disconnection disconnection_time monitored_contracts with_snapshot].
  split; [reflexivity|]. split; [reflexivity|].
  set (open_locs := List.filter _ _).
  destruct (snapshot_fold (contracts e) open_locs [] []) as (Hnd & Hin & Hall).
  { apply NoDup_nil_2. }
  { intros k v Hkv. by apply elem_of_nil in Hkv. }
  { intros v Hv. by apply elem_of_nil in Hv. }
  cbn [app] in Hin, Hall.
  assert (forall loc, loc ∈ open_locs <->
            loc ∈ concat active_contracts.*2 /\ is_finished (contracts e loc) = false)
    as Hopen.
  { intros loc. subst open_locs. rewrite !list_elem_of_In, filter_In, negb_true_iff.
    reflexivity. }
  split; [exact Hnd|]. split.
  - intros cid loc Hcl. destruct (Hin cid loc Hcl) as [Hl Hid].
    apply Hopen in Hl as [H1 H2]. auto.
  - intros loc H1 H2. apply Hall, Hopen. auto.
Qed.

(** What one contract's recovery leaves alone in the recovery object. *)
Definition config r :=
  (monitored_contracts r, send_request_callback r, contract_update_callback r,
   max_recovery_attempts r, retry_delay r, balance_before_disconnection r,
   disconnection_time r).

(** What an attempt adds to [successful_recoveries]. *)
Definition counted (out : attempt_outcome) : Z :=
  match out with
  | Return res => if still_active res then 0 else 1
  | Break | Continue => 0
  end.

(** The statistics. *)
Definition stats r :=
  (total_recoveries_attempted r, successful_recoveries r, failed_recoveries r,
   contracts_forced_as_loss r).

Lemma calculate_effect c contract_data r e :
  exists r' q,
    _calculate_contract_profit float_of_string c contract_data (r, e) =
      ((r', e), Ret q) /\
    config r' = config r /\ stats r' = stats r.
Proof.
  unfold _calculate_contract_profit.
  repeat case_match; unfold bind, logger, modify, ret; eexists _, _;
    (split; [reflexivity|]); split; reflexivity.
Qed.

Lemma attempt_body_effect loc attempt r e s' out :
  attempt_body float_of_string loc attempt (r, e) = (s', out) ->
  config (fst s') = config r /\ now (snd s') = now e /\
  match out with
  | Ret o =>
      stats (fst s') =
        (total_recoveries_attempted r, (successful_recoveries r + counted o)%Z,
         failed_recoveries r, contracts_forced_as_loss r) /\
      match o with Return res => success res = true | _ => True end
  | Raise _ => stats (fst s') = stats r
  end.
Proof.
  unfold attempt_body.
  destruct (send_request_callback r) as [send_request|];
    [|intros [= <- <-]; cbn; unfold stats; cbn; repeat split; by rewrite ?Z.add_0_r].
  destruct (send_request _ (world e)) as [w' [response|ex]];
    [|intros [= <- <-]; by cbn].
  destruct (response ≫= _) as [[| | | | |contract_data]|];
    try (intros [= <- <-]; cbn; unfold stats; cbn; repeat split; by rewrite ?Z.add_0_r).
  destruct (_ || _).
  - unfold bind at 1.
    match goal with
    | |- context [_calculate_contract_profit _ ?c ?d ?s0] =>
        destruct (calculate_effect c d (fst s0) (snd s0)) as (r1 & q & E & C & S);
        cbn [fst snd] in E; rewrite E
    end.
    unfold bind, gets, write_contract, logger, modify, ret. cbn [fst snd].
    intros [= <- <-]. cbn. unfold config, stats in *. cbn.
    injection C as -> -> -> -> -> -> ->. injection S as -> -> -> ->. done.
  - destruct (is_str _ _);
      intros [= <- <-]; cbn; unfold stats; cbn; repeat split; by rewrite ?Z.add_0_r.
Qed.

(** The sleep between attempts: after every attempt but the last. *)
Definition pause_of (max attempt : Z) (delay : Q) : Q :=
  if (attempt <? max - 1)%Z then delay else 0.

Lemma attempt_once_effect loc attempt r e :
  exists s' o,
    attempt_once float_of_string loc attempt (r, e) = (s', Ret o) /\
    config (fst s') = config r /\
    stats (fst s') =
      (total_recoveries_attempted r, (successful_recoveries r + counted o)%Z,
       failed_recoveries r, contracts_forced_as_loss r) /\
    match o with
    | Return res => success res = true /\ now (snd s') = now e
    | Break => now (snd s') = now e
    | Continue =>
        now (snd s') == now e + pause_of (max_recovery_attempts r) attempt (retry_delay r)
    end.
Proof.
  unfold attempt_once, bind at 1, gets at 1. cbn [fst].
  unfold bind at 1, gets at 1. cbn [fst].
  unfold try_except, bind at 1.
  destruct (attempt_body float_of_string loc attempt (r, e)) as [[r1 e1] [o|ex]] eqn:E;
    apply attempt_body_effect in E as (C & N & S); cbn [fst snd] in C, N, S.
  - destruct S as [S Hs]. unfold pause_of.
    destruct o as [res| |]; [by eexists _, _ | by eexists _, _ |].
    destruct (attempt <? max_recovery_attempts r - 1)%Z;
      eexists _, _; (split; [reflexivity|]); cbn; rewrite N;
      (split; [exact C|]); (split; [exact S|]); ring.
  - unfold bind, gets, logger, modify, ret, pause_of. cbn [fst snd].
    destruct (attempt <? max_recovery_attempts r - 1)%Z;
      eexists _, _; (split; [reflexivity|]); cbn; rewrite N;
      unfold config, stats in *; cbn;
      injection C as -> -> -> -> -> -> ->; injection S as -> -> -> ->;
      rewrite Z.add_0_r; (split; [reflexivity|]); (split; [reflexivity|]); ring.
Qed.

(** The longest the attempts of a list can wait. *)
Fixpoint wait_bound (max : Z) (delay : Q) (todo : list Z) : Q :=
  match todo with
  | [] => 0
  | attempt :: rest => pause_of max attempt delay + wait_bound max delay rest
  end.

Lemma pause_of_nonneg max attempt delay : 0 <= delay -> 0 <= pause_of max attempt delay.
Proof. intros H. unfold pause_of. destruct (_ <? _)%Z; lra. Qed.

Lemma wait_bound_nonneg max delay todo : 0 <= delay -> 0 <= wait_bound max delay todo.
Proof.
  intros H. induction todo as [|a rest IH]; cbn; [lra|].
  pose proof (pause_of_nonneg max a delay H). lra.
Qed.

(** What the result of a contract's recovery adds to [successful_recoveries]. *)
Definition settled (found : option recovery_result) : Z :=
  match found with
  | Some res => if still_active res then 0 else 1
  | None => 0
  end.

Lemma attempts_effect loc (todo : list Z) : forall r e,
  exists s' found,
    attempts float_of_string loc todo (r, e) = (s', Ret found) /\
    config (fst s') = config r /\
    stats (fst s') =
      (total_recoveries_attempted r, (successful_recoveries r + settled found)%Z,
       failed_recoveries r, contracts_forced_as_loss r) /\
    match found with Some res => success res = true | None => True end /\
    (0 <= retry_delay r ->
     now e <= now (snd s') /\
     now (snd s') <= now e + wait_bound (max_recovery_attempts r) (retry_delay r) todo).
Proof.
  induction todo as [|attempt rest IH]; intros r e.
  - eexists _, _. split; [reflexivity|]. cbn. unfold stats. rewrite Z.add_0_r.
    repeat split; lra.
  - cbn [attempts wait_bound]. unfold bind at 1.
    destruct (attempt_once_effect loc attempt r e) as ([r1 e1] & o & -> & C & S & Ho).
    cbn [fst snd] in C, S, Ho.
    destruct o as [res| |].
    + destruct Ho as [Hs Hn]. eexists _, _. split; [reflexivity|]. cbn [fst snd].
      rewrite Hn. split; [done|]. split; [done|]. split; [done|]. intros Hdelay.
      pose proof (pause_of_nonneg (max_recovery_attempts r) attempt _ Hdelay).
      pose proof (wait_bound_nonneg (max_recovery_attempts r) _ rest Hdelay).
      split; lra.
    + eexists _, _. split; [reflexivity|]. cbn [fst snd].
      rewrite Ho. split; [done|]. split; [done|]. split; [done|]. intros Hdelay.
      pose proof (pause_of_nonneg (max_recovery_attempts r) attempt _ Hdelay).
      pose proof (wait_bound_nonneg (max_recovery_attempts r) _ rest Hdelay).
      split; lra.
    + assert (retry_delay r1 = retry_delay r /\
              max_recovery_attempts r1 = max_recovery_attempts r) as [Hd Hm]
        by (unfold config in C; by injection C as _ _ _ -> -> _ _).
      destruct (IH r1 e1) as (s2 & found & -> & C2 & S2 & Hf & N).
      rewrite Hd, Hm in N.
      eexists _, _. split; [reflexivity|].
      split; [congruence|]. split.
      * rewrite S2. unfold stats in S. injection S as -> -> -> ->.
        cbn [counted]. by rewrite Z.add_0_r.
      * split; [exact Hf|]. intros Hdelay. destruct (N Hdelay) as [N1 N2].
        pose proof (pause_of_nonneg (max_recovery_attempts r) attempt _ Hdelay).
        rewrite Ho in N1, N2. split; lra.
Qed.

(** Over [range(max)] the waits are those of [max - 1] sleeps. *)
Lemma wait_bound_range (max : Z) (delay : Q) :
  (1 <= max)%Z ->
  wait_bound max delay (range max) == inject_Z (max - 1) * delay.
Proof.
  intros Hmax. unfold range.
  assert (forall (m k : nat),
            (Z.of_nat k + Z.of_nat m = max)%Z ->
            wait_bound max delay (map Z.of_nat (seq k m)) ==
              inject_Z (Z.max 0 (Z.of_nat m - 1)) * delay) as Hseq.
  { induction m as [|m IH]; intros k Hk;
      [cbn [seq map wait_bound]; change (inject_Z _) with 0; ring|].
    cbn [seq map wait_bound]. rewrite (IH (S k)) by lia.
    unfold pause_of. destruct (Z.of_nat k <? max - 1)%Z eqn:E.
    - apply Z.ltb_lt in E.
      replace (Z.max 0 (Z.of_nat (S m) - 1)) with (Z.max 0 (Z.of_nat m - 1) + 1)%Z by lia.
      rewrite inject_Z_plus. ring.
    - apply Z.ltb_ge in E.
      replace (Z.max 0 (Z.of_nat (S m) - 1)) with 0%Z by lia.
      replace (Z.max 0 (Z.of_nat m - 1)) with 0%Z by lia.
      change (inject_Z 0) with 0. ring. }
  rewrite (Hseq (Z.to_nat max) 0%nat) by lia.
  replace (Z.max 0 (Z.of_nat (Z.to_nat max) - 1)) with (max - 1)%Z by lia.
  reflexivity.
Qed.

(** One contract, in the statistics and on the clock. *)
Lemma recover_single_effect loc r e :
  exists s' res,
    _recover_single_contract float_of_string loc (r, e) = (s', Ret res) /\
    config (fst s') = config r /\
    stats (fst s') =
      ((total_recoveries_attempted r + 1)%Z,
       (successful_recoveries r +
        (if success res then if still_active res then 0 else 1 else 0))%Z,
       (failed_recoveries r + (if success res then 0 else 1))%Z,
       contracts_forced_as_loss r) /\
    (0 <= retry_delay r ->
     now e <= now (snd s') /\
     now (snd s') <=
       now e + wait_bound (max_recovery_attempts r) (retry_delay r)
                 (range (max_recovery_attempts r))).
Proof.
  unfold _recover_single_contract.
  unfold bind at 1, modify at 1. unfold bind at 1, gets at 1. cbn [fst].
  set (r0 := with_stats _ _ _ _ _ r).
  change (max_recovery_attempts r0) with (max_recovery_attempts r).
  unfold bind at 1.
  destruct (attempts_effect loc (range (max_recovery_attempts r)) r0 e)
    as ([r1 e1] & found & -> & C & S & Hf & N).
  cbn [fst snd] in C, S, N.
  destruct found as [res|].
  - eexists _, _. split; [reflexivity|]. cbn [fst snd]. rewrite Hf.
    split; [exact C|]. split; [|exact N].
    rewrite S. cbn. by rewrite Z.add_0_r.
  - eexists _, _. split; [reflexivity|]. cbn [fst snd success still_active].
    split; [exact C|]. split; [|exact N].
    unfold stats in *. cbn. injection S as -> -> -> ->. cbn. by rewrite !Z.add_0_r.
Qed.

Lemma notify_effect loc contract_data r e :
  exists r' e',
    notify loc contract_data (r, e) = ((r', e'), Ret tt) /\
    config r' = config r /\ stats r' = stats r /\ now e' = now e.
Proof.
  unfold notify. destruct (contract_update_callback r) as [contract_update|];
    [|by eexists _, _].
  destruct (contract_update loc contract_data (contracts e, world e)) as [[cs w'] [ex|]];
    by eexists _, _.
Qed.

(** Whether a position was recovered or failed, in the two counts. *)
Definition one_if (b : bool) : Z := if b then 1 else 0.

Lemma recover_one_effect loc acc r e :
  exists s' acc' (ok active : bool),
    recover_one float_of_string loc acc (r, e) = (s', Ret acc') /\
    config (fst s') = config r /\
    recovered_count acc' = (recovered_count acc + one_if ok)%Z /\
    failed_count acc' = (failed_count acc + one_if (negb ok))%Z /\
    stats (fst s') =
      ((total_recoveries_attempted r + 1)%Z,
       (successful_recoveries r + one_if (ok && negb active))%Z,
       (failed_recoveries r + one_if (negb ok))%Z,
       (contracts_forced_as_loss r + one_if (negb ok))%Z) /\
    (0 <= retry_delay r ->
     now e <= now (snd s') /\
     now (snd s') <=
       now e + wait_bound (max_recovery_attempts r) (retry_delay r)
                 (range (max_recovery_attempts r))).
Proof.
  unfold recover_one, bind at 1.
  destruct (recover_single_effect loc r e) as ([r1 e1] & res & -> & C & S & N).
  cbn [fst snd] in C, S, N.
  destruct (success res) eqn:Hs.
  - unfold bind.
    destruct (notify_effect loc (data res) r1 e1) as (r2 & e2 & -> & C2 & S2 & N2).
    eexists (r2, e2), _, true, (still_active res). split; [reflexivity|].
    cbn [fst snd recovered_count failed_count one_if negb andb].
    split; [congruence|]. split; [reflexivity|]. split; [by rewrite Z.add_0_r|].
    split; [|by rewrite N2].
    rewrite S2, S. rewrite !Z.add_0_r. by destruct (still_active res).
  - unfold bind, gets, write_contract, logger, modify, ret. cbn [fst snd].
    eexists _, _, false, false. split; [reflexivity|].
    cbn [fst snd recovered_count failed_count one_if negb andb now].
    split; [exact C|]. split; [by rewrite Z.add_0_r|]. split; [reflexivity|].
    split; [|exact N].
    unfold stats in *. cbn. injection S as -> -> -> ->. reflexivity.
Qed.

(** What the recovery of [n] positions leaves in the statistics, in the
    counts of the report, and on the clock. *)
Definition accounted (n : Z) r e (acc : counters) s' (acc' : counters) : Prop :=
  config (fst s') = config r /\
  (total_recoveries_attempted (fst s') = total_recoveries_attempted r + n /\
   recovered_count acc' + failed_count acc' =
     recovered_count acc + failed_count acc + n /\
   recovered_count acc <= recovered_count acc' /\
   failed_count acc <= failed_count acc' /\
   failed_recoveries (fst s') - failed_recoveries r =
     failed_count acc' - failed_count acc /\
   contracts_forced_as_loss (fst s') - contracts_forced_as_loss r =
     failed_count acc' - failed_count acc /\
   successful_recoveries r <= successful_recoveries (fst s') /\
   successful_recoveries (fst s') - successful_recoveries r <=
     recovered_count acc' - recovered_count acc)%Z /\
  (0 <= retry_delay r ->
   now e <= now (snd s') /\
   now (snd s') <=
     now e + inject_Z n * wait_bound (max_recovery_attempts r) (retry_delay r)
                            (range (max_recovery_attempts r))).

Lemma recover_each_effect (locs : list nat) : forall acc r e,
  exists s' acc',
    recover_each float_of_string locs acc (r, e) = (s', Ret acc') /\
    accounted (Z.of_nat (length locs)) r e acc s' acc'.
Proof.
  induction locs as [|loc rest IH]; intros acc r e.
  - exists (r, e), acc. split; [reflexivity|]. unfold accounted. cbn [fst snd length].
    split; [reflexivity|]. split; [lia|]. intros _.
    change (inject_Z (Z.of_nat 0)) with 0. split; lra.
  - cbn [recover_each]. unfold bind at 1.
    destruct (recover_one_effect loc acc r e)
      as ([r1 e1] & acc1 & ok & active & -> & C1 & R1 & F1 & S1 & N1).
    cbn [fst snd] in C1, S1, N1.
    destruct (IH acc1 r1 e1) as (s2 & acc2 & -> & C2 & Z2 & N2).
    exists s2, acc2. split; [reflexivity|]. unfold accounted.
    assert (retry_delay r1 = retry_delay r /\
            max_recovery_attempts r1 = max_recovery_attempts r) as [Hd Hm]
      by (unfold config in C1; by injection C1 as _ _ _ -> -> _ _).
    split; [congruence|]. split.
    + unfold stats in S1. injection S1 as T1 U1 V1 W1.
      replace (Z.of_nat (length (loc :: rest))) with (Z.of_nat (length rest) + 1)%Z
        by (cbn [length]; lia). destruct ok, active; cbn [one_if negb andb] in *; lia.
    + intros Hdelay. rewrite Hd, Hm in N2.
      destruct (N1 Hdelay) as [A1 A2], (N2 Hdelay) as [B1 B2].
      replace (Z.of_nat (length (loc :: rest))) with (Z.of_nat (length rest) + 1)%Z
        by (cbn [length]; lia).
      rewrite inject_Z_plus. change (inject_Z 1) with 1. split; lra.
Qed.

(** The statistics follow the report. After [recover_lost_contracts] the
    attempts counted have grown by the number of positions of the report;
    the failed recoveries and the contracts forced as loss have both grown
    by the failed count of the report; the successful recoveries have grown
    by at most the recovered count (a position the venue reports open is
    counted as recovered in the report, and in neither statistic); the
    settings, the callbacks and the snapshot itself are as before, so that a
    second run asks for the same positions again. *)
Theorem recovery_statistics_follow_report r e :
  exists r' e' rep,
    recover_lost_contracts float_of_string (r, e) = ((r', e'), Ret rep) /\
    (total_recoveries_attempted r' = total_recoveries_attempted r + total_contracts rep /\
     failed_recoveries r' = failed_recoveries r + failed rep /\
     contracts_forced_as_loss r' = contracts_forced_as_loss r + failed rep /\
     0 <= successful_recoveries r' - successful_recoveries r <= recovered rep /\
     0 <= failed rep)%Z /\
    monitored_contracts r' = monitored_contracts r /\
    max_recovery_attempts r' = max_recovery_attempts r /\
    retry_delay r' = retry_delay r.
Proof.
  unfold recover_lost_contracts, bind at 1, gets at 1. cbn [fst].
  destruct (monitored_contracts r) as [|entry rest] eqn:Emon.
  - exists r, e. eexists. split; [reflexivity|]. cbn. rewrite Emon. repeat split; lia.
  - unfold bind at 1.
    destruct (recover_each_effect (entry :: rest).*2
                {| recovered_count := 0; failed_count := 0; profit_total := 0 |} r e)
      as ([r' e'] & acc' & -> & C & Hz & _).
    cbn [fst snd] in C, Hz.
    exists r', e'. eexists. split; [reflexivity|].
    cbn [total_contracts recovered failed fst].
    unfold config in C. injection C as Cm _ _ Ca Cd _ _.
    rewrite Cm, Emon. rewrite length_fmap in Hz.
    cbn [recovered_count failed_count] in Hz.
    repeat split; try done; lia.
Qed.

(** The waits of a recovery are bounded. With at least one attempt allowed
    and a retry delay that is not negative, [recover_lost_contracts] sleeps
    (attempts - 1) retry delays per position at most (4 seconds with the
    settings of [__init__]), and never after the last attempt for a
    position. *)
Theorem recovery_waits_are_bounded r e :
  (1 <= max_recovery_attempts r)%Z -> 0 <= retry_delay r ->
  exists s' rep,
    recover_lost_contracts float_of_string (r, e) = (s', Ret rep) /\
    now e <= now (snd s') /\
    now (snd s') <=
      now e +
      inject_Z (total_contracts rep) * (inject_Z (max_recovery_attempts r - 1) * retry_delay r).
Proof.
  intros Hmax Hdelay.
  unfold recover_lost_contracts, bind at 1, gets at 1. cbn [fst].
  destruct (monitored_contracts r) as [|entry rest] eqn:Emon.
  - eexists _, _. split; [reflexivity|]. cbn [snd total_contracts].
    change (inject_Z 0) with 0. split; lra.
  - unfold bind at 1.
    destruct (recover_each_effect (entry :: rest).*2
                {| recovered_count := 0; failed_count := 0; profit_total := 0 |} r e)
      as ([r' e'] & acc' & -> & C & _ & N).
    cbn [fst snd] in C, N. destruct (N Hdelay) as [N1 N2].
    eexists _, _. split; [reflexivity|]. cbn [snd total_contracts fst].
    unfold config in C. injection C as Cm _ _ _ _ _ _.
    rewrite Cm, Emon. rewrite length_fmap in N2.
    rewrite (wait_bound_range _ _ Hmax) in N2. split; [exact N1 | exact N2].
Qed.

(** The venue's word is taken at the first answer. When the first request
    for a position is answered with a final status ("sold", "won" or
    "lost") and a readable buy price (and payout, for "won"), the recovery
    makes that one request and does not wait; the profit is payout minus buy
    price for "won" and minus the buy price otherwise (also for a position
    that was sold, whatever it was sold for); the position is written WON
    when that profit is positive and LOST when it is not, with the profit
    and the time; and the recovery is counted as successful. *)
Theorem venue_final_status_is_recorded
    loc r e (send_request : send_request_type World) w' response contract_data
    (venue_status : string) (buy_price payout_read : Q) :
  send_request_callback r = Some send_request ->
  (1 <= max_recovery_attempts r)%Z ->
  send_request
    {[ "proposal_open_contract" := JNum 1;
       "contract_id" := JStr (id (contracts e loc)) ]} (world e) =
    (w', Ret (Some response)) ->
  response !! "proposal_open_contract" = Some (JObj contract_data) ->
  contract_data !! "status" = Some (JStr venue_status) ->
  venue_status ∈ ["sold"; "won"; "lost"]%string ->
  py_float float_of_string
    (get contract_data "buy_price" (JNum (amount (contracts e loc)))) = Ret buy_price ->
  (venue_status = "won"%string ->
   py_float float_of_string (get contract_data "payout" (JNum 0)) = Ret payout_read) ->
  let recorded :=
    if bool_decide (venue_status = "won"%string) then payout_read - buy_price
    else - buy_price in
  exists r',
    _recover_single_contract float_of_string loc (r, e) =
      ((r', {| contracts :=
                 <[loc := with_result (if positive recorded then WON else LOST)
                            recorded (Some (now e)) (contracts e loc)]>
                   (contracts e);
               world := w'; now := now e |}),
       Ret {| success := true; result_profit := recorded;
              data := Some (JObj contract_data); still_active := false |}) /\
    successful_recoveries r' = (successful_recoveries r + 1)%Z /\
    failed_recoveries r' = failed_recoveries r.
Proof.
  intros Hcb Hmax Hsend Hresp Hst Hfinal Hbuy Hpay profit.
  unfold _recover_single_contract.
  unfold bind at 1, modify at 1. unfold bind at 1, gets at 1. cbn [fst].
  set (r0 := with_stats _ _ _ _ _ r).
  change (max_recovery_attempts r0) with (max_recovery_attempts r).
  unfold range. destruct (Z.to_nat (max_recovery_attempts r)) as [|n] eqn:En; [lia|].
  cbn [seq map attempts]. unfold bind at 1. unfold bind at 1.
  unfold attempt_once, bind at 1, gets at 1. cbn [fst].
  unfold bind at 1, gets at 1. cbn [fst].
  unfold try_except, bind at 1.
  assert (exists r1,
            attempt_body float_of_string loc (Z.of_nat 0) (r0, e) =
              ((r1, {| contracts :=
                         <[loc := with_result (if positive profit then WON else LOST)
                                    profit (Some (now e)) (contracts e loc)]>
                           (contracts e);
                       world := w'; now := now e |}),
               Ret (Return {| success := true; result_profit := profit;
                              data := Some (JObj contract_data);
                              still_active := false |})) /\
            successful_recoveries r1 = (successful_recoveries r + 1)%Z /\
            failed_recoveries r1 = failed_recoveries r) as (r1 & -> & Hs1 & Hf1).
  { unfold attempt_body. cbv zeta.
    change (send_request_callback r0) with (send_request_callback r).
    rewrite Hcb, Hsend. cbn [mbind option_bind]. rewrite Hresp.
    unfold get. rewrite Hst. unfold default, from_option, Datatypes.id.
    assert (is_str (JStr venue_status) "sold" || is_str (JStr venue_status) "won" ||
            is_str (JStr venue_status) "lost" = true) as ->.
    { cbn [is_str]. rewrite !elem_of_cons in Hfinal.
      destruct Hfinal as [->|[->|[->|Hnil]]]; [done..|by apply elem_of_nil in Hnil]. }
    unfold bind at 1.
    assert (exists r1,
              _calculate_contract_profit float_of_string (contracts e loc) contract_data
                (r0, {| contracts := contracts e; world := w'; now := now e |}) =
                ((r1, {| contracts := contracts e; world := w'; now := now e |}),
                 Ret profit) /\ r1 = r0) as (r1 & -> & ->).
    { unfold _calculate_contract_profit. rewrite Hbuy. unfold get at 1.
      rewrite Hst. unfold default, from_option, Datatypes.id. cbn [is_str]. subst profit.
      case_bool_decide as Hwon; [rewrite (Hpay Hwon)|]; by eexists. }
    unfold bind, gets, write_contract, logger, modify, ret. cbn [fst snd].
    eexists. split; [reflexivity|]. by cbn. }
  eexists. split; [reflexivity|]. auto.
Qed.

End Accounting.

Lemma recovery_waits_are_bounded_witness :
  exists s' rep,
    recover_lost_contracts no_float
      (fst (snapshot unreachable_venue), snd (snapshot unreachable_venue)) =
      (s', Ret rep) /\
    now (snd (snapshot unreachable_venue)) <= now (snd s') /\
    now (snd s') <=
      now (snd (snapshot unreachable_venue)) +
      inject_Z (total_contracts rep) *
      (inject_Z (max_recovery_attempts (fst (snapshot unreachable_venue)) - 1) *
       retry_delay (fst (snapshot unreachable_venue))).
Proof.
  apply (recovery_waits_are_bounded no_float (fst (snapshot unreachable_venue))
           (snd (snapshot unreachable_venue))); by vm_compute.
Defined.

(** The venue reports the position sold for 5, bought for 1. *)
Definition sold_contract : gmap string json :=
  {[ "status" := JStr "sold"; "buy_price" := JNum 1; "sell_price" := JNum 5 ]}.

Definition venue_reports_sold : send_request_type nat :=
  fun _ requests =>
    (S requests, Ret (Some {[ "proposal_open_contract" := JObj sold_contract ]})).

Lemma venue_final_status_is_recorded_witness :
  exists r',
    _recover_single_contract no_float 0
      (fst (snapshot venue_reports_sold), snd (snapshot venue_reports_sold)) =
      ((r', {| contracts :=
                 <[0%nat := with_result LOST (- (1)) (Some 0) (new_contract "C1" "R_100" 1)]>
                   ledger;
               world := 1%nat; now := 0 |}),
       Ret {| success := true; result_profit := - (1);
              data := Some (JObj sold_contract); still_active := false |}) /\
    successful_recoveries r' = 1%Z /\ failed_recoveries r' = 0%Z.
Proof.
  apply (venue_final_status_is_recorded no_float 0%nat
           (fst (snapshot venue_reports_sold)) (snd (snapshot venue_reports_sold))
           venue_reports_sold 1%nat
           {[ "proposal_open_contract" := JObj sold_contract ]} sold_contract
           "sold" 1 0).
  - reflexivity.
  - by vm_compute.
  - reflexivity.
  - reflexivity.
  - reflexivity.
  - rewrite elem_of_cons. by left.
  - reflexivity.
  - discriminate.
Defined.

End ContractRecovery.

(** ** src/core/bot.py: the reconciliation after a recovery *)

Module TradingBot.

Import DataModels.

#[local] Open Scope Q_scope.

(** The fields of the bot the reconciliation reads or writes. [asset_states]
    is the dict of the assets in its insertion order; an asset is named by
    its position. *)
Record t : Type := mk {
  balance : Q;
  session_current_balance : Q;
  asset_states : list AssetState;
  DUAL_ENTRY : bool
}.

(** The contracts and the bot. *)
Definition state : Type := store * t.

(** The inner [for existing_contract in asset_state.active_contracts]. *)
Fixpoint find_contract (contracts : store) (wanted : string) (locs : list nat)
  : option nat :=
  match locs with
  | [] => None
  | loc :: rest =>
      if bool_decide (id (contracts loc) = wanted) then Some loc
      else find_contract contracts wanted rest
  end.

(** The outer [for asset_state in self.asset_states.values()]: the first
    asset, from position [i], that holds a contract of the wanted id. *)
Fixpoint find_asset (contracts : store) (wanted : string)
    (assets : list AssetState) (i : nat) : option (nat * nat) :=
  match assets with
  | [] => None
  | asset :: rest =>
      match find_contract contracts wanted (active_contracts asset) with
      | Some loc => Some (i, loc)
      | None => find_asset contracts wanted rest (S i)
      end
  end.

(** [_all_contracts_finished] *)
Definition _all_contracts_finished (contracts : store) (asset : AssetState) : bool :=
  forallb (fun loc => is_finished (contracts loc)) (active_contracts asset).

(** [c.profit for c in asset_state.active_contracts] *)
Definition profits (contracts : store) (asset : AssetState) : list Q :=
  map (fun loc => profit (contracts loc)) (active_contracts asset).

Definition with_forced_total (v : attribute (option Q)) (asset : AssetState)
  : AssetState :=
  {| asset_symbol := asset_symbol asset;
     current_sequence := current_sequence asset;
     loss_accumulator := loss_accumulator asset;
     active_contracts := active_contracts asset;
     forced_total_loss := v |}.

Definition with_sequence (sequence : Z) (accumulator : Q) (asset : AssetState)
  : AssetState :=
  {| asset_symbol := asset_symbol asset;
     current_sequence := sequence;
     loss_accumulator := accumulator;
     active_contracts := active_contracts asset;
     forced_total_loss := forced_total_loss asset |}.

Definition with_assets (assets : list AssetState) (bot : t) : t :=
  {| balance := balance bot;
     session_current_balance := session_current_balance bot;
     asset_states := assets;
     DUAL_ENTRY := DUAL_ENTRY bot |}.

Definition with_balance (b : Q) (bot : t) : t :=
  {| balance := b;
     session_current_balance := b;
     asset_states := asset_states bot;
     DUAL_ENTRY := DUAL_ENTRY bot |}.

(** [_correct_results_after_recovery], on the asset at position [i].
    [hasattr] is always true; reading the attribute once it is deleted gives
    [None]; [delattr] raises when it is already deleted; subtracting [None]
    raises, after the [delattr]. *)
Definition _correct_results_after_recovery (i : nat) : Py state unit :=
  fun '(contracts, bot) =>
    match asset_states bot !! i with
    | None => ((contracts, bot), Ret tt)
    | Some asset =>
        let real_total := py_sum (profits contracts asset) in
        match forced_total_loss asset with
        | Deleted => ((contracts, bot), Raise (AttributeError "forced_total_loss"))
        | Held forced_total =>
            let asset1 := with_forced_total Deleted asset in
            let bot1 := with_assets (<[i := asset1]> (asset_states bot)) bot in
            match forced_total with
            | None => ((contracts, bot1), Raise TypeError)
            | Some forced_total =>
                let balance_correction := real_total - forced_total in
                let bot2 := with_balance (balance bot1 + balance_correction) bot1 in
                let operation_won :=
                  if DUAL_ENTRY bot2
                  then existsb positive (profits contracts asset1)
                  else positive real_total in
                if operation_won && (1 <? current_sequence asset1)%Z
                then ((contracts,
                       with_assets
                         (<[i := with_sequence 1 0 asset1]> (asset_states bot2)) bot2),
                      Ret tt)
                else ((contracts, bot2), Ret tt)
            end
        end
    end.

(** The writes of [_process_contract_recovery_update] to the contract found:
    it takes the result of [contract], and its forced-result flag is cleared. *)
Definition take_result (contract original : ContractInfo) : ContractInfo :=
  {| id := id original; symbol := symbol original; amount := amount original;
     status := status contract;
     end_time := end_time contract;
     profit := profit contract;
     payout := payout contract;
     sell_price := sell_price contract;
     forced_result := false |}.

(** [_process_contract_recovery_update]; [contract] is the location of the
    contract object it is given. *)
Definition _process_contract_recovery_update (contract : nat)
    (contract_data : option json) : Py state unit :=
  fun '(contracts, bot) =>
    match find_asset contracts (id (contracts contract)) (asset_states bot) 0 with
    | None => ((contracts, bot), Ret tt)
    | Some (i, original) =>
        let was_forced_loss := forced_result (contracts original) in
        let contracts' :=
          <[original := take_result (contracts contract) (contracts original)]>
            contracts in
        match asset_states bot !! i with
        | Some asset =>
            if _all_contracts_finished contracts' asset && was_forced_loss
            then _correct_results_after_recovery i (contracts', bot)
            else ((contracts', bot), Ret tt)
        | None => ((contracts', bot), Ret tt)
        end
    end.

(** The method as the [contract_update] callback of the recovery. *)
Definition contract_update : ContractRecovery.contract_update_type t :=
  fun contract contract_data s =>
    match _process_contract_recovery_update contract contract_data s with
    | (s', Ret _) => (s', None)
    | (s', Raise ex) => (s', Some ex)
    end.

Section Properties.

Implicit Types (contracts : store) (bot : t) (asset : AssetState).

Lemma fold_nonpositive (xs : list Q) : forall acc,
  (forall x, In x xs -> x <= 0) -> fold_left Qplus xs acc <= acc.
Proof.
  induction xs as [|x rest IH]; intros acc Hall; cbn [fold_left]; [lra|].
  assert (x <= 0) by (apply Hall; left; reflexivity).
  assert (fold_left Qplus rest (acc + x) <= acc + x)
    by (apply IH; intros y Hy; apply Hall; right; exact Hy).
  lra.
Qed.

(** A positive sum has a positive term. *)
Lemma positive_sum_has_positive_term (xs : list Q) :
  0 < py_sum xs -> existsb positive xs = true.
Proof.
  intros Hsum. destruct (existsb positive xs) eqn:E; [reflexivity|].
  exfalso. assert (py_sum xs <= 0); [|lra].
  apply fold_nonpositive. intros x Hx.
  assert (positive x = false) as Hnp.
  { destruct (positive x) eqn:Ep; [|reflexivity].
    assert (existsb positive xs = true) by (apply existsb_exists; eauto). congruence. }
  unfold positive in Hnp. apply negb_false_iff, Qle_bool_iff in Hnp. exact Hnp.
Qed.

Lemma positive_spec (x : Q) : 0 < x -> positive x = true.
Proof.
  intros H. unfold positive. apply negb_true_iff.
  destruct (Qle_bool x 0) eqn:E; [|reflexivity].
  apply Qle_bool_iff in E. lra.
Qed.

(** The search reads the ids of the contracts and the lists of the assets
    only. *)
Lemma find_contract_ext contracts contracts' wanted locs :
  (forall loc, id (contracts' loc) = id (contracts loc)) ->
  find_contract contracts' wanted locs = find_contract contracts wanted locs.
Proof.
  intros Hid. induction locs as [|loc rest IH]; cbn; [reflexivity|].
  by rewrite Hid, IH.
Qed.

Lemma find_asset_ext contracts contracts' wanted (assets assets' : list AssetState) :
  (forall loc, id (contracts' loc) = id (contracts loc)) ->
  active_contracts <$> assets' = active_contracts <$> assets ->
  forall i, find_asset contracts' wanted assets' i = find_asset contracts wanted assets i.
Proof.
  intros Hid. revert assets'.
  induction assets as [|asset rest IH]; intros [|asset' rest'] Hacts i;
    try discriminate; [reflexivity|].
  cbn in Hacts. injection Hacts as Hact Hrest.
  cbn [find_asset]. rewrite Hact, (find_contract_ext _ _ _ _ Hid).
  destruct (find_contract contracts wanted (active_contracts asset)); [reflexivity|].
  by apply IH.
Qed.

Lemma insert_keeps_lists (assets : list AssetState) i asset asset' :
  assets !! i = Some asset ->
  active_contracts asset' = active_contracts asset ->
  active_contracts <$> <[i := asset']> assets = active_contracts <$> assets.
Proof.
  intros Hi Hact. rewrite list_fmap_insert, Hact.
  apply list_insert_id. by rewrite list_lookup_fmap, Hi.
Qed.


End Properties.

(** The reference reconciliation: a position of amount 1.00 was forced to
    -1.00 at sequence 2 and is now confirmed won with payout 1.95, profit
    0.95. *)
Definition forced_position : ContractInfo :=
  {| id := "C1"; symbol := "R_100"; amount := 1; status := LOST;
     end_time := Some 10; profit := -1; payout := 0; sell_price := 0;
     forced_result := true |}.

Definition confirmed_position : ContractInfo :=
  {| id := "C1"; symbol := "R_100"; amount := 1; status := WON;
     end_time := Some 12; profit := 19 # 20; payout := 39 # 20;
     sell_price := 39 # 20; forced_result := false |}.

(** Location 0 is the position in the ledger of the asset, location 1 the
    object the recovery hands over. *)
Definition ledger : store :=
  <[1%nat := confirmed_position]> (fun _ => forced_position).

Definition forced_asset : AssetState :=
  {| asset_symbol := "R_100"; current_sequence := 2; loss_accumulator := 1;
     active_contracts := [0%nat]; forced_total_loss := Held (Some (-1)) |}.

Definition bot_after_forced_loss : t :=
  {| balance := 99; session_current_balance := 99;
     asset_states := [forced_asset]; DUAL_ENTRY := false |}.


(** An asset that holds no forced total (the default of the dataclass): the
    correction deletes the attribute and stops at the subtraction; the
    balance is not changed. *)
Example correction_without_forced_total :
  let asset := with_forced_total (Held None) forced_asset in
  let bot := with_assets [asset] bot_after_forced_loss in
  exists bot',
    _process_contract_recovery_update 1 None (ledger, bot) =
      ((<[0%nat := take_result confirmed_position forced_position]> ledger, bot'),
       Raise TypeError) /\
    balance bot' = balance bot.
Proof. eexists. split; reflexivity. Qed.

End TradingBot.
